(** * Stocksight: the demand-forecasting core, embedded in Rocq

    The development follows [server/services/forecastService.js]
    (class [ForecastService], and the grouping loop of
    [TrendWiseService.fetchSalesDataFromDB]),
    [server/controllers/forecastController.js] and, for the rule the
    dashboard displays, [src/hooks/useSupabaseData.ts].  It goes on with
    the rest of the dashboard hook, with [AlertService], and with the part
    of [TrendWiseService] that saves the predictions of the model.

    Conventions of the embedding.
    - A JavaScript number is a [number]: a rational, one of the two
      infinities, or NaN.  Arithmetic on finite values is exact (rounding
      error and overflow of IEEE doubles are not modelled) and zero carries
      no sign; division by zero and the propagation of NaN follow IEEE-754,
      as JavaScript does.  [Undefined] stands for a property that is read
      but absent; arithmetic turns it into NaN.
    - [quantity_sold] is an [integer NOT NULL] column: a [Z].
    - [sale_date] is a [date NOT NULL] column, delivered as a
      ['YYYY-MM-DD'] string; a calendar date is embedded as its day number
      (a [Z]), so that equality of the strings is equality of the numbers
      and [new Date(a) - new Date(b)] has the sign of [a - b].
    - [new Date()] moved [i] days ahead by [setDate(getDate() + i)] and
      printed by [toISOString] gives a date that depends on the instant
      and on the time zone of the process (the days are added in local
      time, the date is printed in UTC): that date is a parameter of the
      development, [date_ahead].
    - [Math.sqrt], [Math.sin], [Math.PI] and the outcomes of
      [Math.random()] are parameters of the development.
    - Asynchronous code is sequential code in a state-and-exception monad
      over the state of the outside world (database, random generator). *)

From Stdlib Require Import ZArith QArith Qround Qabs Qminmax List String Bool Lia Lqa.
From Stdlib Require Import Sorting.Sorted Sorting.Permutation.
Import ListNotations.

Local Open Scope Z_scope.
Local Open Scope Q_scope.

(* ================================================================= *)
(** ** JavaScript numbers *)

Inductive number : Type :=
| Fin (q : Q)
| PosInf
| NegInf
| NaN
| Undefined.

Definition of_Z (z : Z) : number := Fin (inject_Z z).
Definition of_nat (n : nat) : number := of_Z (Z.of_nat n).

(** Sign of a finite value: [Lt] negative, [Eq] zero, [Gt] positive. *)
Definition Qsign (q : Q) : comparison := q ?= 0.

Definition signed_inf (positive : bool) : number :=
  if positive then PosInf else NegInf.

Definition num_neg (a : number) : number :=
  match a with
  | Fin q => Fin (- q)
  | PosInf => NegInf
  | NegInf => PosInf
  | NaN | Undefined => NaN
  end.

Definition num_add (a b : number) : number :=
  match a, b with
  | Fin x, Fin y => Fin (x + y)
  | Fin _, PosInf | PosInf, Fin _ | PosInf, PosInf => PosInf
  | Fin _, NegInf | NegInf, Fin _ | NegInf, NegInf => NegInf
  | _, _ => NaN
  end.

Definition num_sub (a b : number) : number := num_add a (num_neg b).

(** [x * (+-Infinity)] for a finite [x]. *)
Definition scale_inf (x : Q) (positive : bool) : number :=
  match Qsign x with
  | Eq => NaN
  | Gt => signed_inf positive
  | Lt => signed_inf (negb positive)
  end.

Definition num_mul (a b : number) : number :=
  match a, b with
  | Fin x, Fin y => Fin (x * y)
  | Fin x, PosInf | PosInf, Fin x => scale_inf x true
  | Fin x, NegInf | NegInf, Fin x => scale_inf x false
  | PosInf, PosInf | NegInf, NegInf => PosInf
  | PosInf, NegInf | NegInf, PosInf => NegInf
  | _, _ => NaN
  end.

Definition num_div (a b : number) : number :=
  match a, b with
  | Fin x, Fin y =>
      match Qsign y with
      | Eq => match Qsign x with
              | Eq => NaN
              | Gt => PosInf
              | Lt => NegInf
              end
      | _ => Fin (x / y)
      end
  | Fin _, PosInf | Fin _, NegInf => Fin 0
  | PosInf, Fin y => match Qsign y with Lt => NegInf | _ => PosInf end
  | NegInf, Fin y => match Qsign y with Lt => PosInf | _ => NegInf end
  | _, _ => NaN
  end.

(** [Math.pow(x, 2)]. *)
Definition Math_pow2 (a : number) : number := num_mul a a.

(** [Math.round]: the nearest integer, halves rounded towards +Infinity. *)
Definition Qround_half_up (q : Q) : Z := Qfloor (q + (1 # 2)).

Definition Math_round (a : number) : number :=
  match a with
  | Fin q => of_Z (Qround_half_up q)
  | PosInf => PosInf
  | NegInf => NegInf
  | NaN | Undefined => NaN
  end.

Definition Math_max (a b : number) : number :=
  match a, b with
  | NaN, _ | _, NaN | Undefined, _ | _, Undefined => NaN
  | PosInf, _ | _, PosInf => PosInf
  | NegInf, c | c, NegInf => c
  | Fin x, Fin y => if Qlt_le_dec x y then Fin y else Fin x
  end.

Definition Math_min (a b : number) : number :=
  match a, b with
  | NaN, _ | _, NaN | Undefined, _ | _, Undefined => NaN
  | NegInf, _ | _, NegInf => NegInf
  | PosInf, c | c, PosInf => c
  | Fin x, Fin y => if Qlt_le_dec y x then Fin y else Fin x
  end.

(** [x.toFixed(2)] read back by [parseFloat]: two decimals, halves up. *)
Definition toFixed2 (a : number) : number :=
  match a with
  | Fin q => Fin (inject_Z (Qround_half_up (q * 100)) / 100)
  | PosInf => PosInf
  | NegInf => NegInf
  | NaN | Undefined => NaN
  end.

(** The comparison [a <= b] of JavaScript: false as soon as one side is NaN. *)
Definition num_leb (a b : number) : bool :=
  match a, b with
  | NaN, _ | _, NaN | Undefined, _ | _, Undefined => false
  | NegInf, _ | _, PosInf => true
  | PosInf, _ | _, NegInf => false
  | Fin x, Fin y => if Qlt_le_dec y x then false else true
  end.

Definition num_le (a b : number) : Prop := num_leb a b = true.

Definition is_NaN (a : number) : bool :=
  match a with NaN => true | _ => false end.

Definition is_finite (a : number) : bool :=
  match a with Fin _ => true | _ => false end.

(** Equality of numbers as values ([Q] is not in normal form). *)
Definition num_eq (a b : number) : Prop :=
  match a, b with
  | Fin x, Fin y => x == y
  | PosInf, PosInf | NegInf, NegInf | NaN, NaN | Undefined, Undefined => True
  | _, _ => False
  end.

(** Sum of a list of numbers, as [reduce((sum, v) => sum + v, 0)]. *)
Definition num_sum (l : list number) : number :=
  fold_left num_add l (Fin 0).

(* ================================================================= *)
(** ** The recommendation rule *)

Inductive Recommendation : Type := Increase | Maintain | Reduce.

(** Modelled from the spec: the recommendation engine lives in
    [model/trendwise_forecaster.py], which is not among the sources (the
    JavaScript services only parse the word it prints).  Section 4.4 step 3
    gives the rule, "evaluated in this order": stock below the point
    forecast is Increase; otherwise stock below forecast plus safety stock
    is Maintain; otherwise Reduce. *)
Definition recommend (current_stock point_forecast safety_stock : Q)
  : Recommendation :=
  if Qlt_le_dec current_stock point_forecast then Increase
  else if Qlt_le_dec current_stock (point_forecast + safety_stock) then Maintain
  else Reduce.

(** [getRecommendation] of [src/hooks/useSupabaseData.ts]: the dashboard's
    own two-argument rule, which knows no safety stock. *)
Inductive DashboardRecommendation : Type := increase | reduce | maintain.

Definition getRecommendation (currentStock predictedDemand : Q)
  : DashboardRecommendation :=
  if Qlt_le_dec currentStock (predictedDemand * 0.5) then increase
  else if Qlt_le_dec (predictedDemand * 2) currentStock then reduce
  else maintain.

(* ================================================================= *)
(** ** Sales rows and the daily series *)

(** A calendar date, as its day number. *)
Definition calendar_date : Type := Z.

(** A row of [sales_data], with the two columns the forecasting code reads. *)
Record sale : Type := mkSale {
  sale_date : calendar_date;
  quantity_sold : Z
}.

(** An entry [{ date, quantity }] of the aggregated series. *)
Record daily : Type := mkDaily {
  date : calendar_date;
  quantity : Z
}.

(** A JavaScript [Map] (or an object with string keys that are not array
    indices): an association list in insertion order.  Setting a key that
    is present keeps its position. *)
Definition JsMap (V : Type) : Type := list (calendar_date * V).

Fixpoint Map_get {V : Type} (m : JsMap V) (k : calendar_date) : option V :=
  match m with
  | [] => None
  | (k', v) :: m' => if Z.eqb k' k then Some v else Map_get m' k
  end.

Definition Map_has {V : Type} (m : JsMap V) (k : calendar_date) : bool :=
  match Map_get m k with Some _ => true | None => false end.

Fixpoint Map_set {V : Type} (m : JsMap V) (k : calendar_date) (v : V) : JsMap V :=
  match m with
  | [] => [(k, v)]
  | (k', v') :: m' =>
      if Z.eqb k' k then (k, v) :: m' else (k', v') :: Map_set m' k v
  end.

(** The body of the [forEach] of [aggregateDailySales].  The second read of
    the key always finds it, the key having just been set; the [None]
    branch is never taken. *)
Definition aggregate_step (dailyMap : JsMap Z) (s : sale) : JsMap Z :=
  let dailyMap1 :=
    if Map_has dailyMap (sale_date s) then dailyMap
    else Map_set dailyMap (sale_date s) 0%Z in
  match Map_get dailyMap1 (sale_date s) with
  | Some q => Map_set dailyMap1 (sale_date s) (q + quantity_sold s)%Z
  | None => dailyMap1
  end.

(** [Array.prototype.sort] is stable; with the comparator
    [new Date(a.date) - new Date(b.date)] it is the stable sort by date. *)
Fixpoint insert_by_date (x : daily) (l : list daily) : list daily :=
  match l with
  | [] => [x]
  | y :: l' =>
      if Z.leb (date x) (date y) then x :: y :: l'
      else y :: insert_by_date x l'
  end.

Definition sort_by_date (l : list daily) : list daily :=
  fold_right insert_by_date [] l.

Definition aggregateDailySales (salesData : list sale) : list daily :=
  let dailyMap := fold_left aggregate_step salesData [] in
  sort_by_date (map (fun e => mkDaily (fst e) (snd e)) dailyMap).

(** [x || 0] on a quantity read from an object. *)
Definition or_zero (x : option Z) : Z :=
  match x with
  | Some q => if Z.eqb q 0 then 0%Z else q
  | None => 0%Z
  end.

(** A row [{ date, sku, sales_qty }] handed to the TrendWise model. *)
Record trendwise_row : Type := mkRow {
  row_date : calendar_date;
  row_sku : string;
  sales_qty : Z
}.

(** The grouping loop of [fetchSalesDataFromDB], for the rows of one
    product: [dailySales[date] = (dailySales[date] || 0) + quantity_sold],
    then one row per entry of the object, in insertion order. *)
Definition group_step (dailySales : JsMap Z) (s : sale) : JsMap Z :=
  Map_set dailySales (sale_date s)
    (or_zero (Map_get dailySales (sale_date s)) + quantity_sold s)%Z.

Definition groupSalesByDate (sku : string) (sales : list sale)
  : list trendwise_row :=
  map (fun e => mkRow (fst e) sku (snd e)) (fold_left group_step sales []).

(** The sales rows dated [d], whether there is one, and their total. *)
Definition on_date (d : calendar_date) (s : sale) : bool :=
  Z.eqb (sale_date s) d.

Definition has_sale_on (d : calendar_date) (salesData : list sale) : bool :=
  existsb (on_date d) salesData.

Definition total_on (d : calendar_date) (salesData : list sale) : Z :=
  fold_right Z.add 0%Z (map quantity_sold (filter (on_date d) salesData)).

(** Consecutive dates of a series increase strictly. *)
Definition dates_increase (series : list daily) : Prop :=
  StronglySorted Z.lt (map date series).

(* ================================================================= *)
(** ** Exceptions, the outside world, and sequencing *)

Inductive exn : Type :=
| Error (message : string)
| TypeError (message : string).

Definition exn_message (e : exn) : string :=
  match e with Error m | TypeError m => m end.

Inductive outcome (A : Type) : Type :=
| Returned (a : A)
| Threw (e : exn).
Arguments Returned {A} a.
Arguments Threw {A} e.

(** A computation over the world: it returns or throws, and leaves a world
    behind in both cases (what was written before a throw stays written). *)
Definition M (World A : Type) : Type := World -> outcome A * World.

Section Sequencing.
Context {World : Type}.

Definition ret {A : Type} (a : A) : M World A := fun w => (Returned a, w).

Definition throw {A : Type} (e : exn) : M World A := fun w => (Threw e, w).

Definition bind {A B : Type} (c : M World A) (k : A -> M World B) : M World B :=
  fun w =>
    match c w with
    | (Returned a, w') => k a w'
    | (Threw e, w') => (Threw e, w')
    end.

(** [try { body } catch (error) { handler }]. *)
Definition try_catch {A : Type} (body : M World A) (handler : exn -> M World A)
  : M World A :=
  fun w =>
    match body w with
    | (Returned a, w') => (Returned a, w')
    | (Threw e, w') => handler e w'
    end.

(** A loop [for (const x of l)] over a loop state [s] (the arrays it
    pushes to). *)
Fixpoint for_of {A S : Type} (l : list A) (body : A -> S -> M World S) (s : S)
  : M World S :=
  match l with
  | [] => ret s
  | x :: l' => bind (body x s) (for_of l' body)
  end.

(** The counter of [for (let i = 1; i <= days; i++)]. *)
Definition one_to (days : nat) : list nat := seq 1 days.

End Sequencing.

Notation "x <- c ;; k" := (bind c (fun x => k))
  (at level 61, c at next level, right associativity).

(** What the code takes from its JavaScript engine. *)
Record Runtime (World : Type) : Type := mkRuntime {
  (** [Math.sqrt] and [Math.sin] on finite arguments, and [Math.PI] *)
  sqrt_finite : Q -> Q;
  sin_finite : Q -> Q;
  Math_PI : Q;
  (** a call of [Math.random()] *)
  Math_random : World -> Q * World;
  (** the day [new Date()] falls on *)
  today : World -> calendar_date;
  (** the date [toISOString] prints for [new Date()] once
      [setDate(getDate() + i)] has moved it [i] days ahead *)
  date_ahead : World -> Z -> calendar_date;
  (** the wording of the TypeError the engine throws at an expression (or
      in a built-in method) that is named by the argument *)
  engine_message : string -> string
}.
Arguments sqrt_finite {World} _ _.
Arguments sin_finite {World} _ _.
Arguments Math_PI {World} _.
Arguments Math_random {World} _ _.
Arguments today {World} _ _.
Arguments date_ahead {World} _ _ _.
Arguments engine_message {World} _ _.

(** A product row, with the columns the controllers read. *)
Record product : Type := mkProduct {
  product_id : string;
  product_name : string;
  product_sku : string
}.

(** A row of [demand_forecasts] as the code builds it ([forecastData]). *)
Record forecastData : Type := mkForecastData {
  fd_product_id : string;
  forecast_date : calendar_date;
  predicted_demand : number;
  fd_confidence_score : number;
  fd_lower_bound : number;
  fd_upper_bound : number;
  model_version : string
}.

(** The table [demand_forecasts] of the migration: [predicted_demand],
    [lower_bound] and [upper_bound] are [integer NOT NULL] columns and
    [confidence_score] is a [decimal(3,2) NOT NULL] column.  A number that
    is not finite is sent as [null] (JSON has neither NaN nor infinity),
    and a finite number that is no integer is no input for an [integer]
    column.  [refusal] is what a row is refused for, if it is: the types
    are checked before the constraints, and the constraints in the order
    of the columns.  The ranges of the types are left out. *)
Inductive column : Type :=
| column_predicted_demand
| column_confidence_score
| column_lower_bound
| column_upper_bound.

Inductive violation : Type :=
| invalid_integer (c : column)
| null_value (c : column).

Definition is_integer (a : number) : bool :=
  match a with
  | Fin q => Qeq_bool q (inject_Z (Qfloor q))
  | _ => false
  end.

(** A finite number that is no integer. *)
Definition is_fraction (a : number) : bool :=
  is_finite a && negb (is_integer a).

Definition refusal (data : forecastData) : option violation :=
  if is_fraction (predicted_demand data) then
    Some (invalid_integer column_predicted_demand)
  else if is_fraction (fd_lower_bound data) then
    Some (invalid_integer column_lower_bound)
  else if is_fraction (fd_upper_bound data) then
    Some (invalid_integer column_upper_bound)
  else if negb (is_finite (predicted_demand data)) then
    Some (null_value column_predicted_demand)
  else if negb (is_finite (fd_confidence_score data)) then
    Some (null_value column_confidence_score)
  else if negb (is_finite (fd_lower_bound data)) then
    Some (null_value column_lower_bound)
  else if negb (is_finite (fd_upper_bound data)) then
    Some (null_value column_upper_bound)
  else None.

Definition storable (data : forecastData) : bool :=
  match refusal data with
  | None => true
  | Some _ => false
  end.

Definition column_name (c : column) : string :=
  match c with
  | column_predicted_demand => "predicted_demand"
  | column_confidence_score => "confidence_score"
  | column_lower_bound => "lower_bound"
  | column_upper_bound => "upper_bound"
  end.

(** The message of the error, without its quotation marks. *)
Definition violation_message (v : violation) : string :=
  match v with
  | invalid_integer c =>
      ("invalid input syntax for type integer in column " ++ column_name c)%string
  | null_value c =>
      ("null value in column " ++ column_name c
         ++ " violates not-null constraint")%string
  end.

(** A number as a [decimal(3,2)] column keeps it: two decimals, halves
    away from zero. *)
Definition decimal_3_2 (a : number) : number :=
  match a with
  | Fin q =>
      if Qlt_le_dec q 0
      then Fin (- (inject_Z (Qround_half_up (- q * 100)) / 100))
      else Fin (inject_Z (Qround_half_up (q * 100)) / 100)
  | other => other
  end.

(** The row as the table keeps it and as the insertion answers it. *)
Definition stored (data : forecastData) : forecastData :=
  mkForecastData (fd_product_id data) (forecast_date data) (predicted_demand data)
    (decimal_3_2 (fd_confidence_score data)) (fd_lower_bound data)
    (fd_upper_bound data) (model_version data).

(** [dbHelpers] of [config/database.js]: each helper may throw what the
    database client reports.  [getSalesData] answers [None] for [null];
    [getProductById] asks for a single row with [.single()], which
    reports an error when there is none. *)
Record dbHelpers (World : Type) : Type := mkDb {
  getSalesData : string -> nat -> M World (option (list sale));
  createForecast : forecastData -> M World forecastData;
  getProducts : nat -> nat -> M World (list product);
  getProductById : string -> M World (option product)
}.
Arguments getSalesData {World} _ _ _ _.
Arguments createForecast {World} _ _ _.
Arguments getProducts {World} _ _ _ _.
Arguments getProductById {World} _ _ _.

(* ================================================================= *)
(** ** [ForecastService]: the forecasting methods *)

(** An entry [{ date, predicted }] produced by a forecasting method. *)
Record prediction : Type := mkPrediction {
  prediction_date : calendar_date;
  predicted : number
}.

(** A prediction with its interval, as [calculateConfidenceIntervals]
    returns it. *)
Record forecast : Type := mkForecast {
  fc_date : calendar_date;
  fc_predicted : number;
  confidence_score : number;
  lower_bound : number;
  upper_bound : number
}.

(** [l.slice(-window)]: the last [window] elements ([slice(-0)] is the
    whole array). *)
Definition slice_last {A : Type} (window : nat) (l : list A) : list A :=
  match window with
  | O => l
  | _ => skipn (List.length l - window) l
  end.

(** [dailySales.map(d => d.quantity)]. *)
Definition values_of (dailySales : list daily) : list number :=
  map (fun d => of_Z (quantity d)) dailySales.

(** [values.reduce((sum, val) => sum + val, 0) / values.length]. *)
Definition average_of (values : list number) : number :=
  num_div (num_sum values) (of_nat (List.length values)).

(** [values.reduce((sum, val) => sum + Math.pow(val - mean, 2), 0)
    / values.length]. *)
Definition variance_of (values : list number) : number :=
  let mean := average_of values in
  num_div
    (fold_left (fun sum val => num_add sum (Math_pow2 (num_sub val mean)))
       values (Fin 0))
    (of_nat (List.length values)).

Section Service.
Context {World : Type} (rt : Runtime World) (db : dbHelpers World).

Definition Math_sqrt (a : number) : number :=
  match a with
  | Fin q => if Qlt_le_dec q 0 then NaN else Fin (sqrt_finite rt q)
  | PosInf => PosInf
  | NegInf | NaN | Undefined => NaN
  end.

Definition Math_sin (a : number) : number :=
  match a with
  | Fin q => Fin (sin_finite rt q)
  | PosInf | NegInf | NaN | Undefined => NaN
  end.

Definition random : M World number :=
  fun w => let (r, w') := Math_random rt w in (Returned (Fin r), w').

Definition Date_now : M World calendar_date :=
  fun w => (Returned (today rt w), w).

(** [new Date()] where the code moves it ahead: what is kept of the
    instant is the date it prints once moved [i] days ahead. *)
Definition new_Date : M World (Z -> calendar_date) :=
  fun w => (Returned (date_ahead rt w), w).

(** [1 + (Math.random() - 0.5) * variance]. *)
Definition random_factor (r variance : number) : number :=
  num_add (Fin 1) (num_mul (num_sub r (Fin 0.5)) variance).

Definition simpleMovingAverage (dailySales : list daily) (days window : nat)
  : M World (list prediction) :=
  let values := values_of dailySales in
  let recentValues := slice_last window values in
  let average := average_of recentValues in
  startDate <- new_Date ;;
  for_of (one_to days)
    (fun i predictions =>
       r <- random ;;
       let variance := Fin 0.1 in
       let randomFactor := random_factor r variance in
       let predicted := Math_round (num_mul average randomFactor) in
       ret (predictions ++
              [mkPrediction (startDate (Z.of_nat i))
                 (Math_max (Fin 0) predicted)]))
    [].

(** [values[0]], then [smoothed = alpha * values[i] + (1 - alpha) * smoothed]
    for the later values. *)
Definition smooth (alpha : number) (values : list number) : number :=
  match values with
  | [] => Undefined
  | v0 :: rest =>
      fold_left
        (fun smoothed v =>
           num_add (num_mul alpha v) (num_mul (num_sub (Fin 1) alpha) smoothed))
        rest v0
  end.

Definition exponentialSmoothing (dailySales : list daily) (days : nat)
  (alpha : number) : M World (list prediction) :=
  let values := values_of dailySales in
  let smoothed := smooth alpha values in
  startDate <- new_Date ;;
  for_of (one_to days)
    (fun i predictions =>
       ret (predictions ++
              [mkPrediction (startDate (Z.of_nat i))
                 (Math_max (Fin 0) (Math_round smoothed))]))
    [].

(** [xValues.reduce((sum, x, i) => sum + x * values[i], 0)] with
    [xValues = [0, 1, ..., n - 1]]. *)
Fixpoint xy_sum (x : nat) (values : list number) (sum : number) : number :=
  match values with
  | [] => sum
  | v :: rest => xy_sum (S x) rest (num_add sum (num_mul (of_nat x) v))
  end.

Definition linearTrend (dailySales : list daily) (days : nat)
  : M World (list prediction) :=
  let values := values_of dailySales in
  let n := List.length values in
  let xValues := map of_nat (seq 0 n) in
  let xSum := num_sum xValues in
  let ySum := num_sum values in
  let xySum := xy_sum 0 values (Fin 0) in
  let x2Sum := num_sum (map (fun x => num_mul x x) xValues) in
  let slope :=
    num_div (num_sub (num_mul (of_nat n) xySum) (num_mul xSum ySum))
            (num_sub (num_mul (of_nat n) x2Sum) (num_mul xSum xSum)) in
  let intercept := num_div (num_sub ySum (num_mul slope xSum)) (of_nat n) in
  startDate <- new_Date ;;
  for_of (one_to days)
    (fun i predictions =>
       let x := of_nat (n + i - 1) in
       let predicted := Math_round (num_add (num_mul slope x) intercept) in
       ret (predictions ++
              [mkPrediction (startDate (Z.of_nat i))
                 (Math_max (Fin 0) predicted)]))
    [].

Definition std_dev (values : list number) : number :=
  Math_sqrt (variance_of values).

Definition calculateConfidenceIntervals (predictions : list prediction)
  (historicalData : list daily) : list forecast :=
  let values := values_of historicalData in
  let mean := average_of values in
  let stdDev := std_dev values in
  map (fun pred =>
         mkForecast (prediction_date pred) (predicted pred)
           (Math_min (Fin 0.95)
              (Math_max (Fin 0.65)
                 (num_sub (Fin 1) (num_mul (num_div stdDev mean) (Fin 0.5)))))
           (Math_max (Fin 0)
              (num_sub (predicted pred) (Math_round (num_mul stdDev (Fin 1.96)))))
           (num_add (predicted pred) (Math_round (num_mul stdDev (Fin 1.96)))))
      predictions.

(* ----------------------------------------------------------------- *)
(** *** The table [this.models] and the choice of a method *)

Inductive method : Type :=
| SimpleMovingAverage
| ExponentialSmoothing
| LinearTrend.

(** What [this.models[model]] evaluates to.  [this.models] is an object
    literal: besides its three own properties it answers for every
    property it inherits from [Object.prototype]. *)
Inductive property : Type :=
| OwnMethod (m : method)
| Inherited (name : string)
| Absent.

Definition Object_prototype_properties : list string :=
  [ "constructor"; "__defineGetter__"; "__defineSetter__"; "hasOwnProperty";
    "__lookupGetter__"; "__lookupSetter__"; "isPrototypeOf";
    "propertyIsEnumerable"; "toString"; "valueOf"; "__proto__";
    "toLocaleString" ]%string.

Definition models_get (model : string) : property :=
  if String.eqb model "simple_moving_average" then OwnMethod SimpleMovingAverage
  else if String.eqb model "exponential_smoothing" then OwnMethod ExponentialSmoothing
  else if String.eqb model "linear_trend" then OwnMethod LinearTrend
  else if existsb (String.eqb model) Object_prototype_properties
       then Inherited model
  else Absent.

(** [this.models[model] || this.models.simple_moving_average]: functions
    and objects are truthy, [undefined] is not. *)
Definition select_model (model : string) : property :=
  match models_get model with
  | Absent => OwnMethod SimpleMovingAverage
  | found => found
  end.

(** The value of [forecastModel.call(this, dailySales, days)]: an array of
    predictions, or a value that has no [map] method. *)
Inductive call_value : Type :=
| PredictionArray (predictions : list prediction)
| NoMapMethod.

(** The inherited properties, called with [(dailySales, days)] on the
    service: [Object] returns its argument, the array [dailySales], whose
    entries have no [predicted]; [__defineGetter__] and [__defineSetter__]
    reject [days], which is not a function; the value of [__proto__] is an
    object without a [call]; the others return a string, a boolean, the
    service or [undefined]. *)
Definition call_inherited (name : string) (dailySales : list daily)
  : M World call_value :=
  if String.eqb name "constructor" then
    ret (PredictionArray
           (map (fun d => mkPrediction (date d) Undefined) dailySales))
  else if String.eqb name "__defineGetter__"
          || String.eqb name "__defineSetter__" then
    throw (TypeError (engine_message rt name))
  else if String.eqb name "__proto__" then
    throw (TypeError (engine_message rt "forecastModel.call"))
  else ret NoMapMethod.

Definition call_model (forecastModel : property) (dailySales : list daily)
  (days : nat) : M World call_value :=
  match forecastModel with
  | OwnMethod SimpleMovingAverage =>
      predictions <- simpleMovingAverage dailySales days 7 ;;
      ret (PredictionArray predictions)
  | OwnMethod ExponentialSmoothing =>
      predictions <- exponentialSmoothing dailySales days (Fin 0.3) ;;
      ret (PredictionArray predictions)
  | OwnMethod LinearTrend =>
      predictions <- linearTrend dailySales days ;;
      ret (PredictionArray predictions)
  | Inherited name => call_inherited name dailySales
  | Absent => throw (TypeError (engine_message rt "forecastModel.call"))
  end.

(* ----------------------------------------------------------------- *)
(** *** Saving and the two entry points of the service *)

Definition saveForecastToDatabase (productId : string)
  (predictions : list forecast) (model : string) : M World (list forecastData) :=
  for_of predictions
    (fun prediction forecastRecords =>
       let forecastData :=
         mkForecastData productId (fc_date prediction) (fc_predicted prediction)
           (confidence_score prediction) (lower_bound prediction)
           (upper_bound prediction) model in
       record <- createForecast db forecastData ;;
       ret (forecastRecords ++ [record]))
    [].

(** The object [generateForecast] resolves to. *)
Record forecast_result : Type := mkResult {
  fr_productId : string;
  fr_model : string;
  fr_predictions : list forecastData;
  generatedAt : calendar_date;
  dataPoints : nat
}.

Definition insufficient_history (salesData : option (list sale)) : bool :=
  match salesData with
  | None => true
  | Some rows => Nat.ltb (List.length rows) 7
  end.

Definition generateForecast (productId model : string) (days : nat)
  : M World forecast_result :=
  try_catch
    (salesData <- getSalesData db productId 90%nat ;;
     if insufficient_history salesData then
       throw (Error "Insufficient historical data for forecasting")
     else
       let dailySales :=
         aggregateDailySales (match salesData with Some rows => rows | None => [] end) in
       let forecastModel := select_model model in
       predictions <- call_model forecastModel dailySales days ;;
       match predictions with
       | NoMapMethod => throw (TypeError (engine_message rt "predictions.map"))
       | PredictionArray predictions =>
           let forecastWithConfidence :=
             calculateConfidenceIntervals predictions dailySales in
           forecastRecords <-
             saveForecastToDatabase productId forecastWithConfidence model ;;
           now <- Date_now ;;
           ret (mkResult productId model forecastRecords now
                  (List.length dailySales))
       end)
    (fun error => throw error).

(** An entry of the array [generateBulkForecasts] returns. *)
Inductive bulk_entry : Type :=
| bulk_success (productId : string) (forecast : forecast_result)
| bulk_failure (productId : string) (error : string).

Definition generateBulkForecasts (productIds : list string) (model : string)
  : M World (list bulk_entry) :=
  for_of productIds
    (fun productId results =>
       try_catch
         (forecast <- generateForecast productId model 14 ;;
          ret (results ++ [bulk_success productId forecast]))
         (fun error =>
            ret (results ++ [bulk_failure productId (exn_message error)])))
    [].

End Service.

(* ================================================================= *)
(** ** [forecastController] *)

Record metadata : Type := mkMetadata {
  avgSales : number;
  volatility : number;
  md_dataPoints : nat;
  forecastPeriod : nat
}.

(** An entry of [results] in [bulkGenerateForecasts]. *)
Record controller_entry : Type := mkEntry {
  ce_productId : string;
  ce_productName : string;
  ce_success : bool;
  ce_error : option string
}.

(** What a handler sends with [res.status(...).json(...)]. *)
Inductive response : Type :=
| res_error (status : nat) (error : string) (details : option string)
| res_forecast (p : product) (forecasts : list forecastData) (md : metadata)
| res_bulk (total successful failed : nat) (results : list controller_entry).

(** [salesData.reduce((sum, sale) => sum + sale.quantity_sold, 0)
    / salesData.length]. *)
Definition sales_average (salesData : list sale) : number :=
  average_of (map (fun s => of_Z (quantity_sold s)) salesData).

Section Controller.
Context {World : Type} (rt : Runtime World) (db : dbHelpers World).

Definition sales_volatility (salesData : list sale) : number :=
  Math_sqrt rt (variance_of (map (fun s => of_Z (quantity_sold s)) salesData)).

(** [salesData.length] and the like on what [getSalesData] resolved to. *)
Definition rows_of (salesData : option (list sale)) : M World (list sale) :=
  match salesData with
  | Some rows => ret rows
  | None => throw (TypeError (engine_message rt "salesData.length"))
  end.

(** The [forecastData] of day [i] in [generateForecast], from the value
    [r] of [Math.random()]. *)
Definition controller_forecast (productId : string) (avgSales volatility : number)
  (forecastDate : calendar_date) (i : nat) (r : number) : forecastData :=
  let seasonalFactor :=
    num_add (Fin 1)
      (num_mul (Fin 0.1)
         (Math_sin rt
            (num_mul (num_mul (num_div (of_nat i) (Fin 7)) (Fin 2))
               (Fin (Math_PI rt))))) in
  let randomFactor := random_factor r (Fin 0.2) in
  let predicted :=
    Math_max (Fin 0)
      (Math_round (num_mul (num_mul avgSales seasonalFactor) randomFactor)) in
  let confidence :=
    Math_max (Fin 0.5)
      (Math_min (Fin 0.95)
         (num_sub (Fin 1) (num_mul (num_div volatility avgSales) (Fin 0.5)))) in
  let lowerBound :=
    Math_max (Fin 0)
      (Math_round
         (num_mul predicted (num_sub (Fin 1) (num_div volatility avgSales)))) in
  let upperBound :=
    Math_round
      (num_mul predicted (num_add (Fin 1) (num_div volatility avgSales))) in
  mkForecastData productId forecastDate predicted (toFixed2 confidence)
    lowerBound upperBound "v1.0".

(** The handler of [POST /generate]; [productId] is [None] when the body
    has none. *)
Definition controller_generateForecast (productId : option string) (days : nat)
  : M World response :=
  try_catch
    (match productId with
     | None | Some EmptyString => ret (res_error 400 "Product ID is required" None)
     | Some productId =>
         product <- getProductById db productId ;;
         match product with
         | None => ret (res_error 404 "Product not found" None)
         | Some product =>
             salesData <- getSalesData db productId 90%nat ;;
             salesData <- rows_of salesData ;;
             if Nat.eqb (List.length salesData) 0 then
               ret (res_error 400 "No sales data available for forecasting" None)
             else
               let avgSales := sales_average salesData in
               let volatility := sales_volatility salesData in
               forecasts <-
                 for_of (one_to days)
                   (fun i forecasts =>
                      forecastDate <- new_Date rt ;;
                      r <- random rt ;;
                      let forecastData :=
                        controller_forecast productId avgSales volatility
                          (forecastDate (Z.of_nat i)) i r in
                      savedForecast <- createForecast db forecastData ;;
                      ret (forecasts ++ [savedForecast]))
                   [] ;;
               ret (res_forecast product forecasts
                      (mkMetadata avgSales (toFixed2 volatility)
                         (List.length salesData) days))
         end
     end)
    (fun error =>
       ret (res_error 500 "Failed to generate forecast"
              (Some (exn_message error)))).

(** The [forecastData] of one day in [bulkGenerateForecasts]. *)
Definition bulk_forecast (productId : string) (avgSales : number)
  (forecastDate : calendar_date) (r : number) : forecastData :=
  let predicted :=
    Math_max (Fin 0) (Math_round (num_mul avgSales (random_factor r (Fin 0.2)))) in
  mkForecastData productId forecastDate predicted (Fin 0.75)
    (Math_round (num_mul predicted (Fin 0.8)))
    (Math_round (num_mul predicted (Fin 1.2))) "v1.0-bulk".

(** One turn of the loop over the products: [continue] leaves [results]
    as it is. *)
Definition bulk_product (days : nat) (p : product)
  (results : list controller_entry) : M World (list controller_entry) :=
  try_catch
    (salesData <- getSalesData db (product_id p) 30%nat ;;
     salesData <- rows_of salesData ;;
     if Nat.ltb (List.length salesData) 5 then ret results
     else
       let avgSales := sales_average salesData in
       _ <- for_of (one_to days)
              (fun i (_ : unit) =>
                 forecastDate <- new_Date rt ;;
                 r <- random rt ;;
                 _ <- createForecast db
                        (bulk_forecast (product_id p) avgSales
                           (forecastDate (Z.of_nat i)) r) ;;
                 ret tt)
              tt ;;
       ret (results ++ [mkEntry (product_id p) (product_name p) true None]))
    (fun error =>
       ret (results ++
              [mkEntry (product_id p) (product_name p) false
                 (Some (exn_message error))])).

(** The handler of [POST /bulk-generate]. *)
Definition bulkGenerateForecasts (days : nat) : M World response :=
  try_catch
    (products <- getProducts db 1000%nat 0%nat ;;
     results <- for_of products (bulk_product days) [] ;;
     let successful := List.length (filter ce_success results) in
     let failed := List.length (filter (fun r => negb (ce_success r)) results) in
     ret (res_bulk (List.length results) successful failed results))
    (fun error =>
       ret (res_error 500 "Failed to bulk generate forecasts"
              (Some (exn_message error)))).

End Controller.

(* ================================================================= *)
(** ** An in-memory world, to run the code on examples *)

Module InMemory.

(** The tables the code touches, the values the coming calls of
    [Math.random()] will return, in hundredths, and the day it is. *)
Record World : Type := mkWorld {
  sales_data : list (string * sale);
  demand_forecasts : list forecastData;
  products : list product;
  draws : list Z;
  clock : calendar_date
}.

(** A square root exact to six decimals, rounded down. *)
Definition sqrt_6 (q : Q) : Q :=
  inject_Z (Z.sqrt (Qfloor (q * 1000000000000))) / 1000000.

(** A sine good enough near zero: [x - x^3/6], kept within [-1, 1]. *)
Definition sin_3 (x : Q) : Q :=
  Qmax (-1) (Qmin 1 (x - x * x * x / 6)).

Definition hundredths (z : Z) : Q := inject_Z (z mod 100) / 100.

Definition next_draw (w : World) : Q * World :=
  match draws w with
  | [] => (0, w)
  | z :: rest =>
      (hundredths z,
       mkWorld (sales_data w) (demand_forecasts w) (products w) rest (clock w))
  end.

(** The process runs in UTC: a date moved [i] days ahead prints as the
    day [i] days later. *)
Definition runtime : Runtime World :=
  mkRuntime World sqrt_6 sin_3 (355 # 113) next_draw clock
    (fun w i => (clock w + i)%Z)
    (fun expression => (expression ++ " cannot be used this way")%string).

(** [order('sale_date', { ascending: false })]. *)
Fixpoint insert_latest_first (x : sale) (l : list sale) : list sale :=
  match l with
  | [] => [x]
  | y :: l' =>
      if Z.leb (sale_date y) (sale_date x) then x :: y :: l'
      else y :: insert_latest_first x l'
  end.

Definition select_sales (productId : string) (limit : nat) (w : World)
  : list sale :=
  firstn limit
    (fold_right insert_latest_first []
       (map snd (filter (fun row => String.eqb (fst row) productId)
                   (sales_data w)))).

Definition insert_forecast (data : forecastData) (w : World) : World :=
  mkWorld (sales_data w) (demand_forecasts w ++ [data]) (products w)
    (draws w) (clock w).

(** [product_id] refers to a row of [products]. *)
Definition is_product (productId : string) (w : World) : bool :=
  existsb (fun p => String.eqb (product_id p) productId) (products w).

(** The insertion refuses what the table refuses, and answers the row as
    the table keeps it. *)
Definition create_forecast (data : forecastData) : M World forecastData :=
  fun w =>
    match refusal data with
    | Some v => (Threw (Error (violation_message v)), w)
    | None =>
        if is_product (fd_product_id data) w
        then (Returned (stored data), insert_forecast (stored data) w)
        else (Threw (Error "insert on table demand_forecasts violates foreign key constraint"), w)
    end.

(** The query for a single product reports an error when no row has the
    id. *)
Definition select_product (productId : string) : M World (option product) :=
  fun w =>
    match find (fun p => String.eqb (product_id p) productId) (products w) with
    | Some p => (Returned (Some p), w)
    | None =>
        (Threw (Error "JSON object requested, multiple (or no) rows returned"), w)
    end.

Definition db : dbHelpers World :=
  mkDb World
    (fun productId limit w => (Returned (Some (select_sales productId limit w)), w))
    create_forecast
    (fun limit offset w => (Returned (firstn limit (skipn offset (products w))), w))
    select_product.

(** [n] sales rows of product [productId], one a day from day [start]. *)
Definition daily_sales (productId : string) (start : calendar_date)
  (quantities : list Z) : list (string * sale) :=
  map (fun iq => (productId, mkSale (start + Z.of_nat (fst iq))%Z (snd iq)))
    (combine (seq 0 (List.length quantities)) quantities).

Definition P1 : product := mkProduct "P1" "Widget" "WID-001".
Definition P2 : product := mkProduct "P2" "Gadget" "GAD-002".

(** P1 sold 100 a day for a week; P2 never sold. *)
Definition steady_week (rs : list Z) : World :=
  mkWorld (daily_sales "P1" 1%Z [100; 100; 100; 100; 100; 100; 100]%Z)
    [] [P2; P1] rs 8%Z.

(** P1 has seven sales rows over a week, each of quantity 0. *)
Definition idle_week (rs : list Z) : World :=
  mkWorld (daily_sales "P1" 1%Z [0; 0; 0; 0; 0; 0; 0]%Z) [] [P1] rs 8%Z.

(** P1 has five sales rows; P2 has none. *)
Definition five_rows (rs : list Z) : World :=
  mkWorld (daily_sales "P1" 1%Z [10; 10; 10; 10; 10]%Z) [] [P2; P1] rs 8%Z.

End InMemory.

(* ================================================================= *)
(** ** The dashboard hook [useSupabaseData] *)

(** A row of [products], with its stock columns.  [current_stock] is an
    [integer NOT NULL] column; the two levels may be null. *)
Record stock_row : Type := mkStockRow {
  sr_id : string;
  sr_name : string;
  sr_sku : string;
  current_stock : Z;
  min_stock_level : option Z;
  max_stock_level : option Z
}.

(** A row of [demand_forecasts] as it is read back: [predicted_demand] is
    an [integer NOT NULL] column, [confidence_score] a [decimal(3,2)]. *)
Record demand_row : Type := mkDemandRow {
  dr_product_id : string;
  dr_predicted_demand : Z;
  dr_confidence_score : Q
}.

(** A [Product] of the dashboard, with the fields that are computed. *)
Record Product : Type := mkDashboardProduct {
  dp_id : string;
  dp_name : string;
  dp_sku : string;
  currentStock : Z;
  predictedDemand : Z;
  confidence : Q;
  recommendation : DashboardRecommendation
}.

(** The callback of [productsData?.map(...)] in [loadData]:
    [latestForecast] is the first forecast of the product, in the order
    of the query, and [x || 0] is [x] on a number. *)
Definition transformProduct (forecastsData : option (list demand_row))
  (product : stock_row) : Product :=
  let productForecasts :=
    match forecastsData with
    | Some forecasts =>
        filter (fun f => String.eqb (dr_product_id f) (sr_id product)) forecasts
    | None => []
    end in
  let latestForecast := hd_error productForecasts in
  let predicted := or_zero (option_map dr_predicted_demand latestForecast) in
  mkDashboardProduct (sr_id product) (sr_name product) (sr_sku product)
    (current_stock product) predicted
    (match latestForecast with Some f => dr_confidence_score f | None => 0 end)
    (getRecommendation (inject_Z (current_stock product)) (inject_Z predicted)).

Definition transformedProducts (productsData : option (list stock_row))
  (forecastsData : option (list demand_row)) : list Product :=
  match productsData with
  | Some products => map (transformProduct forecastsData) products
  | None => []
  end.

(** [a < b] on finite numbers. *)
Definition Qltb (a b : Q) : bool :=
  if Qlt_le_dec a b then true else false.

Definition getLowStockProducts (products : list Product) : list Product :=
  filter (fun product =>
            Qltb (inject_Z (currentStock product))
                 (inject_Z (predictedDemand product) * 0.3))
    products.

Definition getOverstockProducts (products : list Product) : list Product :=
  filter (fun product =>
            Qltb (inject_Z (predictedDemand product) * 2)
                 (inject_Z (currentStock product)))
    products.

Definition recommendation_eqb (a b : DashboardRecommendation) : bool :=
  match a, b with
  | increase, increase | reduce, reduce | maintain, maintain => true
  | _, _ => false
  end.

(** The object [acc] of [getRecommendationCounts]: its keys are
    recommendations, in insertion order. *)
Definition Counts : Type := list (DashboardRecommendation * nat).

Fixpoint Counts_get (acc : Counts) (k : DashboardRecommendation) : option nat :=
  match acc with
  | [] => None
  | (k', n) :: acc' => if recommendation_eqb k' k then Some n else Counts_get acc' k
  end.

Fixpoint Counts_set (acc : Counts) (k : DashboardRecommendation) (n : nat) : Counts :=
  match acc with
  | [] => [(k, n)]
  | (k', n') :: acc' =>
      if recommendation_eqb k' k then (k, n) :: acc'
      else (k', n') :: Counts_set acc' k n
  end.

(** [acc[key] || 0]. *)
Definition count_or_zero (x : option nat) : nat :=
  match x with Some n => n | None => O end.

Definition getRecommendationCounts (products : list Product) : Counts :=
  fold_left
    (fun acc product =>
       Counts_set acc (recommendation product)
         (count_or_zero (Counts_get acc (recommendation product)) + 1)%nat)
    products [].

(* ================================================================= *)
(** ** Alerts: what [AlertService] and [TrendWiseService] share *)

Inductive alert_type : Type := low_stock | overstock | high_demand.

Definition alert_type_eqb (a b : alert_type) : bool :=
  match a, b with
  | low_stock, low_stock | overstock, overstock | high_demand, high_demand => true
  | _, _ => false
  end.

(** The message of an alert: the template string it is built from, with
    the values that fill it. *)
Inductive alert_message : Type :=
| RunningLow (name : string) (remaining : Z)
| ExcessInventory (name : string) (inStock : Z)
| HighDemandPredicted (name : string) (perDay : number)
| BelowMinimum (stock : Z) (minimum : option Z) (demand : number)
| AboveMaximum (stock : Z) (maximum : option Z) (demand : number)
| DemandAboveStock (demand : number) (stock : Z).

(** The object handed to [dbHelpers.createAlert]. *)
Record alertData : Type := mkAlertData {
  ad_product_id : string;
  ad_alert_type : alert_type;
  ad_message : alert_message
}.

(** A row of [inventory_alerts]; [created_at] in milliseconds. *)
Record alert : Type := mkAlert {
  alert_id : string;
  alert_product_id : string;
  alert_alert_type : alert_type;
  alert_message_of : alert_message;
  is_read : bool;
  created_at : Z
}.

(** The helpers of [config/database.js] on alerts and forecasts, the two
    direct queries of [TrendWiseService] on [products] ([None] when the
    query reports an error), and the clock of [Date.now()], in
    milliseconds. *)
Record inventoryHelpers (World : Type) : Type := mkInventoryDb {
  getStockRows : nat -> M World (list stock_row);
  getAlerts : option bool -> nat -> M World (list alert);
  db_createAlert : alertData -> M World alert;
  db_markAlertAsRead : string -> M World alert;
  getForecastsByProduct : string -> nat -> M World (option (list demand_row));
  selectIdBySku : string -> M World (option string);
  selectStockById : string -> M World (option stock_row);
  Date_now_ms : World -> Z
}.
Arguments getStockRows {World} _ _ _.
Arguments getAlerts {World} _ _ _ _.
Arguments db_createAlert {World} _ _ _.
Arguments db_markAlertAsRead {World} _ _ _.
Arguments getForecastsByProduct {World} _ _ _ _.
Arguments selectIdBySku {World} _ _ _.
Arguments selectStockById {World} _ _ _.
Arguments Date_now_ms {World} _ _.

(** A level in a comparison or a product: [null] counts as 0. *)
Definition level (l : option Z) : Z :=
  match l with Some z => z | None => 0%Z end.

Definition Qleb (a b : Q) : bool :=
  if Qlt_le_dec b a then false else true.

(** [a < b] on numbers: false as soon as one side is NaN. *)
Definition num_ltb (a b : number) : bool :=
  match a, b with
  | NaN, _ | _, NaN | Undefined, _ | _, Undefined => false
  | PosInf, _ | _, NegInf => false
  | NegInf, _ | _, PosInf => true
  | Fin x, Fin y => Qltb x y
  end.

(* ================================================================= *)
(** ** [AlertService] *)

Module AlertService.

(** [this.alertThresholds]. *)
Definition threshold_low_stock : Q := 0.8.
Definition threshold_overstock : Q := 1.2.
Definition threshold_high_demand : Q := 1.5.

(** An entry of the array [markAllAlertsAsRead] returns. *)
Record mark_result : Type := mkMarkResult {
  mr_id : string;
  mr_success : bool;
  mr_error : option string
}.

(** [alerts.filter(alert => alert !== null)]. *)
Definition not_null (alerts : list (option alert)) : list alert :=
  flat_map (fun a => match a with Some x => [x] | None => [] end) alerts.

Section AlertMethods.
Context {World : Type} (rt : Runtime World) (db : dbHelpers World)
  (idb : inventoryHelpers World).

(** [createAlert]: [None] is [null].  The clock is read once for the
    whole [find]. *)
Definition createAlert (product : stock_row) (alertType : alert_type)
  (message : alert_message) : M World (option alert) :=
  try_catch
    (existingAlerts <- getAlerts idb (Some false) 10%nat ;;
     fun w =>
       let now := Date_now_ms idb w in
       let recentAlert :=
         find (fun a =>
                 String.eqb (alert_product_id a) (sr_id product)
                 && alert_type_eqb (alert_alert_type a) alertType
                 && Z.ltb (now - 24 * 60 * 60 * 1000)%Z (created_at a))
           existingAlerts in
       match recentAlert with
       | Some _ => ret None w
       | None =>
           (a <- db_createAlert idb
                   (mkAlertData (sr_id product) alertType message) ;;
            ret (Some a)) w
       end)
    (fun error => ret None).

(** The three checks of [checkProductAlerts]; each returns the array
    [alerts] after it. *)
Definition check_low_stock (product : stock_row) (alerts : list (option alert))
  : M World (list (option alert)) :=
  if Qleb (inject_Z (current_stock product))
          (inject_Z (level (min_stock_level product)) * threshold_low_stock)
  then
    a <- createAlert product low_stock
           (RunningLow (sr_name product) (current_stock product)) ;;
    ret (alerts ++ [a])
  else ret alerts.

Definition check_overstock (product : stock_row) (alerts : list (option alert))
  : M World (list (option alert)) :=
  if Qleb (inject_Z (level (max_stock_level product)) * threshold_overstock)
          (inject_Z (current_stock product))
  then
    a <- createAlert product overstock
           (ExcessInventory (sr_name product) (current_stock product)) ;;
    ret (alerts ++ [a])
  else ret alerts.

Definition check_high_demand (product : stock_row) (alerts : list (option alert))
  : M World (list (option alert)) :=
  forecasts <- getForecastsByProduct idb (sr_id product) 7%nat ;;
  match forecasts with
  | None | Some [] => ret alerts
  | Some forecasts =>
      let avgDemand :=
        average_of (map (fun f => of_Z (dr_predicted_demand f)) forecasts) in
      salesData <- getSalesData db (sr_id product) 30%nat ;;
      salesData <- rows_of rt salesData ;;
      let avgSales :=
        if Nat.ltb 0 (List.length salesData) then sales_average salesData
        else Fin 0 in
      if num_ltb (num_mul avgSales (Fin threshold_high_demand)) avgDemand then
        a <- createAlert product high_demand
               (HighDemandPredicted (sr_name product) (Math_round avgDemand)) ;;
        ret (alerts ++ [a])
      else ret alerts
  end.

(** [checkProductAlerts]: the array [alerts] lives outside the [try], so
    that what was pushed before a statement throws is still returned; the
    [catch] only logs. *)
Definition checkProductAlerts (product : stock_row) : M World (list alert) :=
  fun w =>
    match check_low_stock product [] w with
    | (Threw _, w1) => (Returned (not_null []), w1)
    | (Returned alerts1, w1) =>
        match check_overstock product alerts1 w1 with
        | (Threw _, w2) => (Returned (not_null alerts1), w2)
        | (Returned alerts2, w2) =>
            match check_high_demand product alerts2 w2 with
            | (Threw _, w3) => (Returned (not_null alerts2), w3)
            | (Returned alerts3, w3) => (Returned (not_null alerts3), w3)
            end
        end
    end.

Definition checkInventoryLevels : M World (list alert) :=
  try_catch
    (products <- getStockRows idb 1000%nat ;;
     for_of products
       (fun product alerts =>
          productAlerts <- checkProductAlerts product ;;
          ret (alerts ++ productAlerts))
       [])
    (fun error => throw error).

Definition getUnreadAlerts (limit : nat) : M World (list alert) :=
  try_catch (getAlerts idb (Some false) limit) (fun error => throw error).

Definition markAlertAsRead (alertId : string) : M World alert :=
  try_catch (db_markAlertAsRead idb alertId) (fun error => throw error).

Definition markAllAlertsAsRead : M World (list mark_result) :=
  try_catch
    (unreadAlerts <- getUnreadAlerts 1000%nat ;;
     for_of unreadAlerts
       (fun a results =>
          try_catch
            (result <- markAlertAsRead (alert_id a) ;;
             ret (results ++ [mkMarkResult (alert_id a) true None]))
            (fun error =>
               ret (results ++
                      [mkMarkResult (alert_id a) false (Some (exn_message error))])))
       [])
    (fun error => throw error).

End AlertMethods.

End AlertService.

(* ================================================================= *)
(** ** [TrendWiseService]: saving the predictions of the model *)

Module TrendWiseService.

(** An entry [{ sku, forecast, recommendation }] parsed from the output of
    the model; [forecast] is what [parseFloat] made of the digits. *)
Record model_prediction : Type := mkModelPrediction {
  mp_sku : string;
  mp_forecast : number;
  mp_recommendation : string
}.

(** The alert [createInventoryAlert] decides on, if any. *)
Definition chosenAlert (prediction : model_prediction) (product : stock_row)
  : option (alert_type * alert_message) :=
  let stock := current_stock product in
  let demand := Math_round (mp_forecast prediction) in
  if String.eqb (mp_recommendation prediction) "increase"
     && Z.ltb stock (level (min_stock_level product)) then
    Some (low_stock, BelowMinimum stock (min_stock_level product) demand)
  else if String.eqb (mp_recommendation prediction) "reduce"
          && Z.ltb (level (max_stock_level product)) stock then
    Some (overstock, AboveMaximum stock (max_stock_level product) demand)
  else if String.eqb (mp_recommendation prediction) "increase"
          && num_ltb (num_mul (of_Z stock) (Fin 1.5)) (mp_forecast prediction) then
    Some (high_demand, DemandAboveStock demand stock)
  else None.

(** The row [savePredictionsToDB] stores for a prediction. *)
Definition forecastOf (productId : string) (forecastDate : calendar_date)
  (prediction : model_prediction) : forecastData :=
  mkForecastData productId forecastDate
    (Math_round (mp_forecast prediction))
    (Fin 0.85)
    (Math_round (num_mul (mp_forecast prediction) (Fin 0.8)))
    (Math_round (num_mul (mp_forecast prediction) (Fin 1.2)))
    "trendwise_v1.0".

Section TrendWiseMethods.
Context {World : Type} (rt : Runtime World) (db : dbHelpers World)
  (idb : inventoryHelpers World).

Definition createInventoryAlert (productId : string)
  (prediction : model_prediction) : M World unit :=
  try_catch
    (product <- selectStockById idb productId ;;
     match product with
     | None => ret tt
     | Some product =>
         match chosenAlert prediction product with
         | Some (alertType, message) =>
             _ <- db_createAlert idb (mkAlertData productId alertType message) ;;
             ret tt
         | None => ret tt
         end
     end)
    (fun error => ret tt).

Definition savePredictionsToDB (predictions : list model_prediction)
  (leadTimeDays : Z) : M World unit :=
  try_catch
    (now <- new_Date rt ;;
     let forecastDate := now leadTimeDays in
     for_of predictions
       (fun prediction (_ : unit) =>
          product <- selectIdBySku idb (mp_sku prediction) ;;
          match product with
          | None => ret tt
          | Some productId =>
              _ <- createForecast db (forecastOf productId forecastDate prediction) ;;
              createInventoryAlert productId prediction
          end)
       tt)
    (fun error => throw error).

End TrendWiseMethods.

End TrendWiseService.

(* ================================================================= *)
(** ** An in-memory inventory, to run the alert code on examples *)

Module InMemoryInventory.

(** The tables the alert code touches, the time in milliseconds and the
    day it is. *)
Record Store : Type := mkStore {
  stored_stock : list stock_row;
  stored_alerts : list alert;
  stored_forecasts : list forecastData;
  now_ms : Z;
  day : calendar_date
}.

Definition store_runtime : Runtime Store :=
  mkRuntime Store InMemory.sqrt_6 InMemory.sin_3 (355 # 113)
    (fun w => (0, w)) day
    (fun w i => (day w + i)%Z)
    (fun expression => (expression ++ " cannot be used this way")%string).

(** The insertion refuses what the table refuses: a number that is not
    finite, sent as [null], is rejected. *)
Definition store_forecast (data : forecastData) : M Store forecastData :=
  fun w =>
    match refusal data with
    | Some v => (Threw (Error (violation_message v)), w)
    | None =>
        (Returned (stored data),
         mkStore (stored_stock w) (stored_alerts w)
           (stored_forecasts w ++ [stored data]) (now_ms w) (day w))
    end.

Definition store_db : dbHelpers Store :=
  mkDb Store
    (fun productId limit w => (Returned (Some []), w))
    store_forecast
    (fun limit offset w => (Returned [], w))
    (fun productId w =>
       (Threw (Error "JSON object requested, multiple (or no) rows returned"), w)).

Definition store_alert (data : alertData) : M Store alert :=
  fun w =>
    let row :=
      mkAlert "new" (ad_product_id data) (ad_alert_type data) (ad_message data)
        false (now_ms w) in
    (Returned row,
     mkStore (stored_stock w) (row :: stored_alerts w) (stored_forecasts w)
       (now_ms w) (day w)).

Definition store_idb : inventoryHelpers Store :=
  mkInventoryDb Store
    (fun limit w => (Returned (firstn limit (stored_stock w)), w))
    (fun isRead limit w =>
       (Returned
          (firstn limit
             (filter (fun a =>
                        match isRead with
                        | Some b => Bool.eqb (is_read a) b
                        | None => true
                        end)
                (stored_alerts w))), w))
    store_alert
    (fun alertId w => (Threw (Error "no such alert"), w))
    (fun productId days w => (Returned (Some []), w))
    (fun wanted w =>
       (Returned
          (option_map sr_id
             (find (fun p => String.eqb (sr_sku p) wanted) (stored_stock w))), w))
    (fun productId w =>
       (Returned (find (fun p => String.eqb (sr_id p) productId) (stored_stock w)), w))
    now_ms.

(** One product, in stock, and no alert. *)
Definition one_product : Store :=
  mkStore [mkStockRow "P1" "Widget" "WID-001" 50%Z (Some 10%Z) (Some 1000%Z)]
    [] [] 0%Z 8%Z.

End InMemoryInventory.

(* ================================================================= *)
(** * Notions used in the statements *)

(** The quantity a map holds for a date, 0 when it holds none. *)
Definition get_or_0 (m : JsMap Z) (d : calendar_date) : Z :=
  match Map_get m d with Some q => q | None => 0%Z end.

(** Dates that do not decrease along a series. *)
Definition dates_ascend (l : list daily) : Prop :=
  StronglySorted Z.le (map date l).

(** Sum, count, mean and population variance of a list of rationals. *)
Definition Qsum (qs : list Q) : Q := fold_left Qplus qs 0.

Definition Qcount (qs : list Q) : Q := inject_Z (Z.of_nat (List.length qs)).

Definition Qmean (qs : list Q) : Q := Qsum qs / Qcount qs.

Definition Qvariance (qs : list Q) : Q :=
  Qsum (map (fun q => (q + - Qmean qs) * (q + - Qmean qs)) qs) / Qcount qs.

(** The quantities of a series, as rationals. *)
Definition quantities (dailySales : list daily) : list Q :=
  map (fun d => inject_Z (quantity d)) dailySales.

(** The mean of the last [window] quantities of a series, and the mean of
    all of them. *)
Definition trailing_mean (window : nat) (dailySales : list daily) : Q :=
  Qmean (slice_last window (quantities dailySales)).

Definition history_mean (dailySales : list daily) : Q :=
  Qmean (quantities dailySales).

(** A series that holds at least one entry and only zero quantities. *)
Definition constant_zero (dailySales : list daily) : Prop :=
  dailySales <> [] /\ Forall (fun d => quantity d = 0%Z) dailySales.

(** The integer the moving average forecasts from mean [m] and draw [r]. *)
Definition sma_value (m r : Q) : Z :=
  Z.max 0 (Qround_half_up (m * (1 + (r + - 0.5) * 0.1))).

(** The index [k] of a value, as a rational. *)
Definition index_Q (k : nat) : Q := inject_Z (Z.of_nat k).

(** Slope and intercept of the least-squares line of [linearTrend], and
    the point it forecasts for day [i]. *)
Definition trend_slope (values : list number) : number :=
  let n := List.length values in
  let xValues := map of_nat (seq 0 n) in
  let xSum := num_sum xValues in
  let ySum := num_sum values in
  let xySum := xy_sum 0 values (Fin 0) in
  let x2Sum := num_sum (map (fun x => num_mul x x) xValues) in
  num_div (num_sub (num_mul (of_nat n) xySum) (num_mul xSum ySum))
          (num_sub (num_mul (of_nat n) x2Sum) (num_mul xSum xSum)).

Definition trend_intercept (values : list number) : number :=
  let n := List.length values in
  let xSum := num_sum (map of_nat (seq 0 n)) in
  let ySum := num_sum values in
  num_div (num_sub ySum (num_mul (trend_slope values) xSum)) (of_nat n).

Definition trend_point (values : list number) (startDate : Z -> calendar_date)
  (i : nat) : prediction :=
  let x := of_nat (List.length values + i - 1) in
  mkPrediction (startDate (Z.of_nat i))
    (Math_max (Fin 0)
       (Math_round
          (num_add (num_mul (trend_slope values) x) (trend_intercept values)))).

Section RuntimeNotions.
Context {World : Type} (rt : Runtime World).

(** The values the next [n] calls of [Math.random()] return from [w], and
    the world after them. *)
Fixpoint next_draws (n : nat) (w : World) : list Q :=
  match n with
  | O => []
  | S n' => fst (Math_random rt w) :: next_draws n' (snd (Math_random rt w))
  end.

Fixpoint after_draws (n : nat) (w : World) : World :=
  match n with
  | O => w
  | S n' => after_draws n' (snd (Math_random rt w))
  end.

(** [Math.random()] returns a number in [0, 1). *)
Definition random_in_range : Prop :=
  forall w, 0 <= fst (Math_random rt w) /\ fst (Math_random rt w) < 1.

(** [Math.sqrt] is 0 at 0, and never negative. *)
Definition sqrt_zero : Prop :=
  forall q, q == 0 -> sqrt_finite rt q == 0.

Definition sqrt_nonneg : Prop :=
  forall q, 0 <= q -> 0 <= sqrt_finite rt q.

(** The point the moving average forecasts for day [i] from the draw [r]. *)
Definition sma_point (average : number) (startDate : Z -> calendar_date)
  (i : nat) (r : number) : prediction :=
  mkPrediction (startDate (Z.of_nat i))
    (Math_max (Fin 0)
       (Math_round (num_mul average (random_factor r (Fin 0.1))))).

(** The standard deviation [calculateConfidenceIntervals] computes, over
    the whole series, and the half-width [Math.round(stdDev * 1.96)]. *)
Definition history_deviation (dailySales : list daily) : Q :=
  sqrt_finite rt (Qvariance (quantities dailySales)).

Definition half_width (dailySales : list daily) : Z :=
  Qround_half_up (history_deviation dailySales * 1.96).

(** The entry [calculateConfidenceIntervals] makes of one prediction. *)
Definition interval_for (historicalData : list daily) (pred : prediction)
  : forecast :=
  mkForecast (prediction_date pred) (predicted pred)
    (Math_min (Fin 0.95)
       (Math_max (Fin 0.65)
          (num_sub (Fin 1)
             (num_mul
                (num_div (std_dev rt (values_of historicalData))
                   (average_of (values_of historicalData)))
                (Fin 0.5)))))
    (Math_max (Fin 0)
       (num_sub (predicted pred)
          (Math_round (num_mul (std_dev rt (values_of historicalData)) (Fin 1.96)))))
    (num_add (predicted pred)
       (Math_round (num_mul (std_dev rt (values_of historicalData)) (Fin 1.96)))).

End RuntimeNotions.

(** The product an entry of the bulk result is about, and whether it
    reports a success. *)
Definition entry_productId (e : bulk_entry) : string :=
  match e with
  | bulk_success productId _ | bulk_failure productId _ => productId
  end.

Definition entry_success (e : bulk_entry) : bool :=
  match e with
  | bulk_success _ _ => true
  | bulk_failure _ _ => false
  end.

Section WorldNotions.
Context {World : Type} (rt : Runtime World) (db : dbHelpers World).

(** Wherever [I] holds, the sales query for [productId] succeeds, keeps
    [I], and answers rows that satisfy [P]. *)
Definition reads (I : World -> Prop) (productId : string) (limit : nat)
  (P : list sale -> Prop) : Prop :=
  forall w, I w ->
    exists rows w',
      getSalesData db productId limit w = (Returned (Some rows), w') /\
      P rows /\ I w'.

(** Wherever [I] holds, [generateForecast] returns a forecast for
    [productId], and keeps [I]. *)
Definition succeeds (I : World -> Prop) (productId model : string) (days : nat)
  : Prop :=
  forall w, I w ->
    exists forecast w',
      generateForecast rt db productId model days w = (Returned forecast, w') /\
      I w'.

End WorldNotions.

(** Worlds of the in-memory database with the sales and the products of
    [w0]. *)
Definition same_tables (w0 w : InMemory.World) : Prop :=
  InMemory.sales_data w = InMemory.sales_data w0 /\
  InMemory.products w = InMemory.products w0.

(** The series of a week of constant sales. *)
Definition week_of (q : Z) : list daily :=
  map (fun i => mkDaily (Z.of_nat i) q) (seq 1 7).

(** The sum of the quantities of a series, of the rows of a product, and
    of the values of a map. *)
Definition series_total (series : list daily) : Z :=
  fold_right Z.add 0%Z (map quantity series).

Definition sales_total (salesData : list sale) : Z :=
  fold_right Z.add 0%Z (map quantity_sold salesData).

Definition map_total (m : JsMap Z) : Z :=
  fold_right Z.add 0%Z (map snd m).

(** The quantities [a, a + b, a + 2 b, ...] of a line. *)
Definition line_values (a b : Z) (n : nat) : list Q :=
  map (fun k => inject_Z (a + b * Z.of_nat k)) (seq 0 n).

(** A forecast whose numbers make sense: the prediction is an integer
    that is not negative, the bounds are integers around it, the lower one
    not negative, and the confidence lies between 0.65 and 0.95. *)
Definition well_formed_forecast (f : forecast) : Prop :=
  exists z lo hi c,
    fc_predicted f = of_Z z /\
    num_eq (lower_bound f) (of_Z lo) /\
    num_eq (upper_bound f) (of_Z hi) /\
    confidence_score f = Fin c /\
    (0 <= lo)%Z /\ (lo <= z)%Z /\ (z <= hi)%Z /\ 0.65 <= c /\ c <= 0.95.

(** The numbers of a forecast: prediction, confidence and bounds. *)
Definition forecast_numbers (f : forecast) : number * number * number * number :=
  (fc_predicted f, confidence_score f, lower_bound f, upper_bound f).

(** The row [saveForecastToDatabase] makes of a forecast. *)
Definition forecast_row (productId model : string) (f : forecast) : forecastData :=
  mkForecastData productId (fc_date f) (fc_predicted f) (confidence_score f)
    (lower_bound f) (upper_bound f) model.

Section StoreNotions.
Context {World : Type} (rt : Runtime World) (db : dbHelpers World).

(** [createForecast] on each row in turn, the answers of the store
    collected: the loop of [saveForecastToDatabase]. *)
Definition create_each (rows : list forecastData) : M World (list forecastData) :=
  for_of rows
    (fun row records =>
       record <- createForecast db row ;;
       ret (records ++ [record]))
    [].

End StoreNotions.

(** The quantities of sales rows, as rationals. *)
Definition sale_quantities (salesData : list sale) : list Q :=
  map (fun s => inject_Z (quantity_sold s)) salesData.

(** A row of [demand_forecasts] whose numbers make sense: prediction and
    bounds are integers with [0 <= lower <= predicted <= upper], and the
    confidence lies between [lowest] and 0.95. *)
Definition well_formed_row (lowest : Q) (f : forecastData) : Prop :=
  exists z lo hi c,
    predicted_demand f = of_Z z /\
    fd_lower_bound f = of_Z lo /\
    fd_upper_bound f = of_Z hi /\
    fd_confidence_score f = Fin c /\
    (0 <= lo)%Z /\ (lo <= z)%Z /\ (z <= hi)%Z /\ lowest <= c /\ c <= 0.95.

Local Open Scope Z_scope.

(* ================================================================= *)
(** * Properties *)

(** ** Insertion-ordered maps *)

Section MapFacts.
Context {V : Type}.
Implicit Types (m : JsMap V) (k : calendar_date) (v : V).

Lemma Map_get_set_same m k v : Map_get (Map_set m k v) k = Some v.
Proof.
  induction m as [|[k' v'] m IH]; simpl.
  - now rewrite Z.eqb_refl.
  - destruct (Z.eqb_spec k' k) as [->|Hne]; simpl.
    + now rewrite Z.eqb_refl.
    + destruct (Z.eqb_spec k' k); [contradiction|exact IH].
Qed.

Lemma Map_get_set_other m k k' v :
  k' <> k -> Map_get (Map_set m k v) k' = Map_get m k'.
Proof.
  intros Hne. induction m as [|[k0 v0] m IH]; simpl.
  - destruct (Z.eqb_spec k k'); [congruence|reflexivity].
  - destruct (Z.eqb_spec k0 k) as [->|Hk]; simpl.
    + destruct (Z.eqb_spec k k'); [congruence|reflexivity].
    + destruct (Z.eqb_spec k0 k'); [reflexivity|exact IH].
Qed.

Lemma Map_get_In m k v : Map_get m k = Some v -> In (k, v) m.
Proof.
  induction m as [|[k0 v0] m IH]; simpl; [discriminate|].
  destruct (Z.eqb_spec k0 k) as [->|Hk]; intros H.
  - injection H as ->. now left.
  - right. now apply IH.
Qed.

Lemma Map_get_None m k : Map_get m k = None -> ~ In k (map fst m).
Proof.
  induction m as [|[k0 v0] m IH]; simpl; [tauto|].
  destruct (Z.eqb_spec k0 k) as [->|Hk]; [discriminate|].
  intros H [E|HIn]; [contradiction|]. now apply IH.
Qed.

Lemma In_Map_get m k v :
  NoDup (map fst m) -> In (k, v) m -> Map_get m k = Some v.
Proof.
  induction m as [|[k0 v0] m IH]; simpl; [tauto|].
  intros Hnd [E|HIn].
  - injection E as -> ->. now rewrite Z.eqb_refl.
  - inversion Hnd as [|? ? Hnotin Hnd']; subst.
    destruct (Z.eqb_spec k0 k) as [->|Hk].
    + exfalso. apply Hnotin. change k with (fst (k, v)). now apply in_map.
    + now apply IH.
Qed.

Lemma Map_set_keys m k v :
  map fst (Map_set m k v) =
  if Map_has m k then map fst m else map fst m ++ [k].
Proof.
  unfold Map_has. induction m as [|[k0 v0] m IH]; simpl; [reflexivity|].
  destruct (Z.eqb_spec k0 k) as [->|Hk]; simpl; [reflexivity|].
  rewrite IH. now destruct (Map_get m k).
Qed.

Lemma Map_set_NoDup m k v :
  NoDup (map fst m) -> NoDup (map fst (Map_set m k v)).
Proof.
  intros Hnd. rewrite Map_set_keys. unfold Map_has.
  destruct (Map_get m k) eqn:E; [exact Hnd|].
  apply NoDup_app; [exact Hnd|repeat constructor; simpl; tauto|].
  intros x Hx ?. apply (Map_get_None _ _ E). simpl in *. intuition congruence.
Qed.

End MapFacts.


Lemma or_zero_get m d : or_zero (Map_get m d) = get_or_0 m d.
Proof.
  unfold or_zero, get_or_0. destruct (Map_get m d) as [q|]; [|reflexivity].
  destruct (Z.eqb_spec q 0); congruence.
Qed.

Lemma aggregate_step_set (m : JsMap Z) (s : sale) :
  aggregate_step m s =
  Map_set (if Map_has m (sale_date s) then m else Map_set m (sale_date s) 0)
    (sale_date s) (get_or_0 m (sale_date s) + quantity_sold s).
Proof.
  unfold aggregate_step, Map_has, get_or_0.
  destruct (Map_get m (sale_date s)) as [q|] eqn:E.
  - now rewrite E.
  - now rewrite Map_get_set_same.
Qed.

Lemma aggregate_step_get (m : JsMap Z) (s : sale) (d : calendar_date) :
  Map_get (aggregate_step m s) d =
  if on_date d s then Some (get_or_0 m d + quantity_sold s)
  else Map_get m d.
Proof.
  rewrite aggregate_step_set. unfold on_date.
  destruct (Z.eqb_spec (sale_date s) d) as [<-|Hne].
  - apply Map_get_set_same.
  - rewrite Map_get_set_other by congruence.
    unfold Map_has. destruct (Map_get m (sale_date s)); [reflexivity|].
    apply Map_get_set_other. congruence.
Qed.

Lemma group_step_get (m : JsMap Z) (s : sale) (d : calendar_date) :
  Map_get (group_step m s) d =
  if on_date d s then Some (get_or_0 m d + quantity_sold s)
  else Map_get m d.
Proof.
  unfold group_step, on_date. rewrite or_zero_get.
  destruct (Z.eqb_spec (sale_date s) d) as [<-|Hne].
  - apply Map_get_set_same.
  - apply Map_get_set_other. congruence.
Qed.

Lemma aggregate_step_NoDup (m : JsMap Z) (s : sale) :
  NoDup (map fst m) -> NoDup (map fst (aggregate_step m s)).
Proof.
  intros H. rewrite aggregate_step_set. apply Map_set_NoDup.
  destruct (Map_has m (sale_date s)); [exact H|now apply Map_set_NoDup].
Qed.

Lemma total_on_no_sale d salesData :
  has_sale_on d salesData = false -> total_on d salesData = 0.
Proof.
  unfold has_sale_on, total_on.
  induction salesData as [|s rest IH]; simpl; [reflexivity|].
  destruct (on_date d s); simpl; [discriminate|exact IH].
Qed.

(** Any step that reads and writes one key as the two loops do. *)
Section Accumulate.
Variable step : JsMap Z -> sale -> JsMap Z.
Hypothesis step_get : forall m s d,
  Map_get (step m s) d =
  if on_date d s then Some (get_or_0 m d + quantity_sold s) else Map_get m d.
Hypothesis step_NoDup : forall m s,
  NoDup (map fst m) -> NoDup (map fst (step m s)).

Lemma accumulate_get (salesData : list sale) (m : JsMap Z) (d : calendar_date) :
  Map_get (fold_left step salesData m) d =
  if has_sale_on d salesData
  then Some (get_or_0 m d + total_on d salesData)
  else Map_get m d.
Proof.
  revert m. unfold has_sale_on, total_on.
  induction salesData as [|s rest IH]; intros m; simpl; [reflexivity|].
  rewrite IH. unfold get_or_0. rewrite !step_get.
  destruct (on_date d s); simpl; [|reflexivity].
  destruct (existsb (on_date d) rest) eqn:E; f_equal; unfold get_or_0; [lia|].
  pose proof (total_on_no_sale d rest E) as H0. unfold total_on in H0. lia.
Qed.

Lemma accumulate_NoDup (salesData : list sale) (m : JsMap Z) :
  NoDup (map fst m) -> NoDup (map fst (fold_left step salesData m)).
Proof.
  revert m. induction salesData as [|s rest IH]; intros m H; simpl; auto.
Qed.

Lemma accumulate_entry (salesData : list sale) (d : calendar_date) (q : Z) :
  In (d, q) (fold_left step salesData []) <->
  has_sale_on d salesData = true /\ q = total_on d salesData.
Proof.
  assert (Hnd : NoDup (map fst (fold_left step salesData []))).
  { apply accumulate_NoDup. constructor. }
  pose proof (accumulate_get salesData [] d) as Hget. simpl in Hget.
  split.
  - intros HIn. apply (In_Map_get _ _ _ Hnd) in HIn. rewrite HIn in Hget.
    destruct (has_sale_on d salesData); [|discriminate].
    split; [reflexivity|]. unfold get_or_0 in Hget. simpl in Hget. congruence.
  - intros [Hhas ->]. rewrite Hhas in Hget. apply Map_get_In.
    rewrite Hget. reflexivity.
Qed.

End Accumulate.

(** ** Sorting by date *)

Lemma insert_by_date_perm x l : Permutation (x :: l) (insert_by_date x l).
Proof.
  induction l as [|y l IH]; simpl; [reflexivity|].
  destruct (date x <=? date y); [reflexivity|].
  rewrite perm_swap. now constructor.
Qed.

Lemma sort_by_date_perm l : Permutation l (sort_by_date l).
Proof.
  induction l as [|x l IH]; simpl; [constructor|].
  rewrite <- insert_by_date_perm. now constructor.
Qed.


Lemma insert_by_date_sorted x l :
  dates_ascend l -> dates_ascend (insert_by_date x l).
Proof.
  unfold dates_ascend. induction l as [|y l IH]; simpl; intros Hs.
  - repeat constructor.
  - inversion Hs as [|? ? Hs' Hall]; subst.
    destruct (Z.leb_spec (date x) (date y)) as [Hle|Hgt]; simpl.
    + constructor; [exact Hs|]. constructor; [exact Hle|].
      eapply Forall_impl; [|exact Hall]. intros a Ha. simpl in Ha. lia.
    + constructor; [now apply IH|].
      rewrite Forall_forall. intros d Hd.
      apply (Permutation_in d (Permutation_map date (Permutation_sym (insert_by_date_perm x l)))) in Hd.
      destruct Hd as [<-|Hd]; [lia|].
      rewrite Forall_forall in Hall. now apply Hall.
Qed.

Lemma sort_by_date_sorted l : dates_ascend (sort_by_date l).
Proof.
  induction l as [|x l IH]; simpl; [constructor|now apply insert_by_date_sorted].
Qed.

Lemma ascend_NoDup_increase (ds : list Z) :
  StronglySorted Z.le ds -> NoDup ds -> StronglySorted Z.lt ds.
Proof.
  induction ds as [|d ds IH]; intros Hs Hnd; [constructor|].
  inversion Hs as [|? ? Hs' Hall]; inversion Hnd as [|? ? Hnotin Hnd']; subst.
  constructor; [now apply IH|].
  rewrite Forall_forall in *. intros y Hy.
  specialize (Hall y Hy). assert (d <> y) by (intros ->; contradiction). lia.
Qed.

Lemma aggregate_entry (salesData : list sale) (d : calendar_date) (q : Z) :
  In (mkDaily d q) (aggregateDailySales salesData) <->
  has_sale_on d salesData = true /\ q = total_on d salesData.
Proof.
  rewrite <- (accumulate_entry aggregate_step aggregate_step_get aggregate_step_NoDup).
  unfold aggregateDailySales.
  set (m := fold_left aggregate_step salesData []).
  split; intros H.
  - apply (Permutation_in _ (Permutation_sym (sort_by_date_perm _))) in H.
    apply in_map_iff in H. destruct H as [[d' q'] [E H]]. simpl in E.
    now injection E as -> ->.
  - apply (Permutation_in _ (sort_by_date_perm _)).
    apply in_map_iff. now exists (d, q).
Qed.

Lemma aggregate_dates (salesData : list sale) :
  Permutation (map fst (fold_left aggregate_step salesData []))
    (map date (aggregateDailySales salesData)).
Proof.
  unfold aggregateDailySales.
  rewrite <- (Permutation_map date (sort_by_date_perm _)).
  rewrite map_map. simpl. reflexivity.
Qed.

Lemma aggregate_dates_NoDup (salesData : list sale) :
  NoDup (map date (aggregateDailySales salesData)).
Proof.
  eapply Permutation_NoDup; [apply aggregate_dates|].
  apply accumulate_NoDup; [exact aggregate_step_NoDup|constructor].
Qed.

Lemma aggregate_dates_increase (salesData : list sale) :
  dates_increase (aggregateDailySales salesData).
Proof.
  apply ascend_NoDup_increase; [|apply aggregate_dates_NoDup].
  apply sort_by_date_sorted.
Qed.

Lemma group_step_NoDup (m : JsMap Z) (s : sale) :
  NoDup (map fst m) -> NoDup (map fst (group_step m s)).
Proof. apply Map_set_NoDup. Qed.

(** ** The daily series *)


(** C2 (aggregation).  In the series [aggregateDailySales] derives from the
    sales rows of a product, no date occurs twice, and [{ date: d,
    quantity: q }] is an entry exactly when some row is dated [d] and [q]
    is the sum of the quantities of all the rows dated [d]: rows that
    share a date are added up, none overwrites another.  The grouping of
    [fetchSalesDataFromDB] does the same. *)
Theorem aggregation_sums_per_date (salesData : list sale) (sku : string) :
  NoDup (map date (aggregateDailySales salesData)) /\
  (forall d q,
     In (mkDaily d q) (aggregateDailySales salesData) <->
     has_sale_on d salesData = true /\ q = total_on d salesData) /\
  NoDup (map row_date (groupSalesByDate sku salesData)) /\
  (forall d q,
     In (mkRow d sku q) (groupSalesByDate sku salesData) <->
     has_sale_on d salesData = true /\ q = total_on d salesData).
Proof.
  split; [apply aggregate_dates_NoDup|].
  split; [apply aggregate_entry|].
  unfold groupSalesByDate. split.
  - rewrite map_map. simpl.
    apply accumulate_NoDup; [exact group_step_NoDup|constructor].
  - intros d q.
    rewrite <- (accumulate_entry group_step group_step_get group_step_NoDup).
    rewrite in_map_iff. split.
    + intros [[d' q'] [E H]]. simpl in E. now injection E as -> ->.
    + intros H. now exists (d, q).
Qed.



Local Open Scope Q_scope.

(** ** Arithmetic on finite numbers *)

Lemma Qsign_zero q : q == 0 -> Qsign q = Eq.
Proof. intros H. unfold Qsign. now apply Qeq_alt. Qed.

Lemma Qsign_pos q : 0 < q -> Qsign q = Gt.
Proof. intros H. unfold Qsign. now apply Qgt_alt. Qed.

Lemma Qsign_neg q : q < 0 -> Qsign q = Lt.
Proof. intros H. unfold Qsign. now apply Qlt_alt. Qed.

Lemma Qround_half_up_bounds q :
  q - (1 # 2) < inject_Z (Qround_half_up q) /\
  inject_Z (Qround_half_up q) <= q + (1 # 2).
Proof.
  unfold Qround_half_up.
  pose proof (Qfloor_le (q + (1 # 2))) as Hle.
  pose proof (Qlt_floor (q + (1 # 2))) as Hlt.
  rewrite inject_Z_plus in Hlt. change (inject_Z 1) with 1 in Hlt. split; lra.
Qed.

Lemma Qround_half_up_zero q : q == 0 -> Qround_half_up q = 0%Z.
Proof.
  intros H. unfold Qround_half_up.
  rewrite (Qfloor_comp _ (1 # 2)) by (rewrite H; reflexivity).
  reflexivity.
Qed.

Lemma Qround_half_up_nonneg q : 0 <= q -> (0 <= Qround_half_up q)%Z.
Proof.
  intros H. destruct (Qround_half_up_bounds q) as [Hlo _].
  rewrite Zle_Qle. apply Qlt_le_weak in Hlo.
  destruct (Z_lt_le_dec (Qround_half_up q) 0) as [Hneg|Hok]; [|now rewrite <- Zle_Qle].
  exfalso. assert (inject_Z (Qround_half_up q) <= inject_Z (-1)) as Hm.
  { rewrite <- Zle_Qle. lia. }
  simpl in Hm. destruct (Qround_half_up_bounds q) as [Hlo' _].
  change (inject_Z (-1)) with (-1 # 1) in Hm. lra.
Qed.

Lemma Qround_half_up_mono p q :
  p <= q -> (Qround_half_up p <= Qround_half_up q)%Z.
Proof.
  intros H. unfold Qround_half_up. apply Qfloor_resp_le. lra.
Qed.


Lemma fold_num_add_Fin (qs : list Q) (a : Q) :
  fold_left num_add (map Fin qs) (Fin a) = Fin (fold_left Qplus qs a).
Proof.
  revert a. induction qs as [|q qs IH]; intros a; simpl; [reflexivity|apply IH].
Qed.

Lemma num_sum_Fin (qs : list Q) : num_sum (map Fin qs) = Fin (Qsum qs).
Proof. apply fold_num_add_Fin. Qed.

Lemma fold_Qplus_shift (qs : list Q) (a : Q) :
  fold_left Qplus qs a == a + Qsum qs.
Proof.
  unfold Qsum. revert a. induction qs as [|q qs IH]; intros a; simpl; [lra|].
  rewrite (IH (a + q)), (IH (0 + q)). lra.
Qed.

Lemma Qsum_cons q qs : Qsum (q :: qs) == q + Qsum qs.
Proof. unfold Qsum at 1. simpl. rewrite fold_Qplus_shift. lra. Qed.

Lemma Qsum_nonneg qs : Forall (fun q => 0 <= q) qs -> 0 <= Qsum qs.
Proof.
  induction 1 as [|q qs Hq _ IH]; [unfold Qsum; simpl; lra|].
  rewrite Qsum_cons. lra.
Qed.

Lemma Qsum_zero qs : Forall (fun q => q == 0) qs -> Qsum qs == 0.
Proof.
  induction 1 as [|q qs Hq _ IH]; [reflexivity|].
  rewrite Qsum_cons, Hq, IH. lra.
Qed.




Lemma Qcount_pos qs : qs <> [] -> 0 < Qcount qs.
Proof.
  intros H. unfold Qcount. change 0 with (inject_Z 0). rewrite <- Zlt_Qlt.
  destruct qs; [contradiction|simpl; lia].
Qed.

Lemma average_of_Fin qs :
  qs <> [] -> average_of (map Fin qs) = Fin (Qmean qs).
Proof.
  intros H. unfold average_of. rewrite num_sum_Fin, length_map.
  unfold num_div, of_nat, of_Z.
  fold (Qcount qs). now rewrite (Qsign_pos _ (Qcount_pos qs H)).
Qed.

Lemma average_of_nil : average_of [] = NaN.
Proof. reflexivity. Qed.

Lemma fold_squares_Fin (mu : Q) (qs : list Q) (a : Q) :
  fold_left (fun sum val => num_add sum (Math_pow2 (num_sub val (Fin mu))))
    (map Fin qs) (Fin a) =
  Fin (fold_left Qplus (map (fun q => (q + - mu) * (q + - mu)) qs) a).
Proof.
  revert a. induction qs as [|q qs IH]; intros a; simpl; [reflexivity|apply IH].
Qed.

Lemma variance_of_Fin qs :
  qs <> [] -> variance_of (map Fin qs) = Fin (Qvariance qs).
Proof.
  intros H. unfold variance_of. rewrite (average_of_Fin qs H), length_map.
  rewrite fold_squares_Fin. unfold num_div, of_nat, of_Z.
  fold (Qcount qs). now rewrite (Qsign_pos _ (Qcount_pos qs H)).
Qed.

Lemma Qvariance_nonneg qs : qs <> [] -> 0 <= Qvariance qs.
Proof.
  intros H. unfold Qvariance.
  apply Qle_shift_div_l; [now apply Qcount_pos|]. rewrite Qmult_0_l.
  apply Qsum_nonneg. apply Forall_map, Forall_forall. intros q _.
  cbv beta. set (x := q + - Qmean qs).
  destruct (Qlt_le_dec x 0) as [Hx|Hx].
  - setoid_replace (x * x) with ((- x) * (- x)) by ring.
    apply Qmult_le_0_compat; lra.
  - now apply Qmult_le_0_compat.
Qed.

Lemma Qmean_zero qs : Forall (fun q => q == 0) qs -> Qmean qs == 0.
Proof.
  intros H. unfold Qmean. rewrite (Qsum_zero _ H). unfold Qdiv. lra.
Qed.

Lemma Qvariance_zero qs : Forall (fun q => q == 0) qs -> Qvariance qs == 0.
Proof.
  intros H. unfold Qvariance.
  rewrite Qsum_zero; [unfold Qdiv; lra|].
  apply Forall_map. eapply Forall_impl; [|exact H].
  intros q Hq. simpl. rewrite Hq, (Qmean_zero _ H). lra.
Qed.


Lemma values_of_Fin dailySales :
  values_of dailySales = map Fin (quantities dailySales).
Proof. unfold values_of, quantities, of_Z. now rewrite map_map. Qed.

(** C1 (recommendation ordering).  For every current stock, point forecast
    and safety stock, the rule is evaluated in order: stock below the
    forecast gives Increase whatever the safety stock; otherwise stock
    below forecast plus safety stock gives Maintain; otherwise Reduce. *)
Theorem recommendation_ordering (current_stock point_forecast safety_stock : Q) :
  (current_stock < point_forecast ->
   recommend current_stock point_forecast safety_stock = Increase) /\
  (~ current_stock < point_forecast ->
   current_stock < point_forecast + safety_stock ->
   recommend current_stock point_forecast safety_stock = Maintain) /\
  (~ current_stock < point_forecast ->
   ~ current_stock < point_forecast + safety_stock ->
   recommend current_stock point_forecast safety_stock = Reduce).
Proof.
  unfold recommend.
  destruct (Qlt_le_dec current_stock point_forecast) as [Hlt|Hge];
    [|destruct (Qlt_le_dec current_stock (point_forecast + safety_stock))
        as [Hlt'|Hge']];
    repeat split; intros; try reflexivity; try contradiction;
    exfalso; lra.
Qed.

(** ** Loops that only draw random numbers *)

Section Draws.
Context {World : Type} (rt : Runtime World).



Lemma next_draws_length n w : List.length (next_draws rt n w) = n.
Proof. revert w. induction n; intros w; simpl; auto. Qed.


Lemma next_draws_in_range n w :
  random_in_range rt -> Forall (fun r => 0 <= r /\ r < 1) (next_draws rt n w).
Proof.
  intros H. revert w. induction n; intros w; simpl; constructor; auto.
Qed.

(** A loop whose body draws one number and pushes a value computed from
    it and from the loop variable. *)
Lemma drawing_loop {A X : Type} (point : X -> number -> A) (xs : list X)
  (acc : list A) (w : World) :
  for_of xs (fun x acc => r <- random rt ;; ret (acc ++ [point x r])) acc w =
  (Returned (acc ++ map (fun xr => point (fst xr) (Fin (snd xr)))
                      (combine xs (next_draws rt (List.length xs) w))),
   after_draws rt (List.length xs) w).
Proof.
  revert acc w. induction xs as [|x xs IH]; intros acc w; simpl.
  - unfold ret. now rewrite app_nil_r.
  - unfold bind at 1. unfold bind at 1. unfold random at 1.
    destruct (Math_random rt w) as [r w1] eqn:E. simpl.
    unfold ret at 1. rewrite IH. now rewrite <- app_assoc.
Qed.

(** A loop whose body only pushes a value computed from the loop
    variable. *)
Lemma pushing_loop {A X : Type} (point : X -> A) (xs : list X)
  (acc : list A) (w : World) :
  for_of xs (fun x acc => ret (acc ++ [point x])) acc w =
  (Returned (acc ++ map point xs), w).
Proof.
  revert acc. induction xs as [|x xs IH]; intros acc; simpl.
  - unfold ret. now rewrite app_nil_r.
  - unfold bind, ret at 1. rewrite IH. now rewrite <- app_assoc.
Qed.

End Draws.

(** ** The three forecasting methods, as functions of the draws *)

Section Methods.
Context {World : Type} (rt : Runtime World).


Lemma simpleMovingAverage_run dailySales days window w :
  simpleMovingAverage rt dailySales days window w =
  (Returned
     (map (fun ir =>
             sma_point (average_of (slice_last window (values_of dailySales)))
               (date_ahead rt w) (fst ir) (Fin (snd ir)))
        (combine (one_to days) (next_draws rt days w))),
   after_draws rt days w).
Proof.
  unfold simpleMovingAverage, bind at 1, new_Date.
  etransitivity;
    [exact (drawing_loop rt
              (sma_point (average_of (slice_last window (values_of dailySales)))
                 (date_ahead rt w)) (one_to days) [] w)|].
  unfold one_to. now rewrite length_seq.
Qed.

Lemma exponentialSmoothing_run dailySales days alpha w :
  exponentialSmoothing rt dailySales days alpha w =
  (Returned
     (map (fun i =>
             mkPrediction (date_ahead rt w (Z.of_nat i))
               (Math_max (Fin 0) (Math_round (smooth alpha (values_of dailySales)))))
        (one_to days)),
   w).
Proof.
  unfold exponentialSmoothing, bind at 1, new_Date.
  exact (pushing_loop
           (fun i =>
              mkPrediction (date_ahead rt w (Z.of_nat i))
                (Math_max (Fin 0) (Math_round (smooth alpha (values_of dailySales)))))
           (one_to days) [] w).
Qed.

Lemma linearTrend_points dailySales days w :
  linearTrend rt dailySales days w =
  (Returned (map (trend_point (values_of dailySales) (date_ahead rt w)) (one_to days)), w).
Proof.
  unfold linearTrend, bind at 1, new_Date.
  exact (pushing_loop (trend_point (values_of dailySales) (date_ahead rt w))
           (one_to days) [] w).
Qed.

End Methods.

(** ** The dates of the points *)

Lemma map_on_first {A B C : Type} (g : A -> C) (h : A * B -> C)
  (l1 : list A) (l2 : list B) :
  List.length l1 = List.length l2 ->
  (forall x, h x = g (fst x)) ->
  map h (combine l1 l2) = map g l1.
Proof.
  intros Hlen Hh. revert l2 Hlen.
  induction l1 as [|a l1 IH]; intros [|b l2] Hlen; try discriminate.
  - reflexivity.
  - cbn [combine map]. rewrite Hh. cbn [fst]. f_equal. apply IH.
    now injection Hlen.
Qed.

Lemma draws_dates {World : Type} (rt : Runtime World) (average : number)
  (startDate : Z -> calendar_date) (days : nat) (w : World) :
  map prediction_date
    (map (fun ir => sma_point average startDate (fst ir) (Fin (snd ir)))
       (combine (one_to days) (next_draws rt days w))) =
  map (fun i => startDate (Z.of_nat i)) (one_to days).
Proof.
  rewrite map_map. apply map_on_first; [|reflexivity].
  rewrite next_draws_length. unfold one_to. now rewrite length_seq.
Qed.

(** ** What the moving average forecasts *)

Lemma slice_last_map {A B : Type} (f : A -> B) window (l : list A) :
  slice_last window (map f l) = map f (slice_last window l).
Proof.
  unfold slice_last. destruct window; [reflexivity|].
  now rewrite length_map, skipn_map.
Qed.

Lemma slice_last_nonempty {A : Type} window (l : list A) :
  l <> [] -> slice_last window l <> [].
Proof.
  intros H. unfold slice_last. destruct window; [exact H|].
  intros E. apply (f_equal (@List.length A)) in E.
  rewrite length_skipn in E.
  destruct l as [|a l]; [contradiction|].
  cbn [List.length] in E. lia.
Qed.


Lemma trailing_average window dailySales :
  dailySales <> [] ->
  average_of (slice_last window (values_of dailySales)) =
  Fin (trailing_mean window dailySales).
Proof.
  intros H. rewrite values_of_Fin, slice_last_map.
  apply average_of_Fin, slice_last_nonempty.
  unfold quantities. destruct dailySales; [contradiction|discriminate].
Qed.

Lemma Math_max_0_of_Z z : Math_max (Fin 0) (of_Z z) = of_Z (Z.max 0 z).
Proof.
  unfold Math_max, of_Z.
  destruct (Qlt_le_dec 0 (inject_Z z)) as [H|H].
  - change 0 with (inject_Z 0) in H. rewrite <- Zlt_Qlt in H.
    now rewrite Z.max_r by lia.
  - change 0 with (inject_Z 0) in H. rewrite <- Zle_Qle in H.
    now rewrite Z.max_l by lia.
Qed.


Lemma sma_point_value m startDate i r :
  sma_point (Fin m) startDate i (Fin r) =
  mkPrediction (startDate (Z.of_nat i)) (of_Z (sma_value m r)).
Proof.
  unfold sma_point, sma_value. f_equal.
  exact (Math_max_0_of_Z (Qround_half_up (m * (1 + (r + - 0.5) * 0.1)))).
Qed.

Lemma sma_value_bounds m r :
  0 <= r -> r < 1 -> 0 <= m ->
  0.95 * m - (1 # 2) <= inject_Z (sma_value m r) /\
  inject_Z (sma_value m r) <= 1.05 * m + (1 # 2).
Proof.
  intros Hr0 Hr1 Hm. unfold sma_value.
  set (x := m * (1 + (r + - 0.5) * 0.1)).
  assert (Hx : 0.95 * m <= x /\ x <= 1.05 * m).
  { unfold x. split.
    - setoid_replace (m * (1 + (r + - 0.5) * 0.1))
        with (0.95 * m + m * (r * 0.1)) by ring.
      assert (0 <= m * (r * 0.1)) by (apply Qmult_le_0_compat; lra). lra.
    - setoid_replace (m * (1 + (r + - 0.5) * 0.1))
        with (1.05 * m - m * ((1 - r) * 0.1)) by ring.
      assert (0 <= m * ((1 - r) * 0.1)) by (apply Qmult_le_0_compat; lra). lra. }
  destruct (Qround_half_up_bounds x) as [Hlo Hhi].
  destruct (Z.max_spec 0 (Qround_half_up x)) as [[Hlt ->]|[Hge ->]].
  - split; lra.
  - rewrite Zle_Qle in Hge. change (inject_Z 0) with 0 in *. split; lra.
Qed.

(** ** The interval around a prediction *)

Section Intervals.
Context {World : Type} (rt : Runtime World).




Lemma quantities_nonempty dailySales : dailySales <> [] -> quantities dailySales <> [].
Proof. destruct dailySales; [contradiction|discriminate]. Qed.

Lemma history_average dailySales :
  dailySales <> [] ->
  average_of (values_of dailySales) = Fin (history_mean dailySales).
Proof.
  intros H. rewrite values_of_Fin.
  now apply average_of_Fin, quantities_nonempty.
Qed.

Lemma std_dev_Fin dailySales :
  dailySales <> [] ->
  std_dev rt (values_of dailySales) = Fin (history_deviation rt dailySales).
Proof.
  intros H. unfold std_dev. rewrite values_of_Fin.
  rewrite variance_of_Fin by now apply quantities_nonempty.
  unfold Math_sqrt.
  destruct (Qlt_le_dec (Qvariance (quantities dailySales)) 0) as [Hneg|_];
    [|reflexivity].
  pose proof (Qvariance_nonneg _ (quantities_nonempty _ H)). lra.
Qed.


Lemma calculateConfidenceIntervals_map predictions historicalData :
  calculateConfidenceIntervals rt predictions historicalData =
  map (interval_for rt historicalData) predictions.
Proof. reflexivity. Qed.

Lemma interval_for_integer dailySales pred z :
  dailySales <> [] -> predicted pred = of_Z z ->
  fc_predicted (interval_for rt dailySales pred) = of_Z z /\
  num_eq (lower_bound (interval_for rt dailySales pred))
    (of_Z (Z.max 0 (z - half_width rt dailySales))) /\
  num_eq (upper_bound (interval_for rt dailySales pred))
    (of_Z (z + half_width rt dailySales)).
Proof.
  intros H Hz. unfold interval_for. simpl.
  rewrite Hz, (std_dev_Fin _ H). split; [reflexivity|].
  change (Math_round (num_mul (Fin (history_deviation rt dailySales)) (Fin 1.96)))
    with (of_Z (half_width rt dailySales)).
  set (k := half_width rt dailySales). unfold of_Z, num_sub, num_neg, num_add, Math_max.
  split.
  - destruct (Qlt_le_dec 0 (inject_Z z + - inject_Z k)) as [Hlt|Hle]; simpl.
    + rewrite Z.max_r.
      * unfold Z.sub. rewrite inject_Z_plus, inject_Z_opp. reflexivity.
      * rewrite Zle_Qle. unfold Z.sub. rewrite inject_Z_plus, inject_Z_opp.
        change (inject_Z 0) with 0. lra.
    + rewrite Z.max_l; [reflexivity|].
      rewrite Zle_Qle. unfold Z.sub. rewrite inject_Z_plus, inject_Z_opp. exact Hle.
  - simpl. now rewrite inject_Z_plus.
Qed.

End Intervals.

Lemma Forall2_map_self {A B : Type} (P : A -> B -> Prop) (f : A -> B) (l : list A) :
  Forall (fun x => P x (f x)) l -> Forall2 P l (map f l).
Proof. induction 1; simpl; constructor; auto. Qed.

Lemma one_to_draws_length {World : Type} (rt : Runtime World) days w :
  List.length (combine (one_to days) (next_draws rt days w)) = days.
Proof.
  rewrite length_combine, next_draws_length. unfold one_to.
  rewrite length_seq. apply Nat.min_id.
Qed.

Lemma sma_value_near m r :
  0 <= r -> r < 1 -> 0 <= m ->
  m * (1 + (r - 0.5) * 0.1) - 1 < inject_Z (sma_value m r) /\
  inject_Z (sma_value m r) < m * (1 + (r - 0.5) * 0.1) + 1.
Proof.
  intros Hr0 Hr1 Hm. unfold sma_value.
  setoid_replace (m * (1 + (r - 0.5) * 0.1))
    with (m * (1 + (r + - 0.5) * 0.1)) by ring.
  set (x := m * (1 + (r + - 0.5) * 0.1)).
  assert (Hx : 0 <= x).
  { unfold x. apply Qmult_le_0_compat; lra. }
  destruct (Qround_half_up_bounds x) as [Hlo Hhi].
  destruct (Z.max_spec 0 (Qround_half_up x)) as [[Hlt ->]|[Hge ->]].
  - split; lra.
  - rewrite Zle_Qle in Hge. change (inject_Z 0) with 0 in *. split; lra.
Qed.

Lemma Forall2_drawn {A X R : Type} (P : R -> A -> Prop) (f : X * R -> A)
  (xs : list X) (rs : list R) :
  List.length xs = List.length rs ->
  (forall x r, In r rs -> P r (f (x, r))) ->
  Forall2 P rs (map f (combine xs rs)).
Proof.
  revert rs. induction xs as [|x xs IH]; intros [|r rs] Hlen H; try discriminate.
  - constructor.
  - cbn [combine map]. constructor; [apply H; now left|].
    apply IH; [now injection Hlen|]. intros x' r' Hr'. apply H. now right.
Qed.

(** C8, as the code has it.  The moving average calls [Math.random()]
    once for each of its [days] points; with [m] the mean of the last 7
    values (of all of them when there are fewer) and [r] the number drawn
    for the point, the point is [m * (1 + (r - 0.5) * 0.1)] rounded to an
    integer and not below 0: when [m] is not negative it lies less than 1
    from [m * (1 + (r - 0.5) * 0.1)] (one half for the rounding to an
    integer, the rest for the rounding of the arithmetic) and within one
    half of [0.95 m, 1.05 m]; the interval around a point [z] is
    [max(0, z - k), z + k], where [k] is 1.96 times the standard deviation
    of the whole series, rounded. *)
Theorem moving_average_follows_the_draws {World : Type} (rt : Runtime World)
  (dailySales : list daily) (days : nat) (w : World) :
  random_in_range rt ->
  dailySales <> [] ->
  exists predictions,
    simpleMovingAverage rt dailySales days 7 w =
      (Returned predictions, after_draws rt days w) /\
    List.length predictions = days /\
    Forall2
      (fun r p =>
         exists z,
           predicted p = of_Z z /\ (0 <= z)%Z /\
           (0 <= trailing_mean 7 dailySales ->
            trailing_mean 7 dailySales * (1 + (r - 0.5) * 0.1) - 1 < inject_Z z /\
            inject_Z z < trailing_mean 7 dailySales * (1 + (r - 0.5) * 0.1) + 1 /\
            0.95 * trailing_mean 7 dailySales - (1 # 2) <= inject_Z z /\
            inject_Z z <= 1.05 * trailing_mean 7 dailySales + (1 # 2)))
      (next_draws rt days w) predictions /\
    Forall2
      (fun p f =>
         exists z,
           predicted p = of_Z z /\
           fc_predicted f = of_Z z /\
           num_eq (lower_bound f) (of_Z (Z.max 0 (z - half_width rt dailySales))) /\
           num_eq (upper_bound f) (of_Z (z + half_width rt dailySales)))
      predictions (calculateConfidenceIntervals rt predictions dailySales).
Proof.
  intros Hrange Hne. rewrite simpleMovingAverage_run.
  eexists. split; [reflexivity|].
  split; [rewrite length_map; apply one_to_draws_length|].
  pose proof (next_draws_in_range rt days w Hrange) as Hall.
  rewrite Forall_forall in Hall.
  split.
  - apply Forall2_drawn.
    { rewrite next_draws_length. unfold one_to. now rewrite length_seq. }
    intros i r Hr. cbn [fst snd]. destruct (Hall r Hr) as [Hr0 Hr1].
    rewrite (trailing_average 7 _ Hne), sma_point_value.
    exists (sma_value (trailing_mean 7 dailySales) r).
    split; [reflexivity|]. split; [unfold sma_value; lia|].
    intros Hm.
    destruct (sma_value_near _ r Hr0 Hr1 Hm) as [H1 H2].
    destruct (sma_value_bounds _ r Hr0 Hr1 Hm) as [H3 H4]. auto.
  - rewrite calculateConfidenceIntervals_map. apply Forall2_map_self.
    apply Forall_map, Forall_forall. intros [i r] Hir. cbn [fst snd].
    rewrite (trailing_average 7 _ Hne), sma_point_value.
    exists (sma_value (trailing_mean 7 dailySales) r).
    split; [reflexivity|].
    now apply interval_for_integer.
Qed.

(** ** The interval away from a zero mean *)

Lemma num_le_eq_r a b c : num_eq b c -> num_le a c -> num_le a b.
Proof.
  unfold num_le. destruct a, b, c; simpl; try tauto; try discriminate.
  intros E. destruct (Qlt_le_dec q1 q), (Qlt_le_dec q0 q); auto; lra.
Qed.

Lemma num_le_of_Z a b : (a <= b)%Z -> num_le (of_Z a) (of_Z b).
Proof.
  intros H. unfold num_le, of_Z, num_leb.
  destruct (Qlt_le_dec (inject_Z b) (inject_Z a)) as [Hlt|_]; [|reflexivity].
  rewrite <- Zlt_Qlt in Hlt. lia.
Qed.

Lemma num_le_eq a a' b b' :
  num_eq a a' -> num_eq b b' -> num_le a' b' -> num_le a b.
Proof.
  unfold num_le. destruct a, a', b, b'; simpl; try tauto; try discriminate.
  intros E1 E2. destruct (Qlt_le_dec q2 q0), (Qlt_le_dec q1 q); auto; lra.
Qed.

Section WellFormed.
Context {World : Type} (rt : Runtime World).

Lemma half_width_nonneg dailySales :
  sqrt_nonneg rt -> dailySales <> [] -> (0 <= half_width rt dailySales)%Z.
Proof.
  intros Hsqrt Hne. unfold half_width. apply Qround_half_up_nonneg.
  assert (0 <= history_deviation rt dailySales).
  { apply Hsqrt, Qvariance_nonneg. now apply quantities_nonempty. }
  lra.
Qed.

Lemma confidence_clamped dailySales pred :
  dailySales <> [] -> ~ history_mean dailySales == 0 ->
  exists c, confidence_score (interval_for rt dailySales pred) = Fin c /\
            0.65 <= c /\ c <= 0.95.
Proof.
  intros Hne Hmean. unfold interval_for. cbn [confidence_score].
  rewrite (std_dev_Fin rt _ Hne), (history_average _ Hne).
  unfold num_div.
  assert (Hsign : Qsign (history_mean dailySales) <> Eq).
  { unfold Qsign. intros E. apply Hmean. now apply Qeq_alt. }
  set (ratio := match Qsign (history_mean dailySales) with
                | Eq => _ | _ => _ end).
  assert (Hratio : ratio = Fin (history_deviation rt dailySales / history_mean dailySales)).
  { unfold ratio. destruct (Qsign (history_mean dailySales)); congruence. }
  rewrite Hratio. clear ratio Hratio.
  set (x := history_deviation rt dailySales / history_mean dailySales).
  cbn [num_mul num_sub num_neg num_add].
  unfold Math_max.
  destruct (Qlt_le_dec 0.65 (1 + - (x * 0.5))) as [H1|H1]; unfold Math_min.
  - destruct (Qlt_le_dec (1 + - (x * 0.5)) 0.95) as [H2|H2].
    + eexists. split; [reflexivity|]. lra.
    + eexists. split; [reflexivity|]. lra.
  - destruct (Qlt_le_dec 0.65 0.95) as [H2|H2].
    + eexists. split; [reflexivity|]. lra.
    + eexists. split; [reflexivity|]. lra.
Qed.

(** Away from a zero mean, the entry made of a prediction that is a
    non-negative integer has the four properties of a forecast result. *)
Lemma interval_is_well_formed dailySales pred z :
  sqrt_nonneg rt ->
  dailySales <> [] -> ~ history_mean dailySales == 0 ->
  predicted pred = of_Z z -> (0 <= z)%Z ->
  num_le (Fin 0) (fc_predicted (interval_for rt dailySales pred)) /\
  num_le (Fin 0) (lower_bound (interval_for rt dailySales pred)) /\
  num_le (lower_bound (interval_for rt dailySales pred))
         (upper_bound (interval_for rt dailySales pred)) /\
  num_le (Fin 0) (confidence_score (interval_for rt dailySales pred)) /\
  num_le (confidence_score (interval_for rt dailySales pred)) (Fin 1).
Proof.
  intros Hsqrt Hne Hmean Hz Hz0.
  destruct (interval_for_integer rt dailySales pred z Hne Hz) as (Hp & Hlo & Hhi).
  pose proof (half_width_nonneg dailySales Hsqrt Hne) as Hk.
  destruct (confidence_clamped dailySales pred Hne Hmean) as (c & Hc & Hc1 & Hc2).
  split; [rewrite Hp; now apply (num_le_of_Z 0 z)|].
  split; [apply (num_le_eq_r _ _ _ Hlo), (num_le_of_Z 0); lia|].
  split; [apply (num_le_eq _ _ _ _ Hlo Hhi), num_le_of_Z; lia|].
  rewrite Hc. unfold num_le, num_leb.
  split.
  - destruct (Qlt_le_dec c 0); [lra|reflexivity].
  - destruct (Qlt_le_dec 1 c); [lra|reflexivity].
Qed.

End WellFormed.

(** ** A series of zeros *)

Lemma constant_zero_quantities dailySales :
  constant_zero dailySales ->
  quantities dailySales <> [] /\ Forall (fun q => q == 0) (quantities dailySales).
Proof.
  intros [Hne Hall]. split; [now apply quantities_nonempty|].
  unfold quantities. apply Forall_map.
  eapply Forall_impl; [|exact Hall]. intros d Hd. simpl. now rewrite Hd.
Qed.

Lemma Forall_slice_last {A : Type} (P : A -> Prop) window (l : list A) :
  Forall P l -> Forall P (slice_last window l).
Proof.
  intros H. unfold slice_last. destruct window; [exact H|].
  rewrite Forall_forall in *. intros x Hx. apply H.
  eapply In_skipn || (rewrite <- (firstn_skipn (List.length l - S window) l);
                      apply in_or_app; right; exact Hx).
Qed.

Lemma constant_zero_trailing_mean window dailySales :
  constant_zero dailySales -> trailing_mean window dailySales == 0.
Proof.
  intros H. apply Qmean_zero, Forall_slice_last.
  now apply constant_zero_quantities.
Qed.

Lemma constant_zero_mean dailySales :
  constant_zero dailySales -> history_mean dailySales == 0.
Proof. intros H. now apply Qmean_zero, constant_zero_quantities. Qed.

Lemma sma_value_zero m r : m == 0 -> sma_value m r = 0%Z.
Proof.
  intros H. unfold sma_value.
  rewrite Qround_half_up_zero; [reflexivity|]. rewrite H. ring.
Qed.

Lemma smooth_Fin (alpha : Q) (qs : list Q) :
  qs <> [] -> Forall (fun q => q == 0) qs ->
  exists s, smooth (Fin alpha) (map Fin qs) = Fin s /\ s == 0.
Proof.
  intros Hne Hall. destruct qs as [|q0 qs]; [contradiction|].
  inversion Hall as [|? ? Hq0 Hqs]; subst. clear Hall Hne. simpl.
  revert q0 Hq0. induction Hqs as [|q qs Hq _ IH]; intros q0 Hq0; simpl.
  - now exists q0.
  - apply IH. rewrite Hq, Hq0. ring.
Qed.

Section ZeroSeries.
Context {World : Type} (rt : Runtime World).

Lemma constant_zero_deviation dailySales :
  sqrt_zero rt -> constant_zero dailySales ->
  history_deviation rt dailySales == 0.
Proof.
  intros Hsqrt H. apply Hsqrt, Qvariance_zero.
  now apply constant_zero_quantities.
Qed.

Lemma constant_zero_half_width dailySales :
  sqrt_zero rt -> constant_zero dailySales -> half_width rt dailySales = 0%Z.
Proof.
  intros Hsqrt H. unfold half_width. apply Qround_half_up_zero.
  rewrite (constant_zero_deviation _ Hsqrt H). ring.
Qed.

Lemma constant_zero_confidence dailySales pred :
  sqrt_zero rt -> constant_zero dailySales ->
  confidence_score (interval_for rt dailySales pred) = NaN.
Proof.
  intros Hsqrt H. unfold interval_for. simpl.
  rewrite (std_dev_Fin rt _ (proj1 H)), (history_average _ (proj1 H)).
  unfold num_div.
  rewrite (Qsign_zero _ (constant_zero_mean _ H)).
  now rewrite (Qsign_zero _ (constant_zero_deviation _ Hsqrt H)).
Qed.

Lemma constant_zero_interval dailySales pred :
  sqrt_zero rt -> constant_zero dailySales -> predicted pred = Fin 0 ->
  fc_predicted (interval_for rt dailySales pred) = Fin 0 /\
  num_eq (lower_bound (interval_for rt dailySales pred)) (Fin 0) /\
  num_eq (upper_bound (interval_for rt dailySales pred)) (Fin 0).
Proof.
  intros Hsqrt H Hp.
  destruct (interval_for_integer rt dailySales pred 0 (proj1 H) Hp)
    as (Hz & Hlo & Hhi).
  rewrite (constant_zero_half_width _ Hsqrt H) in Hlo, Hhi.
  split; [exact Hz|]. split; [exact Hlo|exact Hhi].
Qed.

End ZeroSeries.

(** ** The linear trend of a series of zeros *)

Lemma Qsum_app qs rs : Qsum (qs ++ rs) == Qsum qs + Qsum rs.
Proof.
  unfold Qsum. rewrite fold_left_app, fold_Qplus_shift. unfold Qsum. lra.
Qed.

Lemma index_Q_S k : index_Q (S k) == index_Q k + 1.
Proof.
  unfold index_Q. rewrite Nat2Z.inj_succ, <- Z.add_1_r, inject_Z_plus. reflexivity.
Qed.

Lemma sum_of_indices n :
  Qsum (map index_Q (seq 0 n)) * 2 == index_Q n * (index_Q n - 1).
Proof.
  induction n as [|n IH].
  - reflexivity.
  - rewrite seq_S, map_app, Qsum_app. cbn [map Nat.add].
    rewrite index_Q_S. unfold Qsum at 2. cbn [fold_left].
    set (N := index_Q n) in *. set (X := Qsum (map index_Q (seq 0 n))) in *.
    lra.
Qed.

Lemma sum_of_squared_indices n :
  Qsum (map (fun k => index_Q k * index_Q k) (seq 0 n)) * 6 ==
  (index_Q n - 1) * index_Q n * (2 * index_Q n - 1).
Proof.
  induction n as [|n IH].
  - reflexivity.
  - rewrite seq_S, map_app, Qsum_app. cbn [map Nat.add].
    rewrite index_Q_S. unfold Qsum at 2. cbn [fold_left].
    set (N := index_Q n) in *.
    set (X := Qsum (map (fun k => index_Q k * index_Q k) (seq 0 n))) in *.
    setoid_replace ((X + (0 + N * N)) * 6) with (X * 6 + 6 * N * N) by ring.
    rewrite IH. ring.
Qed.

Lemma trend_denominator_pos n :
  (2 <= n)%nat ->
  0 < index_Q n * Qsum (map (fun k => index_Q k * index_Q k) (seq 0 n))
      - Qsum (map index_Q (seq 0 n)) * Qsum (map index_Q (seq 0 n)).
Proof.
  intros Hn.
  pose proof (sum_of_indices n) as H1.
  pose proof (sum_of_squared_indices n) as H2.
  set (N := index_Q n) in *.
  set (X := Qsum (map index_Q (seq 0 n))) in *.
  set (X2 := Qsum (map (fun k => index_Q k * index_Q k) (seq 0 n))) in *.
  assert (HN : 2 <= N).
  { unfold N, index_Q. change 2 with (inject_Z 2). rewrite <- Zle_Qle. lia. }
  assert (HX : X == N * (N - 1) / 2) by (field_simplify_eq; lra).
  assert (HX2 : X2 == (N - 1) * N * (2 * N - 1) / 6) by (field_simplify_eq; lra).
  rewrite HX, HX2.
  setoid_replace (N * ((N - 1) * N * (2 * N - 1) / 6) - N * (N - 1) / 2 * (N * (N - 1) / 2))
    with (N * N * ((N - 1) * (N + 1)) / 12) by field.
  apply Qlt_shift_div_l; [reflexivity|]. rewrite Qmult_0_l.
  apply Qmult_lt_0_compat; apply Qmult_lt_0_compat; lra.
Qed.

Lemma index_sum_Fin n :
  num_sum (map of_nat (seq 0 n)) = Fin (Qsum (map index_Q (seq 0 n))).
Proof.
  change (map of_nat (seq 0 n)) with (map (fun k => Fin (index_Q k)) (seq 0 n)).
  rewrite <- (map_map index_Q Fin). apply num_sum_Fin.
Qed.

Lemma index_square_sum_Fin n :
  num_sum (map (fun x => num_mul x x) (map of_nat (seq 0 n))) =
  Fin (Qsum (map (fun k => index_Q k * index_Q k) (seq 0 n))).
Proof.
  rewrite map_map.
  change (map (fun k => num_mul (of_nat k) (of_nat k)) (seq 0 n))
    with (map (fun k => Fin (index_Q k * index_Q k)) (seq 0 n)).
  rewrite <- (map_map (fun k => index_Q k * index_Q k) Fin). apply num_sum_Fin.
Qed.

Lemma xy_sum_zero (qs : list Q) (x : nat) (a : Q) :
  Forall (fun q => q == 0) qs ->
  exists t, xy_sum x (map Fin qs) (Fin a) = Fin t /\ t == a.
Proof.
  intros Hall. revert x a. induction Hall as [|q qs Hq _ IH]; intros x a.
  - now exists a.
  - cbn [map xy_sum]. unfold of_nat, of_Z. cbn [num_mul num_add].
    destruct (IH (S x) (a + inject_Z (Z.of_nat x) * q)) as (t & -> & Ht).
    exists t. split; [reflexivity|]. rewrite Ht, Hq. ring.
Qed.

Lemma index_Q_pos n : (0 < n)%nat -> 0 < index_Q n.
Proof.
  intros H. unfold index_Q. change 0 with (inject_Z 0). rewrite <- Zlt_Qlt. lia.
Qed.

Lemma trend_of_zeros (qs : list Q) :
  (2 <= List.length qs)%nat -> Forall (fun q => q == 0) qs ->
  exists s c,
    trend_slope (map Fin qs) = Fin s /\ s == 0 /\
    trend_intercept (map Fin qs) = Fin c /\ c == 0.
Proof.
  intros Hlen Hall.
  assert (Hslope : exists s, trend_slope (map Fin qs) = Fin s /\ s == 0).
  { unfold trend_slope. cbv zeta. rewrite length_map.
    rewrite index_sum_Fin, index_square_sum_Fin, num_sum_Fin.
    destruct (xy_sum_zero qs 0 0 Hall) as (t & -> & Ht).
    unfold of_nat, of_Z. fold (index_Q (List.length qs)).
    cbn [num_mul num_sub num_neg num_add]. unfold num_div.
    pose proof (trend_denominator_pos (List.length qs) Hlen) as Hden.
    rewrite Qsign_pos by (unfold Qminus in Hden; exact Hden).
    eexists. split; [reflexivity|].
    rewrite Ht, (Qsum_zero _ Hall). unfold Qdiv. ring. }
  destruct Hslope as (s & Es & Hs). exists s.
  unfold trend_intercept. cbv zeta. rewrite Es, length_map.
  rewrite index_sum_Fin, num_sum_Fin.
  unfold of_nat, of_Z. fold (index_Q (List.length qs)).
  cbn [num_mul num_sub num_neg num_add]. unfold num_div.
  rewrite Qsign_pos by (apply index_Q_pos; lia).
  eexists. split; [reflexivity|]. split; [exact Hs|]. split; [reflexivity|].
  rewrite Hs, (Qsum_zero _ Hall). unfold Qdiv. ring.
Qed.

Lemma trend_point_of_zeros (qs : list Q) startDate i :
  (2 <= List.length qs)%nat -> Forall (fun q => q == 0) qs ->
  predicted (trend_point (map Fin qs) startDate i) = Fin 0.
Proof.
  intros Hlen Hall. unfold trend_point. cbv zeta. cbn [predicted].
  destruct (trend_of_zeros qs Hlen Hall) as (s & c & -> & Hs & -> & Hc).
  unfold of_nat, of_Z. cbn [num_mul num_add]. unfold Math_round.
  rewrite Qround_half_up_zero; [reflexivity|]. rewrite Hs, Hc. ring.
Qed.

Lemma Forall_map_self {A B : Type} (P : B -> Prop) (f : A -> B) (l : list A) :
  (forall x, In x l -> P (f x)) -> Forall P (map f l).
Proof. intros H. apply Forall_map, Forall_forall. exact H. Qed.

(** On a series that is constant zero each of the three methods (the
    linear trend on a series of two dates or more) returns [days] points,
    each of them 0, with lower and upper bound 0. *)
Lemma zero_series_forecasts_zero {World : Type} (rt : Runtime World)
  (dailySales : list daily) (days : nat) (m : method) (w : World) :
  sqrt_zero rt ->
  constant_zero dailySales ->
  (m = LinearTrend -> (2 <= List.length dailySales)%nat) ->
  exists predictions w',
    call_model rt (OwnMethod m) dailySales days w =
      (Returned (PredictionArray predictions), w') /\
    List.length predictions = days /\
    Forall (fun f =>
              fc_predicted f = Fin 0 /\
              num_eq (lower_bound f) (Fin 0) /\
              num_eq (upper_bound f) (Fin 0))
      (calculateConfidenceIntervals rt predictions dailySales).
Proof.
  intros Hsqrt Hzero Hm; destruct m; unfold call_model, bind.
  - rewrite simpleMovingAverage_run. eexists. eexists.
    split; [reflexivity|].
    split; [rewrite length_map; apply one_to_draws_length|].
    rewrite calculateConfidenceIntervals_map, map_map.
    apply Forall_map_self. intros [i r] _. cbn [fst snd].
    apply (constant_zero_interval rt _ _ Hsqrt Hzero).
    rewrite (trailing_average 7 _ (proj1 Hzero)), sma_point_value.
    cbn [predicted].
    now rewrite (sma_value_zero _ r (constant_zero_trailing_mean 7 _ Hzero)).
  - rewrite exponentialSmoothing_run. eexists. eexists.
    split; [reflexivity|].
    split; [rewrite length_map; unfold one_to; apply length_seq|].
    rewrite calculateConfidenceIntervals_map, map_map.
    apply Forall_map_self. intros i _.
    apply (constant_zero_interval rt _ _ Hsqrt Hzero). cbn [predicted].
    rewrite values_of_Fin.
    destruct (constant_zero_quantities _ Hzero) as [Hne Hall].
    destruct (smooth_Fin 0.3 _ Hne Hall) as (s & -> & Hs).
    unfold Math_round. now rewrite (Qround_half_up_zero _ Hs).
  - rewrite linearTrend_points. eexists. eexists.
    split; [reflexivity|].
    split; [rewrite length_map; unfold one_to; apply length_seq|].
    rewrite calculateConfidenceIntervals_map, map_map.
    apply Forall_map_self. intros i _.
    apply (constant_zero_interval rt _ _ Hsqrt Hzero).
    rewrite values_of_Fin.
    destruct (constant_zero_quantities _ Hzero) as [_ Hall].
    apply trend_point_of_zeros; [|exact Hall].
    unfold quantities. rewrite length_map. now apply Hm.
Qed.

Lemma zero_history_confidence {World : Type} (rt : Runtime World)
  (predictions : list prediction) (historicalData : list daily) :
  sqrt_zero rt ->
  constant_zero historicalData ->
  Forall (fun f => confidence_score f = NaN)
    (calculateConfidenceIntervals rt predictions historicalData).
Proof.
  intros Hsqrt Hzero. rewrite calculateConfidenceIntervals_map.
  apply Forall_map_self. intros pred _.
  now apply constant_zero_confidence.
Qed.

(** C7 fails on the code.  When the sales history is constant zero, mean
    and standard deviation are both 0, their quotient is NaN, and so is
    the [confidence_score] of every forecast: it is not in [0, 1]. *)
Theorem zero_history_has_no_confidence {World : Type} (rt : Runtime World)
  (predictions : list prediction) (historicalData : list daily) :
  sqrt_zero rt ->
  constant_zero historicalData ->
  Forall (fun f => confidence_score f = NaN)
    (calculateConfidenceIntervals rt predictions historicalData).
Proof.
  intros Hsqrt Hzero. rewrite calculateConfidenceIntervals_map.
  apply Forall_map_self. intros pred _.
  now apply constant_zero_confidence.
Qed.

(** ** Sequencing *)

Section Effects.
Context {World : Type}.

Lemma try_rethrow {A : Type} (body : M World A) (w : World) :
  try_catch body (fun error => throw error) w = body w.
Proof.
  unfold try_catch, throw. now destruct (body w) as [[a|e] w'].
Qed.

Lemma bind_returned {A B : Type} (c : M World A) (k : A -> M World B) w a w' :
  c w = (Returned a, w') -> bind c k w = k a w'.
Proof. intros H. unfold bind. now rewrite H. Qed.

Lemma bind_threw {A B : Type} (c : M World A) (k : A -> M World B) w e w' :
  c w = (Threw e, w') -> bind c k w = (Threw e, w').
Proof. intros H. unfold bind. now rewrite H. Qed.

(** A loop whose body pushes one entry each turn, under an invariant of
    the world. *)
Lemma for_of_pushes {A B : Type} (I : World -> Prop) (P : A -> B -> Prop)
  (body : A -> list B -> M World (list B)) (l : list A) :
  (forall x s w, In x l -> I w ->
     exists b w', body x s w = (Returned (s ++ [b]), w') /\ I w' /\ P x b) ->
  forall s w, I w ->
    exists bs w',
      for_of l body s w = (Returned (s ++ bs), w') /\ I w' /\ Forall2 P l bs.
Proof.
  induction l as [|x l IH]; intros Hbody s w Hw; simpl.
  - exists [], w. unfold ret. rewrite app_nil_r. auto.
  - destruct (Hbody x s w (or_introl eq_refl) Hw) as (b & w1 & E1 & Hw1 & Hb).
    rewrite (bind_returned _ _ _ _ _ E1).
    destruct (IH (fun y s0 w0 Hy => Hbody y s0 w0 (or_intror Hy)) (s ++ [b]) w1 Hw1)
      as (bs & w2 & E2 & Hw2 & Hbs).
    exists (b :: bs), w2. rewrite E2, <- app_assoc. auto.
Qed.

Lemma for_of_map {A B S : Type} (f : A -> B) (l : list A)
  (body : B -> S -> M World S) (s : S) (w : World) :
  for_of (map f l) body s w = for_of l (fun x => body (f x)) s w.
Proof.
  revert s w. induction l as [|x l IH]; intros s w; [reflexivity|].
  cbn [map for_of]. unfold bind.
  destruct (body (f x) s w) as [[s'|e] w']; [apply IH|reflexivity].
Qed.

End Effects.

(** ** The service, from the sales query to the stored rows *)

Section ServiceFacts.
Context {World : Type} (rt : Runtime World) (db : dbHelpers World).

Lemma generateForecast_read_throws productId model days w e w1 :
  getSalesData db productId 90 w = (Threw e, w1) ->
  generateForecast rt db productId model days w = (Threw e, w1).
Proof.
  intros E. unfold generateForecast. rewrite try_rethrow.
  now rewrite (bind_threw _ _ _ _ _ E).
Qed.

Lemma generateForecast_rejects productId model days w salesData w1 :
  getSalesData db productId 90 w = (Returned salesData, w1) ->
  insufficient_history salesData = true ->
  generateForecast rt db productId model days w =
  (Threw (Error "Insufficient historical data for forecasting"), w1).
Proof.
  intros E H. unfold generateForecast. rewrite try_rethrow.
  rewrite (bind_returned _ _ _ _ _ E). now rewrite H.
Qed.

(** [saveForecastToDatabase] makes a row of each forecast and hands the
    rows to [createForecast], one after the other. *)
Lemma saveForecastToDatabase_creates productId predictions model w :
  saveForecastToDatabase db productId predictions model w =
  create_each db (map (forecast_row productId model) predictions) w.
Proof.
  unfold saveForecastToDatabase, create_each. now rewrite for_of_map.
Qed.

Lemma create_each_from rows records w :
  (forall answers w',
     for_of rows
       (fun row records => record <- createForecast db row ;; ret (records ++ [record]))
       records w = (Returned answers, w') ->
     List.length answers = (List.length records + List.length rows)%nat).
Proof.
  revert records w. induction rows as [|row rows IH]; intros records w answers w'.
  - cbn [for_of]. unfold ret. intros [= <- <-]. cbn [List.length]. lia.
  - cbn [for_of]. unfold bind at 1.
    destruct (bind (createForecast db row) _ w) as [[records'|e] w1] eqn:E;
      [|discriminate].
    intros H. apply IH in H. rewrite H.
    unfold bind, ret in E.
    destruct (createForecast db row w) as [[record|e] w2]; [|discriminate].
    injection E as <- <-. rewrite length_app. cbn [List.length]. lia.
Qed.

Lemma create_each_length rows w answers w' :
  create_each db rows w = (Returned answers, w') ->
  List.length answers = List.length rows.
Proof. intros H. now apply create_each_from in H. Qed.

Lemma create_each_refused row rows w e w' :
  createForecast db row w = (Threw e, w') ->
  create_each db (row :: rows) w = (Threw e, w').
Proof.
  intros E. unfold create_each. cbn [for_of]. unfold bind. now rewrite E.
Qed.

Lemma call_model_own m dailySales days w :
  exists predictions w',
    call_model rt (OwnMethod m) dailySales days w =
      (Returned (PredictionArray predictions), w') /\
    List.length predictions = days.
Proof.
  destruct m; unfold call_model.
  - unfold bind. rewrite simpleMovingAverage_run. eexists. eexists.
    split; [reflexivity|].
    rewrite length_map. apply one_to_draws_length.
  - unfold bind. rewrite exponentialSmoothing_run. eexists. eexists.
    split; [reflexivity|].
    rewrite length_map. unfold one_to. apply length_seq.
  - unfold bind. rewrite linearTrend_points. eexists. eexists.
    split; [reflexivity|].
    rewrite length_map. unfold one_to. apply length_seq.
Qed.

(** Only the moving average touches the world, by its draws. *)
Lemma call_model_world m dailySales days w :
  snd (call_model rt (OwnMethod m) dailySales days w) =
  match m with
  | SimpleMovingAverage => after_draws rt days w
  | ExponentialSmoothing | LinearTrend => w
  end.
Proof.
  destruct m; unfold call_model, bind.
  - now rewrite simpleMovingAverage_run.
  - now rewrite exponentialSmoothing_run.
  - now rewrite linearTrend_points.
Qed.

(** With 7 rows or more and one of the three methods, what
    [generateForecast] does after the method has returned. *)
Lemma generateForecast_models productId model m days w rows w1 predictions w2 :
  getSalesData db productId 90 w = (Returned (Some rows), w1) ->
  (7 <= List.length rows)%nat ->
  select_model model = OwnMethod m ->
  call_model rt (OwnMethod m) (aggregateDailySales rows) days w1 =
    (Returned (PredictionArray predictions), w2) ->
  generateForecast rt db productId model days w =
  (forecastRecords <-
     saveForecastToDatabase db productId
       (calculateConfidenceIntervals rt predictions (aggregateDailySales rows))
       model ;;
   now <- Date_now rt ;;
   ret (mkResult productId model forecastRecords now
          (List.length (aggregateDailySales rows)))) w2.
Proof.
  intros E Hlen Hm E2. unfold generateForecast. rewrite try_rethrow.
  rewrite (bind_returned _ _ _ _ _ E). unfold insufficient_history.
  destruct (Nat.ltb_spec (List.length rows) 7) as [Hlt|_]; [lia|].
  cbv zeta. rewrite Hm.
  now rewrite (bind_returned _ _ _ _ _ E2).
Qed.

Lemma generateForecast_stores productId model m days w rows w1 predictions w2
  records w3 :
  getSalesData db productId 90 w = (Returned (Some rows), w1) ->
  (7 <= List.length rows)%nat ->
  select_model model = OwnMethod m ->
  call_model rt (OwnMethod m) (aggregateDailySales rows) days w1 =
    (Returned (PredictionArray predictions), w2) ->
  saveForecastToDatabase db productId
    (calculateConfidenceIntervals rt predictions (aggregateDailySales rows))
    model w2 = (Returned records, w3) ->
  generateForecast rt db productId model days w =
  (Returned (mkResult productId model records (today rt w3)
               (List.length (aggregateDailySales rows))), w3).
Proof.
  intros E Hlen Hm E2 E3.
  rewrite (generateForecast_models productId model m days w rows w1 predictions w2
             E Hlen Hm E2).
  now rewrite (bind_returned _ _ _ _ _ E3).
Qed.

Lemma generateForecast_store_throws productId model m days w rows w1 predictions w2
  e w3 :
  getSalesData db productId 90 w = (Returned (Some rows), w1) ->
  (7 <= List.length rows)%nat ->
  select_model model = OwnMethod m ->
  call_model rt (OwnMethod m) (aggregateDailySales rows) days w1 =
    (Returned (PredictionArray predictions), w2) ->
  saveForecastToDatabase db productId
    (calculateConfidenceIntervals rt predictions (aggregateDailySales rows))
    model w2 = (Threw e, w3) ->
  generateForecast rt db productId model days w = (Threw e, w3).
Proof.
  intros E Hlen Hm E2 E3.
  rewrite (generateForecast_models productId model m days w rows w1 predictions w2
             E Hlen Hm E2).
  now rewrite (bind_threw _ _ _ _ _ E3).
Qed.

End ServiceFacts.

(** ** What the table accepts *)

Lemma is_integer_of_Z z : is_integer (of_Z z) = true.
Proof.
  unfold is_integer, of_Z. rewrite Qfloor_Z. apply Qeq_bool_iff. reflexivity.
Qed.

Lemma is_integer_eq a z : num_eq a (of_Z z) -> is_integer a = true.
Proof.
  destruct a as [q| | | |]; simpl; try contradiction.
  intros H. apply Qeq_bool_iff.
  rewrite (Qfloor_comp _ _ H), Qfloor_Z. exact H.
Qed.

Lemma is_fraction_eq a z : num_eq a (of_Z z) -> is_fraction a = false.
Proof.
  intros H. unfold is_fraction. rewrite (is_integer_eq _ _ H).
  apply andb_false_r.
Qed.

Lemma is_finite_eq a z : num_eq a (of_Z z) -> is_finite a = true.
Proof. destruct a; simpl; tauto. Qed.

Lemma num_eq_refl_Fin q : num_eq (Fin q) (Fin q).
Proof. simpl. reflexivity. Qed.

(** A row of three integers and a finite confidence is accepted, whatever
    the integers. *)
Lemma integers_are_storable data z lo hi c :
  num_eq (predicted_demand data) (of_Z z) ->
  num_eq (fd_lower_bound data) (of_Z lo) ->
  num_eq (fd_upper_bound data) (of_Z hi) ->
  fd_confidence_score data = Fin c ->
  storable data = true.
Proof.
  intros Hz Hlo Hhi Hc. unfold storable, refusal.
  rewrite (is_fraction_eq _ _ Hz), (is_fraction_eq _ _ Hlo), (is_fraction_eq _ _ Hhi).
  rewrite (is_finite_eq _ _ Hz), (is_finite_eq _ _ Hlo), (is_finite_eq _ _ Hhi), Hc.
  reflexivity.
Qed.

Lemma well_formed_forecast_storable productId model f :
  well_formed_forecast f -> storable (forecast_row productId model f) = true.
Proof.
  intros (z & lo & hi & c & Hz & Hlo & Hhi & Hc & _).
  apply (integers_are_storable _ z lo hi c); cbn; auto.
  rewrite Hz. apply num_eq_refl_Fin.
Qed.

Lemma well_formed_row_storable lowest data :
  well_formed_row lowest data -> storable data = true.
Proof.
  intros (z & lo & hi & c & Hz & Hlo & Hhi & Hc & _).
  apply (integers_are_storable _ z lo hi c); auto.
  - rewrite Hz. apply num_eq_refl_Fin.
  - rewrite Hlo. apply num_eq_refl_Fin.
  - rewrite Hhi. apply num_eq_refl_Fin.
Qed.

(** A row whose prediction and bounds are integers and whose confidence
    is NaN is refused for its confidence. *)
Lemma no_confidence_is_refused data z lo hi :
  num_eq (predicted_demand data) (of_Z z) ->
  num_eq (fd_lower_bound data) (of_Z lo) ->
  num_eq (fd_upper_bound data) (of_Z hi) ->
  fd_confidence_score data = NaN ->
  refusal data = Some (null_value column_confidence_score).
Proof.
  intros Hz Hlo Hhi Hc. unfold refusal.
  rewrite (is_fraction_eq _ _ Hz), (is_fraction_eq _ _ Hlo), (is_fraction_eq _ _ Hhi).
  rewrite (is_finite_eq _ _ Hz), Hc. reflexivity.
Qed.

(** C9 fails on the code.  There is no Naive model and no fallback: on a
    history that is constant zero the method that was asked for is the
    one that runs (the linear trend on two dates or more).  Every point it
    predicts is 0, with bounds 0, and the confidence of every point is
    NaN, the quotient of a zero deviation and a zero mean.  The table
    refuses the row of such a point, whose [confidence_score] arrives as
    [null], and [generateForecast] throws what [createForecast] throws at
    the first row: the product gets no forecast, where the claim has it
    get a well-formed one. *)
Theorem zero_series_is_refused {World : Type}
  (rt : Runtime World) (db : dbHelpers World)
  (productId model : string) (m : method) (days : nat)
  (w : World) (rows : list sale) (w1 : World) :
  sqrt_zero rt ->
  getSalesData db productId 90 w = (Returned (Some rows), w1) ->
  (7 <= List.length rows)%nat ->
  constant_zero (aggregateDailySales rows) ->
  select_model model = OwnMethod m ->
  (m = LinearTrend -> (2 <= List.length (aggregateDailySales rows))%nat) ->
  (1 <= days)%nat ->
  exists predictions w2 first others,
    call_model rt (OwnMethod m) (aggregateDailySales rows) days w1 =
      (Returned (PredictionArray predictions), w2) /\
    calculateConfidenceIntervals rt predictions (aggregateDailySales rows) =
      first :: others /\
    Forall (fun f =>
              fc_predicted f = Fin 0 /\
              num_eq (lower_bound f) (Fin 0) /\
              num_eq (upper_bound f) (Fin 0) /\
              confidence_score f = NaN /\
              refusal (forecast_row productId model f) =
                Some (null_value column_confidence_score))
      (first :: others) /\
    (forall e w3,
       createForecast db (forecast_row productId model first) w2 = (Threw e, w3) ->
       generateForecast rt db productId model days w = (Threw e, w3)).
Proof.
  intros Hsqrt E Hlen Hzero Hm Htrend Hdays.
  destruct (zero_series_forecasts_zero rt (aggregateDailySales rows) days m w1
              Hsqrt Hzero Htrend) as (predictions & w2 & E2 & Hlen2 & Hall).
  destruct (calculateConfidenceIntervals rt predictions (aggregateDailySales rows))
    as [|first others] eqn:Ei.
  { apply (f_equal (@List.length forecast)) in Ei.
    rewrite calculateConfidenceIntervals_map, length_map in Ei.
    cbn [List.length] in Ei. lia. }
  exists predictions, w2, first, others.
  split; [exact E2|]. split; [exact Ei|]. split.
  - pose proof (zero_history_confidence rt predictions (aggregateDailySales rows)
                  Hsqrt Hzero) as Hnan.
    rewrite Ei in Hnan. rewrite Forall_forall in Hall, Hnan |- *.
    intros f Hf. destruct (Hall f Hf) as (Hp & Hlo & Hhi).
    pose proof (Hnan f Hf) as Hc.
    split; [exact Hp|]. split; [exact Hlo|]. split; [exact Hhi|].
    split; [exact Hc|].
    apply (no_confidence_is_refused _ 0 0 0); cbn; auto.
    rewrite Hp. reflexivity.
  - intros e w3 Ec.
    apply (generateForecast_store_throws rt db productId model m days w rows w1
             predictions w2 e w3 E Hlen Hm E2).
    rewrite saveForecastToDatabase_creates, Ei. cbn [map].
    now apply create_each_refused.
Qed.

(** ** Bulk generation *)

Section BulkFacts.
Context {World : Type} (rt : Runtime World) (db : dbHelpers World).

(** One turn of the loop of [generateBulkForecasts] pushes one entry. *)
Lemma bulk_turn productId model results w :
  exists entry w',
    try_catch
      (forecast <- generateForecast rt db productId model 14 ;;
       ret (results ++ [bulk_success productId forecast]))
      (fun error => ret (results ++ [bulk_failure productId (exn_message error)]))
      w = (Returned (results ++ [entry]), w') /\
    ((exists forecast, generateForecast rt db productId model 14 w = (Returned forecast, w')
                       /\ entry = bulk_success productId forecast) \/
     (exists e, generateForecast rt db productId model 14 w = (Threw e, w')
                /\ entry = bulk_failure productId (exn_message e))).
Proof.
  unfold try_catch, bind.
  destruct (generateForecast rt db productId model 14 w) as [[forecast|e] w'].
  - exists (bulk_success productId forecast), w'. split; [reflexivity|].
    left. now exists forecast.
  - exists (bulk_failure productId (exn_message e)), w'. split; [reflexivity|].
    right. now exists e.
Qed.

Lemma generateBulkForecasts_total productIds model w :
  exists results w',
    generateBulkForecasts rt db productIds model w = (Returned results, w') /\
    map entry_productId results = productIds.
Proof.
  unfold generateBulkForecasts.
  destruct (for_of_pushes (fun _ : World => True)
              (fun productId entry => entry_productId entry = productId)
              (fun productId results =>
                 try_catch
                   (forecast <- generateForecast rt db productId model 14 ;;
                    ret (results ++ [bulk_success productId forecast]))
                   (fun error =>
                      ret (results ++ [bulk_failure productId (exn_message error)])))
              productIds) with (s := @nil bulk_entry) (w := w)
    as (results & w' & E & _ & Hall); auto.
  - intros productId s w0 _ _.
    destruct (bulk_turn productId model s w0) as (entry & w1 & E1 & Hentry).
    exists entry, w1. split; [exact E1|]. split; [exact Logic.I|].
    destruct Hentry as [(f & _ & ->)|(e & _ & ->)]; reflexivity.
  - exists results, w'. split; [exact E|].
    clear E. induction Hall as [|x b l bs Hb _ IH]; simpl; congruence.
Qed.

Lemma successes_only (good : list string) (l : list string) (bs : list bulk_entry) :
  Forall2 (fun x b => In x good -> entry_success b = true) l bs ->
  (forall x, In x l -> In x good) ->
  filter entry_success bs = bs /\
  filter (fun e => negb (entry_success e)) bs = [].
Proof.
  induction 1 as [|x b l bs Hb _ IH]; intros Hin; simpl; [auto|].
  rewrite (Hb (Hin x (or_introl eq_refl))). simpl.
  destruct (IH (fun y Hy => Hin y (or_intror Hy))) as [-> ->]. auto.
Qed.

End BulkFacts.

Section ControllerFacts.
Context {World : Type} (rt : Runtime World) (db : dbHelpers World).

Lemma bulk_product_skips days p results w rows w1 :
  getSalesData db (product_id p) 30 w = (Returned (Some rows), w1) ->
  (List.length rows < 5)%nat ->
  bulk_product rt db days p results w = (Returned results, w1).
Proof.
  intros E Hlen. unfold bulk_product, try_catch.
  rewrite (bind_returned _ _ _ _ _ E). unfold rows_of, bind, ret.
  destruct (Nat.ltb_spec (List.length rows) 5) as [_|Hge]; [reflexivity|lia].
Qed.

Lemma bulkGenerateForecasts_total days w :
  exists answer w', bulkGenerateForecasts rt db days w = (Returned answer, w').
Proof.
  unfold bulkGenerateForecasts, try_catch.
  match goal with |- context [match ?body w with _ => _ end] =>
    destruct (body w) as [[answer|e] w'] end.
  - now exists answer, w'.
  - unfold ret. eexists. eexists. reflexivity.
Qed.

End ControllerFacts.

(** C4, as the code has it.  [generateBulkForecasts] never throws and
    returns one entry for each product id, in order.  For a batch of one
    product whose sales query answers no row and N products for which
    [generateForecast] succeeds, the entries are N successes and exactly
    one failure, that of the bad product, with the message of the
    threshold.  (Enough rows are not enough for a success: the rows of a
    forecast have to be accepted by the database, and a product whose rows
    it refuses gets a failure entry of its own.)  [bulkGenerateForecasts]
    of the controller never throws either, but it skips a product with
    fewer than 5 rows without pushing any entry. *)
Theorem bulk_generation_isolates_products {World : Type}
  (rt : Runtime World) (db : dbHelpers World) :
  (forall (I : World -> Prop) model before bad after w,
     I w ->
     reads db I bad 90 (fun rows => rows = []) ->
     (forall p, In p (before ++ after) -> succeeds rt db I p model 14) ->
     exists results w',
       generateBulkForecasts rt db (before ++ bad :: after) model w =
         (Returned results, w') /\
       map entry_productId results = before ++ bad :: after /\
       filter (fun e => negb (entry_success e)) results =
         [bulk_failure bad "Insufficient historical data for forecasting"] /\
       List.length (filter entry_success results) =
         (List.length before + List.length after)%nat) /\
  (forall productIds model w,
     exists results w',
       generateBulkForecasts rt db productIds model w = (Returned results, w') /\
       map entry_productId results = productIds) /\
  (forall days w,
     exists answer w', bulkGenerateForecasts rt db days w = (Returned answer, w')) /\
  (forall days p results w rows w1,
     getSalesData db (product_id p) 30 w = (Returned (Some rows), w1) ->
     (List.length rows < 5)%nat ->
     bulk_product rt db days p results w = (Returned results, w1)).
Proof.
  split; [|split; [apply generateBulkForecasts_total|
                   split; [apply bulkGenerateForecasts_total|
                           apply bulk_product_skips]]].
  intros I model before bad after w Hw Hbad Hgood.
  set (good := before ++ after).
  set (failure := bulk_failure bad "Insufficient historical data for forecasting").
  unfold generateBulkForecasts.
  destruct (for_of_pushes I
              (fun productId entry =>
                 entry_productId entry = productId /\
                 (productId = bad -> entry = failure) /\
                 (In productId good -> entry_success entry = true))
              (fun productId results =>
                 try_catch
                   (forecast <- generateForecast rt db productId model 14 ;;
                    ret (results ++ [bulk_success productId forecast]))
                   (fun error =>
                      ret (results ++ [bulk_failure productId (exn_message error)])))
              (before ++ bad :: after)) with (s := @nil bulk_entry) (w := w)
    as (results & w' & E & _ & Hall); auto.
  - intros productId s w0 Hin Hw0.
    assert (Hcases : productId = bad \/ In productId good).
    { apply in_app_or in Hin. destruct Hin as [H|[H|H]]; auto;
        right; apply in_or_app; auto. }
    destruct (bulk_turn rt db productId model s w0) as (entry & w1 & E1 & Hentry).
    exists entry, w1. split; [exact E1|].
    assert (Hbad' : productId = bad ->
                    generateForecast rt db productId model 14 w0 =
                    (Threw (Error "Insufficient historical data for forecasting"),
                     w1) /\ I w1 /\ entry = failure).
    { intros ->. destruct (Hbad w0 Hw0) as (rows & w2 & E2 & -> & Hw2).
      pose proof (generateForecast_rejects rt db bad model 14 w0 _ w2 E2 eq_refl) as Ethrow.
      destruct Hentry as [(f & Ef & _)|(e & Ee & ->)]; rewrite Ethrow in *.
      - discriminate.
      - injection Ee as <- <-. auto. }
    assert (Hgood' : In productId good ->
                     I w1 /\ entry_success entry = true).
    { intros Hp. destruct (Hgood productId Hp w0 Hw0) as (result & w3 & E3 & Hw3).
      destruct Hentry as [(f & Ef & ->)|(e & Ee & _)]; rewrite E3 in *.
      - injection Ef as <- <-. auto.
      - discriminate. }
    split; [destruct Hcases as [H|H]; [apply Hbad' in H|apply Hgood' in H]; tauto|].
    split; [destruct Hentry as [(f & _ & ->)|(e & _ & ->)]; reflexivity|].
    split; [intros H; now apply Hbad'|intros H; now apply Hgood'].
  - exists results, w'. split; [exact E|]. cbn [app] in Hall. clear E.
    apply Forall2_app_inv_l in Hall.
    destruct Hall as (r1 & r2' & H1 & H2 & ->).
    inversion H2 as [|? b ? r2 Hb H3]; subst. destruct Hb as (_ & Hfail & _).
    rewrite (Hfail eq_refl).
    assert (Hids : forall l bs,
               Forall2 (fun productId entry =>
                          entry_productId entry = productId /\
                          (productId = bad -> entry = failure) /\
                          (In productId good -> entry_success entry = true)) l bs ->
               map entry_productId bs = l).
    { induction 1 as [|x b0 l bs (Hx & _) _ IH]; simpl; congruence. }
    assert (Hsucc : forall l bs,
               Forall2 (fun productId entry =>
                          entry_productId entry = productId /\
                          (productId = bad -> entry = failure) /\
                          (In productId good -> entry_success entry = true)) l bs ->
               Forall2 (fun x b => In x good -> entry_success b = true) l bs).
    { intros l bs H. eapply Forall2_impl; [|exact H]. cbv beta. tauto. }
    destruct (successes_only good before r1 (Hsucc _ _ H1)) as [S1 F1].
    { intros x Hx. apply in_or_app. auto. }
    destruct (successes_only good after r2 (Hsucc _ _ H3)) as [S2 F2].
    { intros x Hx. apply in_or_app. auto. }
    split; [|split].
    + rewrite map_app. cbn [map]. rewrite (Hids _ _ H1), (Hids _ _ H3).
      reflexivity.
    + rewrite filter_app. cbn [filter]. rewrite F1, F2. reflexivity.
    + rewrite filter_app. cbn [filter]. rewrite S1, S2.
      rewrite length_app. cbn [entry_success failure].
      rewrite <- (Forall2_length H1), <- (Forall2_length H3). reflexivity.
Qed.

(** C5, as the code has it.  The threshold of [generateForecast] is 7 rows
    of the sales query, whatever the number of periods they span: when the
    query answers [null] or fewer than 7 rows the call throws
    "Insufficient historical data for forecasting" and leaves the world as
    the query left it (no forecast is stored); when it answers 7 rows or
    more and the model name selects one of the three methods, the product
    is modelled: the method returns [days] predictions, their rows are
    handed to the database, and [generateForecast] returns the [days] rows
    the database answers, or throws what the database throws when it
    refuses a row.  [bulkGenerateForecasts] of the controller passes over
    a product with fewer than 5 rows. *)
Theorem history_threshold_is_seven_rows {World : Type}
  (rt : Runtime World) (db : dbHelpers World) :
  (forall productId model days w salesData w1,
     getSalesData db productId 90 w = (Returned salesData, w1) ->
     salesData = None \/
       (exists rows, salesData = Some rows /\ (List.length rows < 7)%nat) ->
     generateForecast rt db productId model days w =
       (Threw (Error "Insufficient historical data for forecasting"), w1)) /\
  (forall productId model m days w rows w1,
     getSalesData db productId 90 w = (Returned (Some rows), w1) ->
     (7 <= List.length rows)%nat ->
     select_model model = OwnMethod m ->
     exists predictions w2,
       call_model rt (OwnMethod m) (aggregateDailySales rows) days w1 =
         (Returned (PredictionArray predictions), w2) /\
       List.length predictions = days /\
       (forall records w3,
          saveForecastToDatabase db productId
            (calculateConfidenceIntervals rt predictions (aggregateDailySales rows))
            model w2 = (Returned records, w3) ->
          List.length records = days /\
          generateForecast rt db productId model days w =
            (Returned
               (mkResult productId model records (today rt w3)
                  (List.length (aggregateDailySales rows))), w3)) /\
       (forall e w3,
          saveForecastToDatabase db productId
            (calculateConfidenceIntervals rt predictions (aggregateDailySales rows))
            model w2 = (Threw e, w3) ->
          generateForecast rt db productId model days w = (Threw e, w3))) /\
  (forall days p results w rows w1,
     getSalesData db (product_id p) 30 w = (Returned (Some rows), w1) ->
     (List.length rows < 5)%nat ->
     bulk_product rt db days p results w = (Returned results, w1)).
Proof.
  split; [|split; [|apply bulk_product_skips]].
  - intros productId model days w salesData w1 E Hfew.
    apply (generateForecast_rejects rt db productId model days w salesData w1 E).
    destruct Hfew as [->|(rows & -> & Hlen)]; [reflexivity|].
    unfold insufficient_history. now apply Nat.ltb_lt.
  - intros productId model m days w rows w1 E Hlen Hm.
    destruct (call_model_own rt m (aggregateDailySales rows) days w1)
      as (predictions & w2 & E2 & Hdays).
    exists predictions, w2. split; [exact E2|]. split; [exact Hdays|]. split.
    + intros records w3 E3. split.
      * rewrite saveForecastToDatabase_creates in E3.
        apply create_each_length in E3.
        now rewrite E3, length_map, calculateConfidenceIntervals_map, length_map.
      * exact (generateForecast_stores rt db productId model m days w rows w1
                 predictions w2 records w3 E Hlen Hm E2 E3).
    + intros e w3 E3.
      exact (generateForecast_store_throws rt db productId model m days w rows w1
               predictions w2 e w3 E Hlen Hm E2 E3).
Qed.

(** ** Determinism up to the random draws *)

Section Determinism.
Context {World : Type} (rt : Runtime World).

(** The values a method predicts, as a function of the draws. *)
Lemma call_model_values m dailySales days w :
  exists predictions w',
    call_model rt (OwnMethod m) dailySales days w =
      (Returned (PredictionArray predictions), w') /\
    map prediction_date predictions =
      map (fun i => date_ahead rt w (Z.of_nat i)) (one_to days) /\
    map predicted predictions =
      match m with
      | SimpleMovingAverage =>
          map (fun r =>
                 Math_max (Fin 0)
                   (Math_round
                      (num_mul (average_of (slice_last 7 (values_of dailySales)))
                         (random_factor (Fin r) (Fin 0.1)))))
            (next_draws rt days w)
      | ExponentialSmoothing =>
          map (fun _ =>
                 Math_max (Fin 0)
                   (Math_round (smooth (Fin 0.3) (values_of dailySales))))
            (one_to days)
      | LinearTrend =>
          map (fun i => predicted (trend_point (values_of dailySales) (fun d => d) i))
            (one_to days)
      end.
Proof.
  destruct m; unfold call_model, bind.
  - rewrite simpleMovingAverage_run. eexists. eexists.
    split; [reflexivity|]. split; [apply draws_dates|].
    rewrite map_map.
    assert (Hlen : List.length (one_to days) = List.length (next_draws rt days w)).
    { rewrite next_draws_length. unfold one_to. now rewrite length_seq. }
    revert Hlen. generalize (one_to days) (next_draws rt days w).
    induction l as [|i l IH]; intros [|r rs] Hlen; try discriminate; [reflexivity|].
    cbn [combine map]. f_equal. apply IH. now injection Hlen.
  - rewrite exponentialSmoothing_run. eexists. eexists.
    split; [reflexivity|]. split; now rewrite map_map.
  - rewrite linearTrend_points. eexists. eexists.
    split; [reflexivity|]. split; now rewrite map_map.
Qed.

Lemma same_points (predictions1 predictions2 : list prediction) :
  map prediction_date predictions1 = map prediction_date predictions2 ->
  map predicted predictions1 = map predicted predictions2 ->
  predictions1 = predictions2.
Proof.
  revert predictions2.
  induction predictions1 as [|[d1 v1] l1 IH]; intros [|[d2 v2] l2];
    try discriminate; [reflexivity|].
  cbn [map prediction_date predicted]. intros [= -> Hd] [= -> Hv].
  f_equal. now apply IH.
Qed.

Lemma same_numbers (dailySales : list daily) (predictions1 predictions2 : list prediction) :
  map predicted predictions1 = map predicted predictions2 ->
  map forecast_numbers (calculateConfidenceIntervals rt predictions1 dailySales) =
  map forecast_numbers (calculateConfidenceIntervals rt predictions2 dailySales).
Proof.
  intros H. unfold calculateConfidenceIntervals. rewrite !map_map.
  unfold forecast_numbers.
  cbn [fc_predicted confidence_score lower_bound upper_bound].
  revert predictions2 H.
  induction predictions1 as [|p1 l1 IH]; intros [|p2 l2]; try discriminate;
    [reflexivity|].
  cbn [map]. intros [= Hp Hl]. rewrite Hp. f_equal. now apply IH.
Qed.

End Determinism.

(** C6, as the code has it.  Two runs of a forecasting method on the same
    series and horizon predict the same values, hence the same bounds and
    confidence, when [Math.random()] returns the same values in both;
    exponential smoothing and the linear trend draw no random number, and
    need not even that.  The dates of the points are those the clock of
    each run prints, whatever the draws: the two runs return the same
    predictions, dates included, when they print the same dates as well. *)
Theorem forecast_is_determined_by_the_draws {World : Type} (rt : Runtime World)
  (m : method) (dailySales : list daily) (days : nat) (w1 w2 : World) :
  (next_draws rt days w1 = next_draws rt days w2 \/ m <> SimpleMovingAverage) ->
  exists predictions1 w1' predictions2 w2',
    call_model rt (OwnMethod m) dailySales days w1 =
      (Returned (PredictionArray predictions1), w1') /\
    call_model rt (OwnMethod m) dailySales days w2 =
      (Returned (PredictionArray predictions2), w2') /\
    map predicted predictions1 = map predicted predictions2 /\
    map forecast_numbers (calculateConfidenceIntervals rt predictions1 dailySales) =
      map forecast_numbers (calculateConfidenceIntervals rt predictions2 dailySales) /\
    ((forall i, In i (one_to days) ->
                date_ahead rt w1 (Z.of_nat i) = date_ahead rt w2 (Z.of_nat i)) ->
     predictions1 = predictions2).
Proof.
  intros Hdraws.
  destruct (call_model_values rt m dailySales days w1)
    as (predictions1 & w1' & E1 & Hd1 & Hv1).
  destruct (call_model_values rt m dailySales days w2)
    as (predictions2 & w2' & E2 & Hd2 & Hv2).
  assert (Hv : map predicted predictions1 = map predicted predictions2).
  { rewrite Hv1, Hv2. destruct m; [|reflexivity|reflexivity].
    destruct Hdraws as [->|Hm]; [reflexivity|contradiction]. }
  exists predictions1, w1', predictions2, w2'.
  split; [exact E1|]. split; [exact E2|]. split; [exact Hv|].
  split; [now apply same_numbers|].
  intros Hdates. apply same_points; [|exact Hv].
  rewrite Hd1, Hd2. apply map_ext_in. exact Hdates.
Qed.

(** ** Names inherited from [Object.prototype] *)

Lemma select_model_inherited name :
  In name Object_prototype_properties -> select_model name = Inherited name.
Proof.
  intros H. unfold Object_prototype_properties in H. simpl in H.
  repeat (destruct H as [<-|H]; [reflexivity|]). contradiction.
Qed.

Lemma select_model_unknown model :
  models_get model = Absent -> select_model model = OwnMethod SimpleMovingAverage.
Proof. intros H. unfold select_model. now rewrite H. Qed.

(** C10 fails on the code.  ["toString"] is none of the three model names,
    yet [this.models["toString"]] is the function every object inherits:
    it is truthy, so the moving average is not substituted, and the string
    it returns has no [map]; [generateForecast] throws a TypeError where
    the claim has it return a moving-average forecast. *)
Theorem inherited_name_is_not_defaulted {World : Type}
  (rt : Runtime World) (db : dbHelpers World)
  (productId : string) (days : nat) (w : World) (rows : list sale) (w1 : World) :
  getSalesData db productId 90 w = (Returned (Some rows), w1) ->
  (7 <= List.length rows)%nat ->
  select_model "toString" = Inherited "toString" /\
  generateForecast rt db productId "toString" days w =
    (Threw (TypeError (engine_message rt "predictions.map")), w1).
Proof.
  intros E Hlen. split; [reflexivity|].
  unfold generateForecast. rewrite try_rethrow.
  rewrite (bind_returned _ _ _ _ _ E). unfold insufficient_history.
  destruct (Nat.ltb_spec (List.length rows) 7) as [Hlt|_]; [lia|].
  reflexivity.
Qed.

(** Every inherited name but ["constructor"] ends in a TypeError;
    ["constructor"] hands the sales series back as if it were the
    predictions. *)
Lemma inherited_name_throws {World : Type}
  (rt : Runtime World) (db : dbHelpers World)
  (productId name : string) (days : nat) (w : World) (rows : list sale) (w1 : World) :
  In name Object_prototype_properties -> name <> "constructor"%string ->
  getSalesData db productId 90 w = (Returned (Some rows), w1) ->
  (7 <= List.length rows)%nat ->
  exists message,
    generateForecast rt db productId name days w = (Threw (TypeError message), w1).
Proof.
  intros Hin Hname E Hlen. unfold generateForecast. rewrite try_rethrow.
  rewrite (bind_returned _ _ _ _ _ E). unfold insufficient_history.
  destruct (Nat.ltb_spec (List.length rows) 7) as [Hlt|_]; [lia|].
  unfold Object_prototype_properties in Hin. simpl in Hin.
  repeat (destruct Hin as [<-|Hin];
          [try contradiction; eexists; reflexivity|]).
  contradiction.
Qed.


(* ================================================================= *)
(** * More of the daily series *)

Local Open Scope Z_scope.


Lemma has_sale_on_perm d l l' :
  Permutation l l' -> has_sale_on d l = has_sale_on d l'.
Proof.
  unfold has_sale_on.
  induction 1 as [|x l l' _ IH|x y l|l l' l'' _ IH1 _ IH2]; simpl.
  - reflexivity.
  - now rewrite IH.
  - destruct (on_date d x), (on_date d y); reflexivity.
  - congruence.
Qed.

Lemma total_on_perm d l l' :
  Permutation l l' -> total_on d l = total_on d l'.
Proof.
  unfold total_on.
  induction 1 as [|x l l' _ IH|x y l|l l' l'' _ IH1 _ IH2]; simpl.
  - reflexivity.
  - destruct (on_date d x); simpl; lia.
  - destruct (on_date d x), (on_date d y); simpl; lia.
  - congruence.
Qed.

(** Two series with strictly increasing dates and the same entries are
    the same series. *)
Lemma increasing_series_unique (s1 s2 : list daily) :
  dates_increase s1 -> dates_increase s2 ->
  (forall e, In e s1 <-> In e s2) -> s1 = s2.
Proof.
  unfold dates_increase. revert s2.
  induction s1 as [|a s1 IH]; intros s2 H1 H2 Hsame.
  - destruct s2 as [|b s2]; [reflexivity|].
    exfalso. apply (proj2 (Hsame b)). now left.
  - destruct s2 as [|b s2].
    { exfalso. apply (proj1 (Hsame a)). now left. }
    simpl in H1, H2.
    inversion H1 as [|? ? H1' A1]; inversion H2 as [|? ? H2' A2]; subst.
    rewrite Forall_forall in A1, A2.
    assert (Hab : a = b).
    { destruct (proj1 (Hsame a) (or_introl eq_refl)) as [E|Ha]; [now symmetry|].
      destruct (proj2 (Hsame b) (or_introl eq_refl)) as [E|Hb]; [exact E|].
      pose proof (A2 _ (in_map date _ _ Ha)).
      pose proof (A1 _ (in_map date _ _ Hb)). lia. }
    subst b. f_equal. apply IH; auto.
    intros e. split; intros He.
    + destruct (proj1 (Hsame e) (or_intror He)) as [E|H]; [|exact H].
      subst e. pose proof (A1 _ (in_map date _ _ He)). lia.
    + destruct (proj2 (Hsame e) (or_intror He)) as [E|H]; [|exact H].
      subst e. pose proof (A2 _ (in_map date _ _ He)). lia.
Qed.

(** The series does not depend on the order in which the sales rows
    arrive. *)
Theorem aggregation_ignores_row_order (salesData salesData' : list sale) :
  Permutation salesData salesData' ->
  aggregateDailySales salesData = aggregateDailySales salesData'.
Proof.
  intros Hperm. apply increasing_series_unique;
    try apply aggregate_dates_increase.
  intros [d q]. rewrite !aggregate_entry.
  now rewrite (has_sale_on_perm d _ _ Hperm), (total_on_perm d _ _ Hperm).
Qed.

Lemma Map_set_total (m : JsMap Z) k v :
  map_total (Map_set m k v) = map_total m - get_or_0 m k + v.
Proof.
  unfold map_total, get_or_0.
  induction m as [|[k' v'] m IH]; simpl; [lia|].
  destruct (Z.eqb_spec k' k) as [->|Hne]; simpl; [lia|].
  rewrite IH. lia.
Qed.

Lemma Map_set_length (m : JsMap Z) k v :
  List.length (Map_set m k v) =
  if Map_has m k then List.length m else S (List.length m).
Proof.
  unfold Map_has. induction m as [|[k' v'] m IH]; simpl; [reflexivity|].
  destruct (Z.eqb_spec k' k) as [->|Hne]; simpl; [reflexivity|].
  rewrite IH. now destruct (Map_get m k).
Qed.

Lemma aggregate_step_total m s :
  map_total (aggregate_step m s) = map_total m + quantity_sold s.
Proof.
  rewrite aggregate_step_set, Map_set_total. unfold Map_has, get_or_0.
  destruct (Map_get m (sale_date s)) as [q|] eqn:E.
  - rewrite E. lia.
  - rewrite Map_get_set_same, Map_set_total. unfold get_or_0. rewrite E. lia.
Qed.

Lemma aggregate_step_length m s :
  (List.length m <= List.length (aggregate_step m s) <= S (List.length m))%nat.
Proof.
  rewrite aggregate_step_set, Map_set_length. unfold Map_has.
  destruct (Map_get m (sale_date s)) as [q|] eqn:E.
  - rewrite E. lia.
  - rewrite Map_get_set_same, Map_set_length. unfold Map_has. rewrite E. lia.
Qed.

Lemma aggregate_fold_total salesData m :
  map_total (fold_left aggregate_step salesData m) =
  map_total m + sales_total salesData.
Proof.
  revert m. unfold sales_total.
  induction salesData as [|s rest IH]; intros m; simpl; [lia|].
  rewrite IH, aggregate_step_total. lia.
Qed.

Lemma aggregate_fold_length salesData m :
  (List.length m <= List.length (fold_left aggregate_step salesData m)
   <= List.length m + List.length salesData)%nat.
Proof.
  revert m. induction salesData as [|s rest IH]; intros m; simpl; [lia|].
  pose proof (IH (aggregate_step m s)).
  pose proof (aggregate_step_length m s). lia.
Qed.

Lemma series_total_perm s s' :
  Permutation s s' -> series_total s = series_total s'.
Proof.
  unfold series_total.
  induction 1 as [|x l l' _ IH|x y l|l l' l'' _ IH1 _ IH2];
    cbn [map fold_right] in *; lia.
Qed.

(** Aggregation loses no sale: the quantities of the series add up to the
    quantities of the rows; the series never has more entries than there
    are rows, and it is empty for no rows only. *)
Theorem aggregation_conserves_quantity (salesData : list sale) :
  series_total (aggregateDailySales salesData) = sales_total salesData /\
  (List.length (aggregateDailySales salesData) <= List.length salesData)%nat /\
  (aggregateDailySales salesData = [] <-> salesData = []).
Proof.
  unfold aggregateDailySales.
  set (m := fold_left aggregate_step salesData []).
  assert (Hlen : List.length (sort_by_date (map (fun e => mkDaily (fst e) (snd e)) m))
                 = List.length m).
  { rewrite <- (Permutation_length (sort_by_date_perm _)). apply length_map. }
  split; [|split].
  - rewrite <- (series_total_perm _ _ (sort_by_date_perm _)).
    unfold series_total. rewrite map_map. cbn [quantity].
    pose proof (aggregate_fold_total salesData []) as H.
    unfold map_total in H. simpl in H. exact H.
  - rewrite Hlen. pose proof (aggregate_fold_length salesData []) as H.
    fold m in H. simpl in H. lia.
  - split.
    + intros E. apply (f_equal (@List.length daily)) in E. rewrite Hlen in E.
      destruct salesData as [|s rest]; [reflexivity|]. exfalso.
      unfold m in E. cbn [fold_left] in E.
      pose proof (aggregate_fold_length rest (aggregate_step [] s)) as H.
      pose proof (aggregate_step_get [] s (sale_date s)) as H'.
      unfold on_date in H'. rewrite Z.eqb_refl in H'.
      destruct (aggregate_step [] s); [discriminate|].
      cbn [List.length] in H, E. lia.
    + intros ->. reflexivity.
Qed.

Lemma group_fold_sorted (sales : list sale) (m : JsMap Z) :
  StronglySorted Z.lt (map fst m) ->
  StronglySorted Z.le (map sale_date sales) ->
  (forall k s, In k (map fst m) -> In s sales -> k <= sale_date s) ->
  StronglySorted Z.lt (map fst (fold_left group_step sales m)).
Proof.
  revert m. induction sales as [|s rest IH]; intros m Hm Hs Hle; simpl; [exact Hm|].
  inversion Hs as [|? ? Hs' Hall]; subst. rewrite Forall_forall in Hall.
  apply IH; [|exact Hs'|].
  - unfold group_step. rewrite Map_set_keys. unfold Map_has.
    destruct (Map_get m (sale_date s)) eqn:E; [exact Hm|].
    clear IH Hs Hs' Hall.
    assert (Hlt : forall k, In k (map fst m) -> k < sale_date s).
    { intros k Hk. pose proof (Hle k s Hk (or_introl eq_refl)).
      assert (k <> sale_date s).
      { intros ->. exact (Map_get_None _ _ E Hk). }
      lia. }
    clear Hle E. induction (map fst m) as [|k ks IHk]; simpl.
    + repeat constructor.
    + inversion Hm as [|? ? Hm' Hk]; subst. constructor.
      * apply IHk; [exact Hm'|]. intros k' Hk'. apply Hlt. now right.
      * apply Forall_app. split; [exact Hk|].
        constructor; [apply Hlt; now left|constructor].
  - intros k s' Hk Hs'in. unfold group_step in Hk. rewrite Map_set_keys in Hk.
    destruct (Map_has m (sale_date s)).
    + apply Hle; [exact Hk|now right].
    + apply in_app_or in Hk. destruct Hk as [Hk|[<-|[]]].
      * apply Hle; [exact Hk|now right].
      * apply Hall. now apply in_map.
Qed.

(** Grouping keeps the dates in the order of their first row: when the
    rows come by non-decreasing date, as the query of
    [fetchSalesDataFromDB] orders them, the grouped rows come by strictly
    increasing date. *)
Theorem grouping_keeps_date_order (sku : string) (sales : list sale) :
  StronglySorted Z.le (map sale_date sales) ->
  StronglySorted Z.lt (map row_date (groupSalesByDate sku sales)).
Proof.
  intros Hs. unfold groupSalesByDate. rewrite map_map. cbn [row_date].
  apply group_fold_sorted; [constructor|exact Hs|].
  intros k s [].
Qed.

(* ================================================================= *)
(** * More of the forecasting methods *)

Local Open Scope Q_scope.

Lemma Qround_half_up_inject z : Qround_half_up (inject_Z z) = z.
Proof.
  destruct (Qround_half_up_bounds (inject_Z z)) as [Hlo Hhi].
  set (r := Qround_half_up (inject_Z z)) in *.
  assert (H1 : (z + -1 < r)%Z).
  { rewrite Zlt_Qlt, inject_Z_plus. change (inject_Z (-1)) with (-1 # 1). lra. }
  assert (H2 : (r < z + 1)%Z).
  { rewrite Zlt_Qlt, inject_Z_plus. change (inject_Z 1) with 1. lra. }
  lia.
Qed.

Lemma Qround_half_up_comp p q : p == q -> Qround_half_up p = Qround_half_up q.
Proof.
  intros H. unfold Qround_half_up. apply Qfloor_comp. now rewrite H.
Qed.

Lemma Qround_half_up_between lo hi q :
  inject_Z lo <= q -> q <= inject_Z hi ->
  (lo <= Qround_half_up q <= hi)%Z.
Proof.
  intros Hlo Hhi. split.
  - rewrite <- (Qround_half_up_inject lo). now apply Qround_half_up_mono.
  - rewrite <- (Qround_half_up_inject hi). now apply Qround_half_up_mono.
Qed.

(** ** Exponential smoothing *)

(** The smoothed value over rationals. *)
Lemma smooth_is_finite (alpha : Q) (qs : list Q) :
  qs <> [] -> exists s, smooth (Fin alpha) (map Fin qs) = Fin s.
Proof.
  intros Hne. destruct qs as [|q0 qs]; [contradiction|]. clear Hne. simpl.
  revert q0. induction qs as [|q qs IH]; intros q0; simpl.
  - now exists q0.
  - apply IH.
Qed.

Lemma smooth_between (alpha lo hi : Q) (qs : list Q) :
  0 <= alpha -> alpha <= 1 ->
  qs <> [] -> Forall (fun q => lo <= q /\ q <= hi) qs ->
  exists s, smooth (Fin alpha) (map Fin qs) = Fin s /\ lo <= s /\ s <= hi.
Proof.
  intros Ha0 Ha1 Hne Hall. destruct qs as [|q0 qs]; [contradiction|].
  inversion Hall as [|? ? Hq0 Hqs]; subst. clear Hall Hne. simpl.
  revert q0 Hq0. induction Hqs as [|q qs Hq _ IH]; intros q0 Hq0; simpl.
  - now exists q0.
  - apply IH. destruct Hq as [Hq1 Hq2], Hq0 as [Hs1 Hs2].
    assert (H1 : 0 <= alpha * (q - lo)) by (apply Qmult_le_0_compat; lra).
    assert (H2 : 0 <= (1 - alpha) * (q0 - lo)) by (apply Qmult_le_0_compat; lra).
    assert (H3 : 0 <= alpha * (hi - q)) by (apply Qmult_le_0_compat; lra).
    assert (H4 : 0 <= (1 - alpha) * (hi - q0)) by (apply Qmult_le_0_compat; lra).
    split.
    + setoid_replace (alpha * q + (1 + - alpha) * q0)
        with (lo + (alpha * (q - lo) + (1 - alpha) * (q0 - lo))) by ring. lra.
    + setoid_replace (alpha * q + (1 + - alpha) * q0)
        with (hi - (alpha * (hi - q) + (1 - alpha) * (hi - q0))) by ring. lra.
Qed.

(** Exponential smoothing draws no random number and forecasts a flat
    line: every day gets the same value, an integer that is not negative
    and lies between the smallest and the largest quantity of the series
    (between 0 and the largest when the smallest is negative). *)
Theorem exponential_smoothing_stays_in_range {World : Type} (rt : Runtime World)
  (dailySales : list daily) (days : nat) (alpha : Q) (lo hi : Z) (w : World) :
  0 <= alpha -> alpha <= 1 ->
  dailySales <> [] ->
  Forall (fun d => (lo <= quantity d <= hi)%Z) dailySales ->
  exists z predictions,
    (Z.max 0 lo <= z <= Z.max 0 hi)%Z /\
    exponentialSmoothing rt dailySales days (Fin alpha) w =
      (Returned predictions, w) /\
    map predicted predictions = repeat (of_Z z) days.
Proof.
  intros Ha0 Ha1 Hne Hall.
  destruct (smooth_between alpha (inject_Z lo) (inject_Z hi) (quantities dailySales)
              Ha0 Ha1 (quantities_nonempty _ Hne)) as (s & Es & Hlo & Hhi).
  { unfold quantities. apply Forall_map. eapply Forall_impl; [|exact Hall].
    intros d [H1 H2]. cbv beta. rewrite <- !Zle_Qle. lia. }
  exists (Z.max 0 (Qround_half_up s)). eexists. split; [|split].
  - pose proof (Qround_half_up_between lo hi s Hlo Hhi). lia.
  - apply exponentialSmoothing_run.
  - rewrite map_map, values_of_Fin, Es. cbn [predicted].
    unfold Math_round. rewrite Math_max_0_of_Z, map_const.
    unfold one_to. now rewrite length_seq.
Qed.

(** ** The window of the moving average *)

Lemma slice_last_app {A : Type} (window : nat) (older recent : list A) :
  (0 < window)%nat -> List.length recent = window ->
  slice_last window (older ++ recent) = slice_last window recent.
Proof.
  intros Hpos Hlen. unfold slice_last.
  destruct window as [|n]; [lia|].
  rewrite length_app, Hlen, Nat.sub_diag.
  replace (List.length older + S n - S n)%nat with (List.length older) by lia.
  rewrite skipn_app, skipn_all, Nat.sub_diag. reflexivity.
Qed.

(** The moving average reads the end of the series only: what comes
    before the last [window] entries changes no prediction, under the same
    random numbers. *)
Theorem moving_average_reads_the_last_entries {World : Type} (rt : Runtime World)
  (older recent : list daily) (days window : nat) (w : World) :
  (0 < window)%nat ->
  List.length recent = window ->
  simpleMovingAverage rt (older ++ recent) days window w =
  simpleMovingAverage rt recent days window w.
Proof.
  intros Hpos Hlen. rewrite !simpleMovingAverage_run.
  unfold values_of. rewrite map_app, slice_last_app; [reflexivity|exact Hpos|].
  now rewrite length_map.
Qed.

(** ** The linear trend *)

Lemma xy_sum_snoc x values v sum :
  xy_sum x (values ++ [v]) sum =
  num_add (xy_sum x values sum) (num_mul (of_nat (x + List.length values)) v).
Proof.
  revert x sum. induction values as [|u values IH]; intros x sum; simpl.
  - now rewrite Nat.add_0_r.
  - rewrite IH. now rewrite Nat.add_succ_r.
Qed.

Lemma xy_sum_is_finite (qs : list Q) (x : nat) (a : Q) :
  exists t, xy_sum x (map Fin qs) (Fin a) = Fin t.
Proof.
  revert x a. induction qs as [|q qs IH]; intros x a.
  - now exists a.
  - cbn [map xy_sum]. unfold of_nat, of_Z. cbn [num_mul num_add]. apply IH.
Qed.

(** On two dates or more the least-squares line exists: slope and
    intercept are finite. *)
Lemma trend_is_finite (qs : list Q) :
  (2 <= List.length qs)%nat ->
  exists s c, trend_slope (map Fin qs) = Fin s /\ trend_intercept (map Fin qs) = Fin c.
Proof.
  intros Hlen.
  assert (Hslope : exists s, trend_slope (map Fin qs) = Fin s).
  { unfold trend_slope. cbv zeta. rewrite length_map.
    rewrite index_sum_Fin, index_square_sum_Fin, num_sum_Fin.
    destruct (xy_sum_is_finite qs 0 0) as (t & ->).
    unfold of_nat, of_Z. fold (index_Q (List.length qs)).
    cbn [num_mul num_sub num_neg num_add]. unfold num_div.
    pose proof (trend_denominator_pos (List.length qs) Hlen) as Hden.
    rewrite Qsign_pos by (unfold Qminus in Hden; exact Hden).
    eexists. reflexivity. }
  destruct Hslope as (s & Es). exists s.
  unfold trend_intercept. cbv zeta. rewrite Es, length_map.
  rewrite index_sum_Fin, num_sum_Fin.
  unfold of_nat, of_Z. fold (index_Q (List.length qs)).
  cbn [num_mul num_sub num_neg num_add]. unfold num_div.
  rewrite Qsign_pos by (apply index_Q_pos; lia).
  eexists. split; reflexivity.
Qed.

Lemma trend_point_is_integer (qs : list Q) startDate i :
  (2 <= List.length qs)%nat ->
  exists z, (0 <= z)%Z /\
            trend_point (map Fin qs) startDate i =
            mkPrediction (startDate (Z.of_nat i)) (of_Z z).
Proof.
  intros Hlen. unfold trend_point. cbv zeta.
  destruct (trend_is_finite qs Hlen) as (s & c & -> & ->).
  unfold of_nat at 1. unfold of_Z at 1. cbn [num_mul num_add]. unfold Math_round.
  rewrite Math_max_0_of_Z. eexists. split; [|reflexivity]. lia.
Qed.

Lemma line_values_S a b n :
  line_values a b (S n) = line_values a b n ++ [inject_Z (a + b * Z.of_nat n)].
Proof. unfold line_values. now rewrite seq_S, map_app. Qed.

Lemma line_values_length a b n : List.length (line_values a b n) = n.
Proof. unfold line_values. now rewrite length_map, length_seq. Qed.

Lemma inject_line a b k :
  inject_Z (a + b * Z.of_nat k) == inject_Z a + inject_Z b * index_Q k.
Proof. unfold index_Q. now rewrite inject_Z_plus, inject_Z_mult. Qed.

Lemma Qsum_one q : Qsum [q] == q.
Proof. unfold Qsum. cbn [fold_left]. ring. Qed.

Lemma line_sum a b n :
  Qsum (line_values a b n) ==
  index_Q n * inject_Z a + inject_Z b * Qsum (map index_Q (seq 0 n)).
Proof.
  induction n as [|n IH].
  - unfold line_values, Qsum. cbn [seq map fold_left].
    change (index_Q 0) with 0. ring.
  - rewrite line_values_S, Qsum_app, IH, seq_S, map_app, Qsum_app.
    cbn [map Nat.add]. rewrite index_Q_S, !Qsum_one, inject_line. ring.
Qed.

Lemma line_xy_sum a b n :
  exists t,
    xy_sum 0 (map Fin (line_values a b n)) (Fin 0) = Fin t /\
    t == inject_Z a * Qsum (map index_Q (seq 0 n)) +
         inject_Z b * Qsum (map (fun k => index_Q k * index_Q k) (seq 0 n)).
Proof.
  induction n as [|n (t & Et & Ht)].
  - exists 0. split; [reflexivity|]. unfold Qsum. cbn [seq map fold_left]. ring.
  - rewrite line_values_S, map_app. cbn [map]. rewrite xy_sum_snoc, Et.
    rewrite length_map, line_values_length. cbn [Nat.add].
    unfold of_nat, of_Z. fold (index_Q n). cbn [num_mul num_add].
    eexists. split; [reflexivity|].
    rewrite Ht, !seq_S, !map_app, !Qsum_app. cbn [map Nat.add].
    rewrite !Qsum_one, inject_line. ring.
Qed.

Lemma line_trend a b n :
  (2 <= n)%nat ->
  exists s c,
    trend_slope (map Fin (line_values a b n)) = Fin s /\ s == inject_Z b /\
    trend_intercept (map Fin (line_values a b n)) = Fin c /\ c == inject_Z a.
Proof.
  intros Hn.
  pose proof (trend_denominator_pos n Hn) as Hden.
  pose proof (index_Q_pos n ltac:(lia)) as HN.
  assert (Hslope : exists s, trend_slope (map Fin (line_values a b n)) = Fin s /\
                             s == inject_Z b).
  { unfold trend_slope. cbv zeta. rewrite length_map, line_values_length.
    rewrite index_sum_Fin, index_square_sum_Fin, num_sum_Fin.
    destruct (line_xy_sum a b n) as (t & -> & Ht).
    unfold of_nat, of_Z. fold (index_Q n).
    cbn [num_mul num_sub num_neg num_add]. unfold num_div.
    rewrite Qsign_pos by (unfold Qminus in Hden; exact Hden).
    eexists. split; [reflexivity|].
    rewrite Ht, line_sum.
    set (N := index_Q n) in *.
    set (X := Qsum (map index_Q (seq 0 n))) in *.
    set (X2 := Qsum (map (fun k => index_Q k * index_Q k) (seq 0 n))) in *.
    field. unfold Qminus in Hden. lra. }
  destruct Hslope as (s & Es & Hs). exists s.
  unfold trend_intercept. cbv zeta. rewrite Es, length_map, line_values_length.
  rewrite index_sum_Fin, num_sum_Fin.
  unfold of_nat, of_Z. fold (index_Q n).
  cbn [num_mul num_sub num_neg num_add]. unfold num_div.
  rewrite Qsign_pos by exact HN.
  eexists. split; [reflexivity|]. split; [exact Hs|]. split; [reflexivity|].
  rewrite Hs, line_sum. field. lra.
Qed.

(** The least-squares line through the points of a line is that line: on
    a series of two dates or more whose quantities are [a + b k] at index
    [k], the linear trend forecasts the following points of the line,
    [a + b (n + i - 1)] for day [i], or 0 where the line is below 0. *)
Theorem linear_trend_continues_a_line {World : Type} (rt : Runtime World)
  (a b : Z) (dailySales : list daily) (days : nat) (w : World) :
  (2 <= List.length dailySales)%nat ->
  map quantity dailySales =
    map (fun k => (a + b * Z.of_nat k)%Z) (seq 0 (List.length dailySales)) ->
  exists predictions,
    linearTrend rt dailySales days w = (Returned predictions, w) /\
    map predicted predictions =
      map (fun i =>
             of_Z (Z.max 0 (a + b * Z.of_nat (List.length dailySales + i - 1))))
        (one_to days).
Proof.
  intros Hlen Hline. eexists. split; [apply linearTrend_points|].
  rewrite map_map. apply map_ext. intros i.
  assert (Hq : values_of dailySales =
               map Fin (line_values a b (List.length dailySales))).
  { unfold values_of, line_values, of_Z.
    rewrite <- (map_map quantity (fun q => Fin (inject_Z q))), Hline.
    now rewrite !map_map. }
  unfold trend_point. cbv zeta. rewrite Hq, length_map, line_values_length.
  destruct (line_trend a b (List.length dailySales) Hlen)
    as (s & c & -> & Hs & -> & Hc).
  unfold of_nat at 1. unfold of_Z at 1. cbn [num_mul num_add predicted].
  unfold Math_round.
  rewrite Math_max_0_of_Z. do 2 f_equal.
  rewrite <- (Qround_half_up_inject (a + b * Z.of_nat (List.length dailySales + i - 1))).
  apply Qround_half_up_comp.
  rewrite Hs, Hc, inject_Z_plus, inject_Z_mult. ring.
Qed.

(** A series of a single date has no trend: slope and intercept divide 0
    by 0. *)
Lemma single_value_slope (q : Q) : trend_slope [Fin q] = NaN.
Proof.
  unfold trend_slope. cbv zeta.
  cbn [List.length seq map xy_sum]. unfold num_sum. cbn [fold_left].
  unfold of_nat, of_Z. cbn [num_mul num_sub num_neg num_add].
  change (inject_Z (Z.of_nat 1)) with 1. change (inject_Z (Z.of_nat 0)) with 0.
  unfold num_div.
  rewrite (Qsign_zero (1 * (0 + 0 * 0) + - ((0 + 0) * (0 + 0)))) by reflexivity.
  rewrite Qsign_zero; [reflexivity|]. ring.
Qed.

Lemma single_value_trend (q : Q) startDate i :
  predicted (trend_point [Fin q] startDate i) = NaN.
Proof.
  unfold trend_point, trend_intercept. cbv zeta. cbn [predicted].
  rewrite single_value_slope. reflexivity.
Qed.

Lemma one_date_series (rows : list sale) (d : calendar_date) :
  rows <> [] -> Forall (fun s => sale_date s = d) rows ->
  exists q, aggregateDailySales rows = [mkDaily d q].
Proof.
  intros Hne Hall.
  pose proof (aggregate_dates_increase rows) as Hinc.
  assert (Hdates : forall e, In e (aggregateDailySales rows) -> date e = d).
  { intros [d' q'] He. apply aggregate_entry in He. destruct He as [Hhas _].
    unfold has_sale_on in Hhas. apply existsb_exists in Hhas.
    destruct Hhas as (s & Hs & Hon). unfold on_date in Hon.
    apply Z.eqb_eq in Hon. rewrite Forall_forall in Hall.
    simpl. rewrite <- Hon. now apply Hall. }
  destruct (aggregateDailySales rows) as [|e1 [|e2 rest]] eqn:E.
  - exfalso.
    destruct rows as [|s rows]; [contradiction|].
    assert (Hin : In (mkDaily (sale_date s) (total_on (sale_date s) (s :: rows)))
                    (aggregateDailySales (s :: rows))).
    { apply aggregate_entry. split; [|reflexivity].
      unfold has_sale_on, on_date. simpl. now rewrite Z.eqb_refl. }
    rewrite E in Hin. exact Hin.
  - destruct e1 as [d1 q1]. exists q1.
    now rewrite <- (Hdates (mkDaily d1 q1) (or_introl eq_refl)).
  - exfalso. unfold dates_increase in Hinc. simpl in Hinc.
    inversion Hinc as [|? ? _ Hlt]; subst.
    inversion Hlt as [|? ? Hlt1 _]; subst.
    pose proof (Hdates e1 (or_introl eq_refl)).
    pose proof (Hdates e2 (or_intror (or_introl eq_refl))). lia.
Qed.

(** Sales rows that all fall on one date pass the threshold on the number
    of rows, but their series holds a single entry: the linear trend is
    then NaN on every day, and so are both bounds of its interval. *)
Theorem one_day_history_has_no_trend {World : Type} (rt : Runtime World)
  (rows : list sale) (d : calendar_date) (days : nat) (w : World) :
  rows <> [] ->
  Forall (fun s => sale_date s = d) rows ->
  exists predictions,
    call_model rt (OwnMethod LinearTrend) (aggregateDailySales rows) days w =
      (Returned (PredictionArray predictions), w) /\
    List.length predictions = days /\
    Forall (fun f => fc_predicted f = NaN /\ lower_bound f = NaN /\
                     upper_bound f = NaN)
      (calculateConfidenceIntervals rt predictions (aggregateDailySales rows)).
Proof.
  intros Hne Hall. destruct (one_date_series rows d Hne Hall) as (q & ->).
  unfold call_model, bind. rewrite linearTrend_points.
  eexists. split; [reflexivity|].
  split; [rewrite length_map; unfold one_to; apply length_seq|].
  rewrite calculateConfidenceIntervals_map, map_map.
  apply Forall_map_self. intros i _.
  unfold interval_for. cbn [fc_predicted lower_bound upper_bound].
  change (values_of [mkDaily d q]) with [Fin (inject_Z q)].
  rewrite (single_value_trend (inject_Z q)).
  split; [reflexivity|].
  split; [now destruct (Math_round _)|now destruct (Math_round _)].
Qed.

(** ** The intervals of the three methods *)

Section MethodIntervals.
Context {World : Type} (rt : Runtime World).

Lemma interval_of_integer_is_well_formed dailySales pred z :
  sqrt_nonneg rt -> dailySales <> [] -> ~ history_mean dailySales == 0 ->
  predicted pred = of_Z z -> (0 <= z)%Z ->
  well_formed_forecast (interval_for rt dailySales pred).
Proof.
  intros Hsqrt Hne Hmean Hz Hz0.
  destruct (interval_for_integer rt dailySales pred z Hne Hz) as (Hp & Hlo & Hhi).
  pose proof (half_width_nonneg rt dailySales Hsqrt Hne) as Hk.
  destruct (confidence_clamped rt dailySales pred Hne Hmean) as (c & Hc & Hc1 & Hc2).
  exists z, (Z.max 0 (z - half_width rt dailySales)), (z + half_width rt dailySales)%Z, c.
  repeat split; auto; lia.
Qed.

Lemma own_method_predicts_integers m dailySales days w :
  dailySales <> [] ->
  (m = LinearTrend -> (2 <= List.length dailySales)%nat) ->
  exists predictions w',
    call_model rt (OwnMethod m) dailySales days w =
      (Returned (PredictionArray predictions), w') /\
    map prediction_date predictions =
      map (fun i => date_ahead rt w (Z.of_nat i)) (one_to days) /\
    Forall (fun p => exists z, predicted p = of_Z z /\ (0 <= z)%Z) predictions.
Proof.
  intros Hne Hm; destruct m; unfold call_model, bind.
  - rewrite simpleMovingAverage_run. eexists. eexists.
    split; [reflexivity|]. split.
    + apply draws_dates.
    + apply Forall_map_self. intros [i r] _. cbn [fst snd].
      rewrite (trailing_average 7 _ Hne), sma_point_value. cbn [predicted].
      eexists. split; [reflexivity|]. unfold sma_value. lia.
  - rewrite exponentialSmoothing_run. eexists. eexists.
    split; [reflexivity|]. split; [now rewrite map_map|].
    apply Forall_map_self. intros i _. cbn [predicted].
    rewrite values_of_Fin.
    destruct (smooth_is_finite 0.3 _ (quantities_nonempty _ Hne)) as (s & ->).
    unfold Math_round. rewrite Math_max_0_of_Z.
    eexists. split; [reflexivity|]. lia.
  - rewrite linearTrend_points. eexists. eexists.
    split; [reflexivity|].
    assert (Hlen : (2 <= List.length (quantities dailySales))%nat).
    { unfold quantities. rewrite length_map. now apply Hm. }
    split.
    + rewrite map_map. apply map_ext. intros i. reflexivity.
    + apply Forall_map_self. intros i _. rewrite values_of_Fin.
      destruct (trend_point_is_integer (quantities dailySales) (date_ahead rt w) i Hlen)
        as (z & Hz & ->).
      now exists z.
Qed.

End MethodIntervals.

(** Away from a zero mean every forecast is well formed, whatever the
    method and the random numbers: for a series that is not empty (of two
    dates or more for the linear trend) and whose mean is not 0, each of
    the three methods returns [days] predictions, and the interval made of
    each has an integer prediction that is not negative, integer bounds
    with [0 <= lower <= predicted <= upper], and a confidence between 0.65
    and 0.95. *)
Theorem forecast_intervals_are_well_formed {World : Type} (rt : Runtime World)
  (dailySales : list daily) (days : nat) (m : method) (w : World) :
  sqrt_nonneg rt ->
  dailySales <> [] ->
  (m = LinearTrend -> (2 <= List.length dailySales)%nat) ->
  ~ history_mean dailySales == 0 ->
  exists predictions w',
    call_model rt (OwnMethod m) dailySales days w =
      (Returned (PredictionArray predictions), w') /\
    List.length predictions = days /\
    Forall well_formed_forecast
      (calculateConfidenceIntervals rt predictions dailySales).
Proof.
  intros Hsqrt Hne Hm Hmean.
  destruct (own_method_predicts_integers rt m dailySales days w Hne Hm)
    as (predictions & w' & E & Hdates & Hints).
  exists predictions, w'. split; [exact E|]. split.
  - apply (f_equal (@List.length Z)) in Hdates.
    rewrite !length_map in Hdates. unfold one_to in Hdates.
    now rewrite length_seq in Hdates.
  - rewrite calculateConfidenceIntervals_map. apply Forall_map.
    eapply Forall_impl; [|exact Hints]. intros p (z & Hz & Hz0).
    now apply (interval_of_integer_is_well_formed rt dailySales p z).
Qed.

(** ** What [generateForecast] stores *)

(** The rows [generateForecast] hands to the database are the intervals
    of the method that was selected, one for each of its [days]
    predictions and with the date and the value of that prediction, under
    the product and under the model name that was asked for: a name that
    is unknown selects the moving average, and its forecast is stored
    under the unknown name.  The call returns what the database answers
    to these rows, and throws what the database throws at the first row it
    refuses. *)
Theorem forecast_is_stored_under_the_requested_name {World : Type}
  (rt : Runtime World) (db : dbHelpers World)
  (productId model : string) (m : method) (days : nat)
  (w : World) (rows : list sale) (w1 : World) :
  getSalesData db productId 90 w = (Returned (Some rows), w1) ->
  (7 <= List.length rows)%nat ->
  select_model model = OwnMethod m ->
  (models_get model = Absent -> m = SimpleMovingAverage) /\
  exists predictions w2 sent,
    call_model rt (OwnMethod m) (aggregateDailySales rows) days w1 =
      (Returned (PredictionArray predictions), w2) /\
    sent =
      map (forecast_row productId model)
        (calculateConfidenceIntervals rt predictions (aggregateDailySales rows)) /\
    List.length sent = days /\
    Forall (fun row => fd_product_id row = productId /\ model_version row = model)
      sent /\
    map forecast_date sent = map prediction_date predictions /\
    map predicted_demand sent = map predicted predictions /\
    generateForecast rt db productId model days w =
      (forecastRecords <- create_each db sent ;;
       now <- Date_now rt ;;
       ret (mkResult productId model forecastRecords now
              (List.length (aggregateDailySales rows)))) w2.
Proof.
  intros E Hlen Hm. split.
  { intros Habs. rewrite (select_model_unknown _ Habs) in Hm. congruence. }
  destruct (call_model_own rt m (aggregateDailySales rows) days w1)
    as (predictions & w2 & E2 & Hlen2).
  exists predictions, w2. eexists.
  split; [exact E2|]. split; [reflexivity|].
  rewrite calculateConfidenceIntervals_map, !map_map.
  split; [now rewrite length_map|].
  split; [apply Forall_map_self; intros p _; split; reflexivity|].
  split; [reflexivity|]. split; [reflexivity|].
  rewrite (generateForecast_models rt db productId model m days w rows w1
             predictions w2 E Hlen Hm E2).
  unfold bind at 1 3. rewrite saveForecastToDatabase_creates.
  now rewrite calculateConfidenceIntervals_map, !map_map.
Qed.

(* ================================================================= *)
(** * More of the controller *)

Lemma Qsum_inject (zs : list Z) :
  Qsum (map inject_Z zs) == inject_Z (fold_right Z.add 0%Z zs).
Proof.
  induction zs as [|z zs IH].
  - reflexivity.
  - cbn [map fold_right]. rewrite Qsum_cons, IH, inject_Z_plus. reflexivity.
Qed.

Lemma sale_quantities_total salesData :
  Qsum (sale_quantities salesData) == inject_Z (sales_total salesData).
Proof.
  unfold sale_quantities, sales_total.
  rewrite <- (map_map quantity_sold inject_Z). apply Qsum_inject.
Qed.

Lemma sale_quantities_nonempty salesData :
  salesData <> [] -> sale_quantities salesData <> [].
Proof. destruct salesData; [contradiction|discriminate]. Qed.

Lemma sales_average_Fin salesData :
  salesData <> [] ->
  sales_average salesData = Fin (Qmean (sale_quantities salesData)).
Proof.
  intros H. unfold sales_average, sale_quantities, of_Z.
  rewrite <- (map_map (fun s => inject_Z (quantity_sold s)) Fin).
  now apply average_of_Fin, sale_quantities_nonempty.
Qed.

Lemma sales_mean_pos salesData :
  salesData <> [] -> (0 < sales_total salesData)%Z ->
  0 < Qmean (sale_quantities salesData).
Proof.
  intros Hne Hpos. unfold Qmean.
  apply Qlt_shift_div_l; [now apply Qcount_pos, sale_quantities_nonempty|].
  rewrite Qmult_0_l, sale_quantities_total.
  change 0 with (inject_Z 0). now rewrite <- Zlt_Qlt.
Qed.

Lemma sales_volatility_Fin {World : Type} (rt : Runtime World) salesData :
  salesData <> [] ->
  sales_volatility rt salesData =
  Fin (sqrt_finite rt (Qvariance (sale_quantities salesData))).
Proof.
  intros H. unfold sales_volatility, sale_quantities, of_Z.
  rewrite <- (map_map (fun s => inject_Z (quantity_sold s)) Fin).
  rewrite variance_of_Fin by now apply sale_quantities_nonempty.
  unfold Math_sqrt.
  destruct (Qlt_le_dec _ 0) as [Hneg|_]; [|reflexivity].
  pose proof (Qvariance_nonneg _ (sale_quantities_nonempty _ H)).
  unfold sale_quantities in *. lra.
Qed.

Lemma Qround_half_up_le_integer q z :
  q <= inject_Z z -> (Qround_half_up q <= z)%Z.
Proof.
  intros H. rewrite <- (Qround_half_up_inject z). now apply Qround_half_up_mono.
Qed.

Lemma Qround_half_up_ge_integer q z :
  inject_Z z <= q -> (z <= Qround_half_up q)%Z.
Proof.
  intros H. rewrite <- (Qround_half_up_inject z) at 1. now apply Qround_half_up_mono.
Qed.

Lemma Qdiv_100 a : a / 100 == a * (1 # 100).
Proof. field. Qed.

(** Two decimals of a number between two numbers of two decimals. *)
Lemma toFixed2_between (zlo zhi : Z) (lo hi c : Q) :
  lo == inject_Z zlo * (1 # 100) -> hi == inject_Z zhi * (1 # 100) ->
  lo <= c -> c <= hi ->
  exists c', toFixed2 (Fin c) = Fin c' /\ lo <= c' /\ c' <= hi.
Proof.
  intros Elo Ehi Hlo Hhi. unfold toFixed2. eexists. split; [reflexivity|].
  assert (H1 : (zlo <= Qround_half_up (c * 100))%Z).
  { apply Qround_half_up_ge_integer. lra.  }
  assert (H2 : (Qround_half_up (c * 100) <= zhi)%Z).
  { apply Qround_half_up_le_integer. lra. }
  rewrite Zle_Qle in H1, H2. rewrite !Qdiv_100. split; lra.
Qed.

Section ControllerForecasts.
Context {World : Type} (rt : Runtime World).

(** The forecast of one day in [generateForecast] of the controller, from
    a positive average [mu] and a volatility [v] that is not negative. *)
Lemma controller_forecast_positive productId (mu v : Q) forecastDate i (r : Q) :
  0 < mu -> 0 <= v ->
  well_formed_row 0.5
    (controller_forecast rt productId (Fin mu) (Fin v) forecastDate i (Fin r)).
Proof.
  intros Hmu Hv. unfold controller_forecast. cbv zeta.
  assert (Hratio : num_div (Fin v) (Fin mu) = Fin (v / mu)).
  { unfold num_div. now rewrite (Qsign_pos _ Hmu). }
  assert (Hrho : 0 <= v / mu).
  { apply Qle_shift_div_l; [exact Hmu|]. lra. }
  rewrite Hratio. set (rho := v / mu) in *.
  assert (Hseven : num_div (of_nat i) (Fin 7) = Fin (inject_Z (Z.of_nat i) / 7))
    by reflexivity.
  rewrite Hseven. unfold Math_sin, random_factor.
  cbn [num_mul num_add num_sub num_neg].
  match goal with
  | |- context [Math_max (Fin 0) (Math_round (Fin ?X))] =>
      change (Math_max (Fin 0) (Math_round (Fin X)))
        with (Math_max (Fin 0) (of_Z (Qround_half_up X)));
      rewrite !(Math_max_0_of_Z (Qround_half_up X));
      set (p := Z.max 0 (Qround_half_up X))
  end.
  assert (Hp : (0 <= p)%Z) by (unfold p; lia).
  cbn [of_Z num_mul]. unfold Math_round.
  rewrite Math_max_0_of_Z.
  assert (Hp' : 0 <= inject_Z p).
  { change 0 with (inject_Z 0). now rewrite <- Zle_Qle. }
  assert (Hprod : 0 <= inject_Z p * rho) by now apply Qmult_le_0_compat.
  destruct (toFixed2_between 50 95 0.5 0.95
              (match Math_max (Fin 0.5) (Math_min (Fin 0.95) (Fin (1 + - (rho * 0.5))))
               with Fin c => c | _ => 0 end)) as (c' & Ec & Hc1 & Hc2);
    try reflexivity.
  { unfold Math_min, Math_max.
    destruct (Qlt_le_dec (1 + - (rho * 0.5)) 0.95);
      [destruct (Qlt_le_dec 0.5 (1 + - (rho * 0.5)))|destruct (Qlt_le_dec 0.5 0.95)];
      lra. }
  { unfold Math_min, Math_max.
    destruct (Qlt_le_dec (1 + - (rho * 0.5)) 0.95);
      [destruct (Qlt_le_dec 0.5 (1 + - (rho * 0.5)))|destruct (Qlt_le_dec 0.5 0.95)];
      lra. }
  assert (Econf : toFixed2 (Math_max (Fin 0.5)
                              (Math_min (Fin 0.95) (Fin (1 + - (rho * 0.5))))) = Fin c').
  { rewrite <- Ec. unfold Math_min, Math_max.
    destruct (Qlt_le_dec (1 + - (rho * 0.5)) 0.95);
      [destruct (Qlt_le_dec 0.5 (1 + - (rho * 0.5)))|destruct (Qlt_le_dec 0.5 0.95)];
      reflexivity. }
  exists p, (Z.max 0 (Qround_half_up (inject_Z p * (1 + - rho)))),
    (Qround_half_up (inject_Z p * (1 + rho))), c'.
  cbn [predicted_demand fd_lower_bound fd_upper_bound fd_confidence_score].
  split; [reflexivity|]. split; [reflexivity|]. split; [reflexivity|].
  split; [exact Econf|].
  split; [lia|].
  split.
  { assert ((Qround_half_up (inject_Z p * (1 + - rho)) <= p)%Z).
    { apply Qround_half_up_le_integer. lra. }
    lia. }
  split.
  { apply Qround_half_up_ge_integer. lra. }
  split; lra.
Qed.


End ControllerForecasts.

(** Every daily forecast of the single-product handler makes sense when
    the product sold more than it took back: for sales rows whose
    quantities add up to more than 0, whatever the day, the seasonal
    factor and the random number, prediction and bounds are integers with
    [0 <= lower <= predicted <= upper], and the confidence, cut to two
    decimals, lies between 0.5 and 0.95. *)
Theorem controller_forecast_is_well_formed {World : Type} (rt : Runtime World)
  (productId : string) (salesData : list sale) (forecastDate : calendar_date)
  (i : nat) (r : Q) :
  sqrt_nonneg rt ->
  salesData <> [] ->
  (0 < sales_total salesData)%Z ->
  well_formed_row 0.5
    (controller_forecast rt productId (sales_average salesData)
       (sales_volatility rt salesData) forecastDate i (Fin r)).
Proof.
  intros Hsqrt Hne Hpos.
  rewrite (sales_average_Fin _ Hne), (sales_volatility_Fin rt _ Hne).
  apply controller_forecast_positive.
  - now apply sales_mean_pos.
  - apply Hsqrt, Qvariance_nonneg. now apply sale_quantities_nonempty.
Qed.


(** ** The two handlers *)

Section Loops.
Context {World : Type}.

(** A loop whose body never throws and only pushes entries. *)
Lemma for_of_extends {A B : Type} (P : A -> list B -> Prop)
  (body : A -> list B -> M World (list B)) (l : list A) :
  (forall x s w, In x l ->
     exists bs w', body x s w = (Returned (s ++ bs), w') /\ P x bs) ->
  forall s w,
    exists bss w',
      for_of l body s w = (Returned (s ++ List.concat bss), w') /\ Forall2 P l bss.
Proof.
  induction l as [|x l IH]; intros Hbody s w; simpl.
  - exists [], w. unfold ret. simpl. rewrite app_nil_r. auto.
  - destruct (Hbody x s w (or_introl eq_refl)) as (bs & w1 & E1 & Hb).
    rewrite (bind_returned _ _ _ _ _ E1).
    destruct (IH (fun y s0 w0 Hy => Hbody y s0 w0 (or_intror Hy)) (s ++ bs) w1)
      as (bss & w2 & E2 & Hbss).
    exists (bs :: bss), w2. rewrite E2. simpl. rewrite <- app_assoc. auto.
Qed.

End Loops.

Lemma filter_partition_length {A : Type} (f : A -> bool) (l : list A) :
  List.length l =
  (List.length (filter f l) + List.length (filter (fun x => negb (f x)) l))%nat.
Proof.
  induction l as [|x l IH]; simpl; [reflexivity|].
  destruct (f x); simpl; lia.
Qed.

Section HandlerFacts.
Context {World : Type} (rt : Runtime World) (db : dbHelpers World).

(** One turn of the loop over the products never throws: it leaves the
    results as they are or pushes one entry, about the product. *)
Lemma bulk_product_turn days p results w :
  exists bs w',
    bulk_product rt db days p results w = (Returned (results ++ bs), w') /\
    (bs = [] \/
     exists ok err, bs = [mkEntry (product_id p) (product_name p) ok err]).
Proof.
  unfold bulk_product, try_catch, bind at 1.
  destruct (getSalesData db (product_id p) 30 w) as [[[rows|]|e] w1].
  - unfold bind at 1. unfold rows_of at 1. unfold ret at 1.
    destruct (Nat.ltb (List.length rows) 5).
    + exists [], w1. unfold ret. rewrite app_nil_r. auto.
    + unfold bind at 1.
      match goal with |- context [for_of ?l ?b tt w1] =>
        destruct (for_of l b tt w1) as [[[]|e] w2] end.
      * eexists. eexists. split; [reflexivity|]. right. eauto.
      * eexists. eexists. split; [reflexivity|]. right. eauto.
  - unfold bind, rows_of, throw, ret.
    eexists. eexists. split; [reflexivity|]. right. eauto.
  - unfold ret. eexists. eexists. split; [reflexivity|]. right. eauto.
Qed.

Lemma bulk_loop products days w :
  exists results w',
    for_of products (bulk_product rt db days) [] w = (Returned results, w') /\
    (List.length results <= List.length products)%nat /\
    Forall (fun e => exists p, In p products /\
                               ce_productId e = product_id p /\
                               ce_productName e = product_name p) results.
Proof.
  destruct (for_of_extends
              (fun p bs =>
                 bs = [] \/
                 exists ok err, bs = [mkEntry (product_id p) (product_name p) ok err])
              (bulk_product rt db days) products) with (s := @nil controller_entry) (w := w)
    as (bss & w' & E & Hall).
  { intros p s w0 _. apply bulk_product_turn. }
  exists (List.concat bss), w'. split; [exact E|]. clear E.
  induction Hall as [|p bs l bss Hb _ [IH1 IH2]]; simpl.
  - split; [lia|constructor].
  - split.
    + rewrite length_app. destruct Hb as [->|(ok & err & ->)]; simpl; lia.
    + apply Forall_app. split.
      * destruct Hb as [->|(ok & err & ->)]; [constructor|].
        constructor; [|constructor]. exists p. simpl. auto.
      * eapply Forall_impl; [|exact IH2].
        intros e (q & Hq & H1 & H2). exists q. simpl. auto.
Qed.

End HandlerFacts.

(** The bulk handler always answers, and its summary adds up.  When the
    product query fails the answer is the error 500 with the message of
    the failure.  Otherwise [total] is the number of entries, [successful]
    and [failed] add up to it, there are no more entries than products,
    and each entry carries the id and the name of one of the products. *)
Theorem bulk_summary_adds_up {World : Type}
  (rt : Runtime World) (db : dbHelpers World) (days : nat) (w : World) :
  (forall e w1,
     getProducts db 1000 0 w = (Threw e, w1) ->
     bulkGenerateForecasts rt db days w =
       (Returned (res_error 500 "Failed to bulk generate forecasts"
                    (Some (exn_message e))), w1)) /\
  (forall products w1,
     getProducts db 1000 0 w = (Returned products, w1) ->
     exists total successful failed results w',
       bulkGenerateForecasts rt db days w =
         (Returned (res_bulk total successful failed results), w') /\
       total = List.length results /\
       total = (successful + failed)%nat /\
       successful = List.length (filter ce_success results) /\
       (total <= List.length products)%nat /\
       Forall (fun e => exists p, In p products /\
                                  ce_productId e = product_id p /\
                                  ce_productName e = product_name p) results).
Proof.
  split.
  - intros e w1 E. unfold bulkGenerateForecasts, try_catch.
    now rewrite (bind_threw _ _ _ _ _ E).
  - intros products w1 E. unfold bulkGenerateForecasts, try_catch.
    rewrite (bind_returned _ _ _ _ _ E).
    destruct (bulk_loop rt db products days w1) as (results & w' & E' & Hlen & Hall).
    rewrite (bind_returned _ _ _ _ _ E'). unfold ret.
    eexists. eexists. eexists. eexists. eexists.
    split; [reflexivity|]. split; [reflexivity|].
    split; [apply filter_partition_length|]. split; [reflexivity|].
    split; [exact Hlen|exact Hall].
Qed.

(** The single-product handler answers every request that cannot be
    served with an error, and never throws: 400 without a product id,
    before any query; 500, with the message of the failure, when one of
    the two queries fails, as the product query does for an unknown
    product, before the sales are read; and 400 when the product has no
    sales row. *)
Theorem controller_rejects_with_an_error {World : Type}
  (rt : Runtime World) (db : dbHelpers World) (days : nat) (w : World) :
  controller_generateForecast rt db None days w =
    (Returned (res_error 400 "Product ID is required" None), w) /\
  controller_generateForecast rt db (Some ""%string) days w =
    (Returned (res_error 400 "Product ID is required" None), w) /\
  (forall productId, productId <> ""%string ->
     (forall e w1,
        getProductById db productId w = (Threw e, w1) ->
        controller_generateForecast rt db (Some productId) days w =
          (Returned (res_error 500 "Failed to generate forecast"
                       (Some (exn_message e))), w1)) /\
     (forall p w1,
        getProductById db productId w = (Returned (Some p), w1) ->
        (forall e w2,
           getSalesData db productId 90 w1 = (Threw e, w2) ->
           controller_generateForecast rt db (Some productId) days w =
             (Returned (res_error 500 "Failed to generate forecast"
                          (Some (exn_message e))), w2)) /\
        (forall w2,
           getSalesData db productId 90 w1 = (Returned (Some []), w2) ->
           controller_generateForecast rt db (Some productId) days w =
             (Returned (res_error 400 "No sales data available for forecasting"
                          None), w2)))) /\
  (forall productId,
     exists answer w',
       controller_generateForecast rt db productId days w = (Returned answer, w')).
Proof.
  split; [reflexivity|]. split; [reflexivity|]. split.
  - intros productId Hid.
    destruct productId as [|c rest]; [contradiction|].
    split.
    + intros e w1 E. unfold controller_generateForecast, try_catch. cbv iota.
      now rewrite (bind_threw _ _ _ _ _ E).
    + intros p w1 E. split.
      * intros e w2 E2. unfold controller_generateForecast, try_catch. cbv iota.
        rewrite (bind_returned _ _ _ _ _ E).
        now rewrite (bind_threw _ _ _ _ _ E2).
      * intros w2 E2. unfold controller_generateForecast, try_catch. cbv iota.
        rewrite (bind_returned _ _ _ _ _ E).
        now rewrite (bind_returned _ _ _ _ _ E2).
  - intros productId. unfold controller_generateForecast, try_catch.
    match goal with |- context [match ?body w with _ => _ end] =>
      destruct (body w) as [[answer|e] w'] end.
    + now exists answer, w'.
    + unfold ret. eexists. eexists. reflexivity.
Qed.

(** The single-product handler serves a known product whose sales rows
    add up to more than 0, as long as the database accepts the rows of its
    forecast: it answers the product, [days] forecasts and the metadata of
    the rows it read, and every forecast it answers is what the database
    returned for a row of the product, of version "v1.0", whose numbers
    make sense.  The rows are those the handler makes, day after day, of
    the next random number. *)
Theorem controller_serves_a_selling_product {World : Type}
  (rt : Runtime World) (db : dbHelpers World) (I : World -> Prop)
  (productId : string) (days : nat) (w : World) (p : product) (w1 : World)
  (rows : list sale) (w2 : World) :
  sqrt_nonneg rt ->
  productId <> ""%string ->
  getProductById db productId w = (Returned (Some p), w1) ->
  getSalesData db productId 90 w1 = (Returned (Some rows), w2) ->
  rows <> [] -> (0 < sales_total rows)%Z ->
  I w2 ->
  (forall i w0, In i (one_to days) -> I w0 ->
     exists saved w0',
       createForecast db
         (controller_forecast rt productId (sales_average rows)
            (sales_volatility rt rows) (date_ahead rt w0 (Z.of_nat i)) i
            (Fin (fst (Math_random rt w0))))
         (snd (Math_random rt w0)) = (Returned saved, w0') /\
       I w0') ->
  exists forecasts w',
    controller_generateForecast rt db (Some productId) days w =
      (Returned
         (res_forecast p forecasts
            (mkMetadata (sales_average rows) (toFixed2 (sales_volatility rt rows))
               (List.length rows) days)), w') /\
    I w' /\
    List.length forecasts = days /\
    Forall (fun saved =>
              exists data w0 w0',
                createForecast db data w0 = (Returned saved, w0') /\
                fd_product_id data = productId /\
                model_version data = "v1.0"%string /\
                well_formed_row 0.5 data) forecasts.
Proof.
  intros Hsqrt Hid E E2 Hne Hpos Hw2 Hturn.
  destruct (for_of_pushes I
              (fun (i : nat) (saved : forecastData) =>
                 exists data w0 w0',
                   createForecast db data w0 = (Returned saved, w0') /\
                   fd_product_id data = productId /\
                   model_version data = "v1.0"%string /\
                   well_formed_row 0.5 data)
              (fun i forecasts =>
                 forecastDate <- new_Date rt ;;
                 r <- random rt ;;
                 let forecastData :=
                   controller_forecast rt productId (sales_average rows)
                     (sales_volatility rt rows)
                     (forecastDate (Z.of_nat i)) i r in
                 savedForecast <- createForecast db forecastData ;;
                 ret (forecasts ++ [savedForecast]))
              (one_to days)) with (s := @nil forecastData) (w := w2)
    as (forecasts & w3 & E3 & Hw3 & Hall); auto.
  { intros i s w0 Hi Hw0. unfold bind at 1. unfold new_Date at 1.
    unfold bind at 1. unfold random at 1.
    destruct (Hturn i w0 Hi Hw0) as (saved & w0'' & Ec & Hw0'').
    destruct (Math_random rt w0) as [r w0'] eqn:Er.
    cbn [fst snd] in Ec. cbv zeta.
    rewrite (bind_returned _ _ _ _ _ Ec). unfold ret.
    exists saved, w0''. split; [reflexivity|]. split; [exact Hw0''|].
    eexists. exists w0', w0''. split; [exact Ec|].
    split; [reflexivity|]. split; [reflexivity|].
    rewrite (sales_average_Fin _ Hne), (sales_volatility_Fin rt _ Hne).
    apply controller_forecast_positive.
    - now apply sales_mean_pos.
    - apply Hsqrt, Qvariance_nonneg. now apply sale_quantities_nonempty. }
  exists forecasts, w3.
  split.
  { destruct productId as [|c rest]; [contradiction|].
    unfold controller_generateForecast, try_catch. cbv iota.
    rewrite (bind_returned _ _ _ _ _ E), (bind_returned _ _ _ _ _ E2).
    unfold rows_of at 1. unfold bind at 1. unfold ret at 1.
    destruct (Nat.eqb_spec (List.length rows) 0) as [H0|_].
    { destruct rows; [contradiction|discriminate]. }
    cbv zeta. rewrite (bind_returned _ _ _ _ _ E3). reflexivity. }
  split; [exact Hw3|].
  split.
  { apply Forall2_length in Hall. unfold one_to in Hall.
    now rewrite length_seq in Hall. }
  clear E3 Hturn. induction Hall as [|i f l fs Hf _ IH]; constructor; auto.
Qed.

(* ================================================================= *)
(** * The dashboard *)

Lemma or_zero_nonneg (x : option Z) :
  (forall z, x = Some z -> (0 <= z)%Z) -> (0 <= or_zero x)%Z.
Proof.
  intros H. destruct x as [z|]; simpl; [|lia].
  destruct (Z.eqb_spec z 0); [lia|]. now apply H.
Qed.

Lemma transformProduct_demand_nonneg forecastsData product :
  (forall fs f, forecastsData = Some fs -> In f fs ->
                (0 <= dr_predicted_demand f)%Z) ->
  (0 <= predictedDemand (transformProduct forecastsData product))%Z.
Proof.
  intros H. unfold transformProduct. cbn [predictedDemand].
  apply or_zero_nonneg. intros z Hz.
  destruct forecastsData as [fs|]; [|discriminate].
  destruct (filter _ fs) as [|f rest] eqn:E; [discriminate|].
  simpl in Hz. injection Hz as <-.
  apply (H fs f eq_refl).
  assert (Hin : In f (filter (fun f => String.eqb (dr_product_id f) (sr_id product)) fs)).
  { rewrite E. now left. }
  apply filter_In in Hin. tauto.
Qed.

Lemma transformProduct_recommendation forecastsData product :
  recommendation (transformProduct forecastsData product) =
  getRecommendation
    (inject_Z (currentStock (transformProduct forecastsData product)))
    (inject_Z (predictedDemand (transformProduct forecastsData product))).
Proof. reflexivity. Qed.

Lemma overstock_iff_reduce (stock demand : Z) :
  (0 <= demand)%Z ->
  Qltb (inject_Z demand * 2) (inject_Z stock) =
  recommendation_eqb (getRecommendation (inject_Z stock) (inject_Z demand)) reduce.
Proof.
  intros Hd. rewrite Zle_Qle in Hd. change (inject_Z 0) with 0 in Hd.
  unfold Qltb, getRecommendation.
  destruct (Qlt_le_dec (inject_Z demand * 2) (inject_Z stock)) as [H|H];
    destruct (Qlt_le_dec (inject_Z stock) (inject_Z demand * 0.5)) as [H'|H'];
    try reflexivity; lra.
Qed.

Lemma low_stock_is_increase (stock demand : Z) :
  (0 <= demand)%Z ->
  Qltb (inject_Z stock) (inject_Z demand * 0.3) = true ->
  getRecommendation (inject_Z stock) (inject_Z demand) = increase.
Proof.
  intros Hd. rewrite Zle_Qle in Hd. change (inject_Z 0) with 0 in Hd.
  unfold Qltb, getRecommendation.
  destruct (Qlt_le_dec (inject_Z stock) (inject_Z demand * 0.3)) as [H|H];
    [|discriminate].
  intros _.
  destruct (Qlt_le_dec (inject_Z stock) (inject_Z demand * 0.5)) as [H'|H'];
    [reflexivity|lra].
Qed.

(** The two stock lists of the dashboard agree with the recommendation it
    shows, as long as no forecast predicts a negative demand: the
    overstock products are exactly the products recommended "reduce", and
    every low-stock product is recommended "increase". *)
Theorem stock_lists_agree_with_the_recommendation
  (productsData : option (list stock_row))
  (forecastsData : option (list demand_row)) :
  (forall fs f, forecastsData = Some fs -> In f fs ->
                (0 <= dr_predicted_demand f)%Z) ->
  getOverstockProducts (transformedProducts productsData forecastsData) =
    filter (fun p => recommendation_eqb (recommendation p) reduce)
      (transformedProducts productsData forecastsData) /\
  Forall (fun p => recommendation p = increase)
    (getLowStockProducts (transformedProducts productsData forecastsData)).
Proof.
  intros Hdemand. unfold transformedProducts.
  destruct productsData as [products|]; [|split; [reflexivity|constructor]].
  split.
  - unfold getOverstockProducts. apply filter_ext_in. intros p Hp.
    apply in_map_iff in Hp. destruct Hp as (row & <- & _).
    rewrite transformProduct_recommendation.
    apply overstock_iff_reduce. now apply transformProduct_demand_nonneg.
  - unfold getLowStockProducts. apply Forall_forall. intros p Hp.
    apply filter_In in Hp. destruct Hp as [Hp Hlow].
    apply in_map_iff in Hp. destruct Hp as (row & <- & _).
    rewrite transformProduct_recommendation.
    apply low_stock_is_increase; [|exact Hlow].
    now apply transformProduct_demand_nonneg.
Qed.

(** A product in stock for which no forecast was loaded counts as
    overstock: its predicted demand and confidence are 0, the dashboard
    recommends "reduce" for it and lists it among the overstock products,
    never among the low-stock ones. *)
Theorem product_without_forecast_is_overstock
  (forecastsData : option (list demand_row)) (product : stock_row) :
  (forall fs, forecastsData = Some fs ->
              Forall (fun f => dr_product_id f <> sr_id product) fs) ->
  (0 < current_stock product)%Z ->
  predictedDemand (transformProduct forecastsData product) = 0%Z /\
  confidence (transformProduct forecastsData product) = 0 /\
  recommendation (transformProduct forecastsData product) = reduce /\
  getOverstockProducts [transformProduct forecastsData product] =
    [transformProduct forecastsData product] /\
  getLowStockProducts [transformProduct forecastsData product] = [].
Proof.
  intros Hnone Hstock.
  assert (Hfilter : match forecastsData with
                    | Some forecasts =>
                        filter (fun f => String.eqb (dr_product_id f) (sr_id product))
                          forecasts
                    | None => []
                    end = []).
  { destruct forecastsData as [fs|]; [|reflexivity].
    specialize (Hnone fs eq_refl).
    induction Hnone as [|f fs Hf _ IH]; [reflexivity|]. simpl.
    destruct (String.eqb_spec (dr_product_id f) (sr_id product)); [contradiction|].
    exact IH. }
  assert (Hp : transformProduct forecastsData product =
               mkDashboardProduct (sr_id product) (sr_name product) (sr_sku product)
                 (current_stock product) 0%Z 0
                 (getRecommendation (inject_Z (current_stock product)) (inject_Z 0))).
  { unfold transformProduct. cbv zeta. rewrite Hfilter. reflexivity. }
  rewrite Hp. cbn [predictedDemand confidence recommendation].
  rewrite Zlt_Qlt in Hstock. change (inject_Z 0) with 0 in *.
  assert (Hrec : getRecommendation (inject_Z (current_stock product)) 0 = reduce).
  { unfold getRecommendation.
    destruct (Qlt_le_dec (inject_Z (current_stock product)) (0 * 0.5)) as [H|H]; [lra|].
    destruct (Qlt_le_dec (0 * 2) (inject_Z (current_stock product))) as [H'|H'];
      [reflexivity|lra]. }
  rewrite Hrec.
  split; [reflexivity|]. split; [reflexivity|]. split; [reflexivity|].
  unfold getOverstockProducts, getLowStockProducts, Qltb.
  cbn [filter currentStock predictedDemand]. change (inject_Z 0) with 0.
  destruct (Qlt_le_dec (0 * 2) (inject_Z (current_stock product))) as [H|H]; [|lra].
  destruct (Qlt_le_dec (inject_Z (current_stock product)) (0 * 0.3)) as [H'|H']; [lra|].
  split; reflexivity.
Qed.

(** ** Counting the recommendations *)

Lemma recommendation_eqb_eq a b : recommendation_eqb a b = true <-> a = b.
Proof. destruct a, b; simpl; split; intros H; try reflexivity; discriminate. Qed.

Lemma recommendation_eqb_refl a : recommendation_eqb a a = true.
Proof. now destruct a. Qed.

Lemma recommendation_eqb_sym a b : recommendation_eqb a b = recommendation_eqb b a.
Proof. now destruct a, b. Qed.

Lemma Counts_get_set_same acc k n : Counts_get (Counts_set acc k n) k = Some n.
Proof.
  induction acc as [|[k' n'] acc IH]; simpl.
  - now rewrite recommendation_eqb_refl.
  - destruct (recommendation_eqb k' k) eqn:E; simpl.
    + now rewrite recommendation_eqb_refl.
    + now rewrite E.
Qed.

Lemma Counts_get_set_other acc k k' n :
  k <> k' -> Counts_get (Counts_set acc k n) k' = Counts_get acc k'.
Proof.
  intros Hne. induction acc as [|[k0 n0] acc IH]; simpl.
  - destruct (recommendation_eqb k k') eqn:E; [|reflexivity].
    apply recommendation_eqb_eq in E. contradiction.
  - destruct (recommendation_eqb k0 k) eqn:E; simpl.
    + apply recommendation_eqb_eq in E. subst k0.
      destruct (recommendation_eqb k k') eqn:E'; [|reflexivity].
      apply recommendation_eqb_eq in E'. contradiction.
    + now rewrite IH.
Qed.

(** How many products an object of counts has counted for [k]. *)
Lemma counting_loop (products : list Product) (acc : Counts) k :
  count_or_zero
    (Counts_get
       (fold_left
          (fun acc product =>
             Counts_set acc (recommendation product)
               (count_or_zero (Counts_get acc (recommendation product)) + 1)%nat)
          products acc) k) =
  (count_or_zero (Counts_get acc k) +
   List.length (filter (fun p => recommendation_eqb (recommendation p) k) products))%nat.
Proof.
  revert acc. induction products as [|p products IH]; intros acc; simpl.
  - lia.
  - rewrite IH. destruct (recommendation_eqb (recommendation p) k) eqn:E.
    + apply recommendation_eqb_eq in E. subst k.
      rewrite Counts_get_set_same. simpl. lia.
    + rewrite Counts_get_set_other.
      * lia.
      * intros Heq. rewrite Heq, recommendation_eqb_refl in E. discriminate.
Qed.

Lemma counting_loop_absent (products : list Product) (acc : Counts) k :
  Counts_get acc k = None ->
  filter (fun p => recommendation_eqb (recommendation p) k) products = [] ->
  Counts_get
    (fold_left
       (fun acc product =>
          Counts_set acc (recommendation product)
            (count_or_zero (Counts_get acc (recommendation product)) + 1)%nat)
       products acc) k = None.
Proof.
  revert acc. induction products as [|p products IH]; intros acc Hacc Hnone; simpl.
  - exact Hacc.
  - simpl in Hnone.
    destruct (recommendation_eqb (recommendation p) k) eqn:E; [discriminate|].
    apply IH; [|exact Hnone]. rewrite Counts_get_set_other; [exact Hacc|].
    intros Heq. rewrite Heq, recommendation_eqb_refl in E. discriminate.
Qed.

Lemma three_way_split (products : list Product) :
  List.length products =
  (List.length (filter (fun p => recommendation_eqb (recommendation p) increase) products) +
   List.length (filter (fun p => recommendation_eqb (recommendation p) reduce) products) +
   List.length (filter (fun p => recommendation_eqb (recommendation p) maintain) products))%nat.
Proof.
  induction products as [|p products IH]; simpl; [reflexivity|].
  destruct (recommendation p); simpl; lia.
Qed.

(** The counts of the dashboard count every product once: the entry of a
    recommendation is the number of products that carry it, a
    recommendation that no product carries has no entry at all (it reads
    as [undefined], not as 0), and the three numbers add up to the number
    of products. *)
Theorem recommendation_counts_add_up (products : list Product) :
  (forall k,
     Counts_get (getRecommendationCounts products) k =
     match List.length
             (filter (fun p => recommendation_eqb (recommendation p) k) products)
     with
     | O => None
     | n => Some n
     end) /\
  (count_or_zero (Counts_get (getRecommendationCounts products) increase) +
   count_or_zero (Counts_get (getRecommendationCounts products) reduce) +
   count_or_zero (Counts_get (getRecommendationCounts products) maintain))%nat =
  List.length products.
Proof.
  assert (Hcount : forall k,
            count_or_zero (Counts_get (getRecommendationCounts products) k) =
            List.length
              (filter (fun p => recommendation_eqb (recommendation p) k) products)).
  { intros k. unfold getRecommendationCounts. now rewrite counting_loop. }
  split.
  - intros k. specialize (Hcount k).
    destruct (filter (fun p => recommendation_eqb (recommendation p) k) products)
      as [|p rest] eqn:E.
    + unfold getRecommendationCounts. now apply counting_loop_absent.
    + cbn [List.length] in *.
      destruct (Counts_get (getRecommendationCounts products) k) as [n|];
        simpl in Hcount; [now subst n|discriminate].
  - rewrite !Hcount. symmetry. apply three_way_split.
Qed.

(* ================================================================= *)
(** * Alerts *)

Section AlertFacts.
Context {World : Type} (rt : Runtime World) (db : dbHelpers World)
  (idb : inventoryHelpers World).

Lemma createAlert_returns product alertType message w :
  exists a w',
    AlertService.createAlert idb product alertType message w = (Returned a, w').
Proof.
  unfold AlertService.createAlert, try_catch, bind at 1.
  destruct (getAlerts idb (Some false) 10 w) as [[existing|e] w1].
  - destruct (find _ existing) as [recent|].
    + unfold ret. eexists. eexists. reflexivity.
    + unfold bind.
      destruct (db_createAlert idb _ w1) as [[a|e] w2]; unfold ret;
        eexists; eexists; reflexivity.
  - unfold ret. eexists. eexists. reflexivity.
Qed.

(** Each check pushes at most one alert, and does not throw unless a query
    of its own does. *)
Lemma check_low_stock_pushes product alerts w :
  exists pushed w',
    AlertService.check_low_stock idb product alerts w =
      (Returned (alerts ++ pushed), w') /\
    (List.length pushed <= 1)%nat.
Proof.
  unfold AlertService.check_low_stock. destruct (Qleb _ _).
  - destruct (createAlert_returns product low_stock
                (RunningLow (sr_name product) (current_stock product)) w)
      as (a & w' & E).
    rewrite (bind_returned _ _ _ _ _ E). unfold ret.
    exists [a], w'. split; [reflexivity|]. simpl. lia.
  - exists [], w. unfold ret. rewrite app_nil_r. split; [reflexivity|]. simpl. lia.
Qed.

Lemma check_overstock_pushes product alerts w :
  exists pushed w',
    AlertService.check_overstock idb product alerts w =
      (Returned (alerts ++ pushed), w') /\
    (List.length pushed <= 1)%nat.
Proof.
  unfold AlertService.check_overstock. destruct (Qleb _ _).
  - destruct (createAlert_returns product overstock
                (ExcessInventory (sr_name product) (current_stock product)) w)
      as (a & w' & E).
    rewrite (bind_returned _ _ _ _ _ E). unfold ret.
    exists [a], w'. split; [reflexivity|]. simpl. lia.
  - exists [], w. unfold ret. rewrite app_nil_r. split; [reflexivity|]. simpl. lia.
Qed.

Lemma check_high_demand_pushes product alerts w :
  (exists e w', AlertService.check_high_demand rt db idb product alerts w = (Threw e, w')) \/
  (exists pushed w',
     AlertService.check_high_demand rt db idb product alerts w =
       (Returned (alerts ++ pushed), w') /\
     (List.length pushed <= 1)%nat).
Proof.
  unfold AlertService.check_high_demand.
  destruct (getForecastsByProduct idb (sr_id product) 7 w) as [[forecasts|e] w1] eqn:E;
    [rewrite (bind_returned _ _ _ _ _ E)
    |rewrite (bind_threw _ _ _ _ _ E); left; eauto].
  assert (Hnone : exists pushed w',
            ret alerts w1 = (Returned (alerts ++ pushed), w') /\
            (List.length pushed <= 1)%nat).
  { exists [], w1. unfold ret. rewrite app_nil_r. split; [reflexivity|]. simpl. lia. }
  destruct forecasts as [[|f forecasts]|]; [right; exact Hnone| |right; exact Hnone].
  destruct (getSalesData db (sr_id product) 30 w1) as [[salesData|e] w2] eqn:E2;
    [rewrite (bind_returned _ _ _ _ _ E2)
    |rewrite (bind_threw _ _ _ _ _ E2); left; eauto].
  destruct (rows_of rt salesData w2) as [[rows|e] w3] eqn:E3;
    [rewrite (bind_returned _ _ _ _ _ E3)
    |rewrite (bind_threw _ _ _ _ _ E3); left; eauto].
  cbv zeta. destruct (num_ltb _ _).
  - destruct (createAlert_returns product high_demand
                (HighDemandPredicted (sr_name product)
                   (Math_round
                      (average_of
                         (map (fun f => of_Z (dr_predicted_demand f)) (f :: forecasts)))))
                w3) as (a & w' & Ea).
    rewrite (bind_returned _ _ _ _ _ Ea). unfold ret.
    right. exists [a], w'. split; [reflexivity|]. simpl. lia.
  - right. exists [], w3. unfold ret. rewrite app_nil_r.
    split; [reflexivity|]. simpl. lia.
Qed.

Lemma not_null_length alerts :
  (List.length (AlertService.not_null alerts) <= List.length alerts)%nat.
Proof.
  induction alerts as [|[a|] alerts IH]; simpl; lia.
Qed.

Lemma checkProductAlerts_returns product w :
  exists alerts w',
    AlertService.checkProductAlerts rt db idb product w = (Returned alerts, w') /\
    (List.length alerts <= 3)%nat.
Proof.
  unfold AlertService.checkProductAlerts.
  destruct (check_low_stock_pushes product [] w) as (p1 & w1 & -> & H1).
  destruct (check_overstock_pushes product ([] ++ p1) w1) as (p2 & w2 & -> & H2).
  destruct (check_high_demand_pushes product (([] ++ p1) ++ p2) w2)
    as [(e & w3 & ->)|(p3 & w3 & -> & H3)].
  - eexists. eexists. split; [reflexivity|].
    pose proof (not_null_length (([] ++ p1) ++ p2)) as H.
    rewrite !length_app in H. cbn [List.length Nat.add] in H. lia.
  - eexists. eexists. split; [reflexivity|].
    pose proof (not_null_length ((([] ++ p1) ++ p2) ++ p3)) as H.
    rewrite !length_app in H. cbn [List.length Nat.add] in H. lia.
Qed.

End AlertFacts.

(** [createAlert] never throws, and skips a duplicate without writing:
    when one of the unread alerts it reads is of the same product and type
    and younger than 24 hours, it answers [null] and leaves the world as
    the query left it; when none is, it answers the alert the database
    created; and when the query or the insertion fails, it answers [null]
    as well. *)
Theorem createAlert_skips_recent_duplicates {World : Type}
  (idb : inventoryHelpers World) (product : stock_row) (alertType : alert_type)
  (message : alert_message) (w : World) :
  (exists a w',
     AlertService.createAlert idb product alertType message w = (Returned a, w')) /\
  (forall e w1,
     getAlerts idb (Some false) 10 w = (Threw e, w1) ->
     AlertService.createAlert idb product alertType message w = (Returned None, w1)) /\
  (forall existing w1,
     getAlerts idb (Some false) 10 w = (Returned existing, w1) ->
     ((exists a, In a existing /\
                 alert_product_id a = sr_id product /\
                 alert_alert_type a = alertType /\
                 (Date_now_ms idb w1 - 86400000 < created_at a)%Z) ->
      AlertService.createAlert idb product alertType message w =
        (Returned None, w1)) /\
     ((forall a, In a existing ->
                 alert_product_id a = sr_id product ->
                 alert_alert_type a = alertType ->
                 (created_at a <= Date_now_ms idb w1 - 86400000)%Z) ->
      (forall a w2,
         db_createAlert idb (mkAlertData (sr_id product) alertType message) w1 =
           (Returned a, w2) ->
         AlertService.createAlert idb product alertType message w =
           (Returned (Some a), w2)) /\
      (forall e w2,
         db_createAlert idb (mkAlertData (sr_id product) alertType message) w1 =
           (Threw e, w2) ->
         AlertService.createAlert idb product alertType message w =
           (Returned None, w2)))).
Proof.
  assert (Heqb : forall a b, alert_type_eqb a b = true <-> a = b).
  { intros a b. destruct a, b; simpl; split; intros H; try reflexivity; discriminate. }
  split; [apply createAlert_returns|]. split.
  - intros e w1 E. unfold AlertService.createAlert, try_catch.
    now rewrite (bind_threw _ _ _ _ _ E).
  - intros existing w1 E. split.
    + intros (a & Hin & Hid & Htype & Hrecent).
      unfold AlertService.createAlert, try_catch.
      rewrite (bind_returned _ _ _ _ _ E). cbv zeta.
      destruct (find _ existing) as [recent|] eqn:Efind; [reflexivity|].
      exfalso. pose proof (find_none _ _ Efind a Hin) as Hnot. cbv beta in Hnot.
      rewrite Hid, String.eqb_refl, (proj2 (Heqb _ _) Htype) in Hnot.
      simpl in Hnot. apply Z.ltb_ge in Hnot. change (24 * 60 * 60 * 1000)%Z with 86400000%Z in Hnot. lia.
    + intros Hnone.
      assert (Efind : find (fun a =>
                         String.eqb (alert_product_id a) (sr_id product)
                         && alert_type_eqb (alert_alert_type a) alertType
                         && Z.ltb (Date_now_ms idb w1 - 24 * 60 * 60 * 1000)%Z
                                  (created_at a)) existing = None).
      { destruct (find _ existing) as [recent|] eqn:Efind; [|reflexivity].
        exfalso. apply find_some in Efind. destruct Efind as [Hin Hb].
        apply andb_prop in Hb. destruct Hb as [Hb Hrecent].
        apply andb_prop in Hb. destruct Hb as [Hid Htype].
        apply String.eqb_eq in Hid. apply Heqb in Htype. apply Z.ltb_lt in Hrecent.
        pose proof (Hnone recent Hin Hid Htype).
        change (24 * 60 * 60 * 1000)%Z with 86400000%Z in Hrecent. lia. }
      split.
      * intros a w2 Ec. unfold AlertService.createAlert, try_catch.
        rewrite (bind_returned _ _ _ _ _ E). cbv zeta. rewrite Efind.
        now rewrite (bind_returned _ _ _ _ _ Ec).
      * intros e w2 Ec. unfold AlertService.createAlert, try_catch.
        rewrite (bind_returned _ _ _ _ _ E). cbv zeta. rewrite Efind.
        now rewrite (bind_threw _ _ _ _ _ Ec).
Qed.

(** The inventory check survives every failure below the product query:
    for each product it collects at most three alerts, whether the alert
    and forecast queries succeed or not, so that it returns at most three
    alerts for each product; it throws only what the product query
    throws. *)
Theorem inventory_check_survives_failures {World : Type}
  (rt : Runtime World) (db : dbHelpers World) (idb : inventoryHelpers World)
  (w : World) :
  (forall product w0,
     exists alerts w',
       AlertService.checkProductAlerts rt db idb product w0 = (Returned alerts, w') /\
       (List.length alerts <= 3)%nat) /\
  (forall e w1,
     getStockRows idb 1000 w = (Threw e, w1) ->
     AlertService.checkInventoryLevels rt db idb w = (Threw e, w1)) /\
  (forall products w1,
     getStockRows idb 1000 w = (Returned products, w1) ->
     exists alerts w',
       AlertService.checkInventoryLevels rt db idb w = (Returned alerts, w') /\
       (List.length alerts <= 3 * List.length products)%nat).
Proof.
  split; [intros product w0; apply checkProductAlerts_returns|]. split.
  - intros e w1 E. unfold AlertService.checkInventoryLevels. rewrite try_rethrow.
    now rewrite (bind_threw _ _ _ _ _ E).
  - intros products w1 E. unfold AlertService.checkInventoryLevels.
    rewrite try_rethrow, (bind_returned _ _ _ _ _ E).
    destruct (for_of_extends
                (fun (_ : stock_row) (bs : list alert) => (List.length bs <= 3)%nat)
                (fun product alerts =>
                   productAlerts <- AlertService.checkProductAlerts rt db idb product ;;
                   ret (alerts ++ productAlerts))
                products) with (s := @nil alert) (w := w1)
      as (bss & w' & E' & Hall).
    { intros product s w0 _.
      destruct (checkProductAlerts_returns rt db idb product w0) as (alerts & w0' & E0 & H0).
      exists alerts, w0'. rewrite (bind_returned _ _ _ _ _ E0). auto. }
    exists (List.concat bss), w'. split; [exact E'|]. clear E E'.
    induction Hall as [|p bs l bss Hb _ IH]; cbn [List.concat List.length]; [lia|].
    cbv beta in Hb. rewrite length_app. lia.
Qed.

(** Marking all alerts as read reports on every unread alert, in order:
    one entry for each alert the query returned, with its id, marked as a
    success exactly when the update did not fail; a failing update does
    not stop the loop.  Only a failure of the query itself is thrown. *)
Theorem marking_all_reports_every_alert {World : Type}
  (idb : inventoryHelpers World) (w : World) :
  (forall e w1,
     getAlerts idb (Some false) 1000 w = (Threw e, w1) ->
     AlertService.markAllAlertsAsRead idb w = (Threw e, w1)) /\
  (forall unread w1,
     getAlerts idb (Some false) 1000 w = (Returned unread, w1) ->
     exists results w',
       AlertService.markAllAlertsAsRead idb w = (Returned results, w') /\
       map AlertService.mr_id results = map alert_id unread /\
       Forall (fun r => AlertService.mr_success r = true <->
                        AlertService.mr_error r = None) results).
Proof.
  split.
  - intros e w1 E.
    assert (Eu : AlertService.getUnreadAlerts idb 1000 w = (Threw e, w1)).
    { unfold AlertService.getUnreadAlerts. now rewrite try_rethrow. }
    unfold AlertService.markAllAlertsAsRead.
    rewrite try_rethrow. now rewrite (bind_threw _ _ _ _ _ Eu).
  - intros unread w1 E.
    assert (Eu : AlertService.getUnreadAlerts idb 1000 w = (Returned unread, w1)).
    { unfold AlertService.getUnreadAlerts. now rewrite try_rethrow. }
    unfold AlertService.markAllAlertsAsRead.
    rewrite try_rethrow, (bind_returned _ _ _ _ _ Eu).
    destruct (for_of_pushes (fun _ : World => True)
                (fun (a : alert) (r : AlertService.mark_result) =>
                   AlertService.mr_id r = alert_id a /\
                   (AlertService.mr_success r = true <-> AlertService.mr_error r = None))
                (fun a results =>
                   try_catch
                     (result <- AlertService.markAlertAsRead idb (alert_id a) ;;
                      ret (results ++ [AlertService.mkMarkResult (alert_id a) true None]))
                     (fun error =>
                        ret (results ++
                               [AlertService.mkMarkResult (alert_id a) false
                                  (Some (exn_message error))])))
                unread) with (s := @nil AlertService.mark_result) (w := w1)
      as (results & w' & E' & _ & Hall); auto.
    { intros a s w0 _ _. unfold try_catch, bind.
      destruct (AlertService.markAlertAsRead idb (alert_id a) w0) as [[row|e] w0'];
        unfold ret; eexists; eexists; (split; [reflexivity|]);
        (split; [exact Logic.I|]); simpl; (split; [reflexivity|]);
        split; intros H; try reflexivity; discriminate. }
    exists results, w'. split; [exact E'|]. clear E Eu E'. split.
    + induction Hall as [|a r l rs [Hr _] _ IH]; simpl; congruence.
    + induction Hall as [|a r l rs [_ Hr] _ IH]; constructor; auto.
Qed.

(* ================================================================= *)
(** * The predictions of the TrendWise model *)



Lemma for_of_app {World A S : Type} (l1 l2 : list A)
  (body : A -> S -> M World S) (s : S) (w : World) :
  for_of (l1 ++ l2) body s w = bind (for_of l1 body s) (for_of l2 body) w.
Proof.
  revert s w. induction l1 as [|x l1 IH]; intros s w; simpl.
  - reflexivity.
  - unfold bind. destruct (body x s w) as [[s1|e] w1]; [|reflexivity].
    rewrite IH. reflexivity.
Qed.

(** Saving the predictions of the model stops at the first forecast the
    database rejects: when the predictions before it were saved, the
    product of the prediction is found and [createForecast] throws, the
    whole save throws that error, where the [catch] of
    [createInventoryAlert] would have ignored it: the predictions after it
    are neither stored nor turned into alerts. *)
Theorem saving_stops_at_a_rejected_forecast {World : Type}
  (rt : Runtime World) (db : dbHelpers World) (idb : inventoryHelpers World)
  (before after : list TrendWiseService.model_prediction)
  (p : TrendWiseService.model_prediction) (leadTimeDays : Z)
  (w w1 w2 w3 : World) (productId : string) (e : exn) :
  TrendWiseService.savePredictionsToDB rt db idb before leadTimeDays w =
    (Returned tt, w1) ->
  selectIdBySku idb (TrendWiseService.mp_sku p) w1 = (Returned (Some productId), w2) ->
  createForecast db
    (TrendWiseService.forecastOf productId (date_ahead rt w leadTimeDays) p) w2 =
    (Threw e, w3) ->
  TrendWiseService.savePredictionsToDB rt db idb (before ++ p :: after) leadTimeDays w =
    (Threw e, w3).
Proof.
  assert (Hrun : forall predictions,
            TrendWiseService.savePredictionsToDB rt db idb predictions leadTimeDays w =
            for_of predictions
              (fun prediction (_ : unit) =>
                 product <- selectIdBySku idb (TrendWiseService.mp_sku prediction) ;;
                 match product with
                 | None => ret tt
                 | Some productId =>
                     _ <- createForecast db
                            (TrendWiseService.forecastOf productId
                               (date_ahead rt w leadTimeDays) prediction) ;;
                     TrendWiseService.createInventoryAlert idb productId prediction
                 end)
              tt w).
  { intros predictions. unfold TrendWiseService.savePredictionsToDB.
    rewrite try_rethrow. reflexivity. }
  rewrite !Hrun. intros Ebefore Esku Ecreate.
  rewrite for_of_app, (bind_returned _ _ _ _ _ Ebefore).
  cbn [for_of]. unfold bind at 1.
  rewrite (bind_returned _ _ _ _ _ Esku).
  now rewrite (bind_threw _ _ _ _ _ Ecreate).
Qed.

(** ** The in-memory world *)

Lemma InMemory_sqrt_zero : sqrt_zero InMemory.runtime.
Proof.
  intros q Hq. simpl. unfold InMemory.sqrt_6.
  rewrite (Qfloor_comp _ 0) by (rewrite Hq; reflexivity).
  reflexivity.
Qed.

Lemma InMemory_sqrt_nonneg : sqrt_nonneg InMemory.runtime.
Proof.
  intros q _. simpl. unfold InMemory.sqrt_6.
  apply Qle_shift_div_l; [reflexivity|]. rewrite Qmult_0_l.
  change 0 with (inject_Z 0). rewrite <- Zle_Qle. apply Z.sqrt_nonneg.
Qed.

Lemma InMemory_random_in_range : random_in_range InMemory.runtime.
Proof.
  intros w. simpl. unfold InMemory.next_draw.
  destruct (InMemory.draws w) as [|z rest]; simpl; [lra|].
  unfold InMemory.hundredths.
  pose proof (Z.mod_pos_bound z 100 eq_refl) as [H0 H100].
  rewrite Zle_Qle in H0. rewrite Zlt_Qlt in H100.
  change (inject_Z 0) with 0 in H0. change (inject_Z 100) with 100 in H100.
  split.
  - apply Qle_shift_div_l; lra.
  - apply Qlt_shift_div_r; lra.
Qed.

Lemma InMemory_draw_keeps w0 w :
  same_tables w0 w -> same_tables w0 (snd (Math_random InMemory.runtime w)).
Proof.
  intros Hw. simpl. unfold InMemory.next_draw.
  destruct (InMemory.draws w); exact Hw.
Qed.

Lemma InMemory_after_draws w0 n w :
  same_tables w0 w -> same_tables w0 (after_draws InMemory.runtime n w).
Proof.
  revert w. induction n as [|n IH]; intros w Hw; [exact Hw|].
  cbn [after_draws]. now apply IH, InMemory_draw_keeps.
Qed.

Lemma InMemory_reads w0 productId limit (P : list sale -> Prop) :
  P (InMemory.select_sales productId limit w0) ->
  reads InMemory.db (same_tables w0) productId limit P.
Proof.
  intros HP w Hw. eexists. eexists. split; [reflexivity|].
  split; [|exact Hw].
  unfold InMemory.select_sales. destruct Hw as [Hw _]. now rewrite Hw.
Qed.

(** The in-memory table accepts a row the schema accepts, when the row is
    about one of the products. *)
Lemma InMemory_creates w0 w data :
  same_tables w0 w ->
  storable data = true ->
  In (fd_product_id data) (map product_id (InMemory.products w0)) ->
  exists w',
    createForecast InMemory.db data w = (Returned (stored data), w') /\
    same_tables w0 w'.
Proof.
  intros Hw Hdata Hin. cbn [createForecast InMemory.db].
  unfold InMemory.create_forecast, storable in *.
  destruct (refusal data); [discriminate|].
  assert (Hp : InMemory.is_product (fd_product_id data) w = true).
  { unfold InMemory.is_product. destruct Hw as [_ ->].
    apply existsb_exists. apply in_map_iff in Hin.
    destruct Hin as (p & Hp & Hin). exists p. split; [exact Hin|].
    rewrite Hp. apply String.eqb_refl. }
  rewrite Hp. eexists. split; [reflexivity|exact Hw].
Qed.

Lemma InMemory_create_each w0 rows w :
  same_tables w0 w ->
  Forall (fun row =>
            storable row = true /\
            In (fd_product_id row) (map product_id (InMemory.products w0))) rows ->
  exists answers w',
    create_each InMemory.db rows w = (Returned answers, w') /\
    same_tables w0 w'.
Proof.
  intros Hw Hrows. unfold create_each. rewrite Forall_forall in Hrows.
  destruct (for_of_pushes (same_tables w0)
              (fun (_ : forecastData) (_ : forecastData) => True)
              (fun row records =>
                 record <- createForecast InMemory.db row ;;
                 ret (records ++ [record]))
              rows) with (s := @nil forecastData) (w := w)
    as (answers & w' & E & Hw' & _); auto.
  - intros row s w1 Hin Hw1. destruct (Hrows row Hin) as [Hrow Hp].
    destruct (InMemory_creates w0 w1 row Hw1 Hrow Hp) as (w2 & E2 & Hw2).
    exists (stored row), w2. rewrite (bind_returned _ _ _ _ _ E2). auto.
  - now exists answers, w'.
Qed.

(** In the in-memory world [generateForecast] succeeds for a product of
    the table that has 7 sales rows or more, on two dates or more for the
    linear trend, and a mean that is not 0. *)
Lemma InMemory_succeeds w0 productId model m days :
  select_model model = OwnMethod m ->
  (7 <= List.length (InMemory.select_sales productId 90 w0))%nat ->
  (m = LinearTrend ->
   (2 <= List.length
           (aggregateDailySales (InMemory.select_sales productId 90 w0)))%nat) ->
  ~ history_mean (aggregateDailySales (InMemory.select_sales productId 90 w0)) == 0 ->
  In productId (map product_id (InMemory.products w0)) ->
  succeeds InMemory.runtime InMemory.db (same_tables w0) productId model days.
Proof.
  intros Hm Hlen Htrend Hmean Hin w Hw.
  set (rows := InMemory.select_sales productId 90 w0) in *.
  assert (E : getSalesData InMemory.db productId 90 w = (Returned (Some rows), w)).
  { cbn [getSalesData InMemory.db]. unfold rows, InMemory.select_sales.
    destruct Hw as [-> _]. reflexivity. }
  assert (Hne : aggregateDailySales rows <> []).
  { intros H. apply Hmean. rewrite H. reflexivity. }
  destruct (own_method_predicts_integers InMemory.runtime m (aggregateDailySales rows)
              days w Hne Htrend) as (predictions & w2 & E2 & _ & Hints).
  assert (Hw2 : same_tables w0 w2).
  { pose proof (call_model_world InMemory.runtime m (aggregateDailySales rows) days w)
      as Hworld.
    rewrite E2 in Hworld. cbn [snd] in Hworld. rewrite Hworld.
    destruct m; [now apply InMemory_after_draws|exact Hw|exact Hw]. }
  destruct (InMemory_create_each w0
              (map (forecast_row productId model)
                 (calculateConfidenceIntervals InMemory.runtime predictions
                    (aggregateDailySales rows))) w2 Hw2)
    as (records & w3 & E3 & Hw3).
  { rewrite calculateConfidenceIntervals_map. apply Forall_map, Forall_map.
    eapply Forall_impl; [|exact Hints]. intros p (z & Hz & Hz0).
    split; [|exact Hin].
    apply well_formed_forecast_storable.
    now apply (interval_of_integer_is_well_formed InMemory.runtime _ p z
                 InMemory_sqrt_nonneg). }
  rewrite <- saveForecastToDatabase_creates in E3.
  rewrite (generateForecast_stores InMemory.runtime InMemory.db productId model m
             days w rows w predictions w2 records w3 E Hlen Hm E2 E3).
  eexists. eexists. split; [reflexivity|exact Hw3].
Qed.

(** The in-memory table accepts the forecast the controller makes of
    sales rows that add up to more than 0, whatever the day and the random
    number. *)
Lemma InMemory_accepts_the_controller w0 productId rows forecastDate i r w :
  rows <> [] -> (0 < sales_total rows)%Z ->
  In productId (map product_id (InMemory.products w0)) ->
  same_tables w0 w ->
  exists saved w',
    createForecast InMemory.db
      (controller_forecast InMemory.runtime productId (sales_average rows)
         (sales_volatility InMemory.runtime rows) forecastDate i (Fin r)) w =
      (Returned saved, w') /\
    same_tables w0 w'.
Proof.
  intros Hne Hpos Hin Hw.
  destruct (InMemory_creates w0 w
              (controller_forecast InMemory.runtime productId (sales_average rows)
                 (sales_volatility InMemory.runtime rows) forecastDate i (Fin r)) Hw)
    as (w' & E & Hw').
  - apply (well_formed_row_storable 0.5).
    rewrite (sales_average_Fin _ Hne), (sales_volatility_Fin InMemory.runtime _ Hne).
    apply controller_forecast_positive.
    + now apply sales_mean_pos.
    + apply InMemory_sqrt_nonneg, Qvariance_nonneg.
      now apply sale_quantities_nonempty.
  - exact Hin.
  - eexists. exists w'. split; [exact E|exact Hw'].
Qed.

Lemma week_of_constant_zero : constant_zero (week_of 0).
Proof. split; [discriminate|]. unfold week_of. simpl. repeat constructor. Qed.

(** ** The claims on examples *)

Import InMemory.
Local Open Scope string_scope.

(** C1 at scenario A of the spec: stock 5 under a forecast of 10 is
    Increase, however large the safety stock. *)
Lemma recommendation_ordering_example :
  5 < 10 /\ recommend 5 10 1000 = Increase.
Proof.
  split; [reflexivity|].
  apply (proj1 (recommendation_ordering 5 10 1000)). reflexivity.
Defined.

(** C4 fails on the controller: of two products, one without sales and one
    with five rows, the answer holds a single entry, the success; nothing
    records the product that was skipped. *)
Lemma controller_skip_leaves_no_entry :
  fst (bulkGenerateForecasts runtime db 1 (five_rows [50%Z])) =
  Returned (res_bulk 1 1 0 [mkEntry "P1" "Widget" true None]).
Proof. vm_compute. reflexivity. Qed.

(** C5 fails on the code: seven rows on seven days, far fewer than 90
    periods, are modelled and yield a forecast. *)
Lemma seven_rows_are_enough :
  List.length (select_sales "P1" 90 (steady_week [])) = 7%nat /\
  exists result,
    fst (generateForecast runtime db "P1" "exponential_smoothing" 1
           (steady_week [])) = Returned result /\
    map predicted_demand (fr_predictions result) = [of_Z 100].
Proof.
  split; [reflexivity|]. eexists. split; vm_compute; reflexivity.
Qed.

(** C6 fails on the code: the same sales, the same day, the same model
    and horizon, and two different forecasts, 95 and 105, after two
    different values of [Math.random()]. *)
Lemma same_inputs_different_forecasts :
  exists r1 r2,
    fst (generateForecast runtime db "P1" "simple_moving_average" 1
           (steady_week [0%Z])) = Returned r1 /\
    fst (generateForecast runtime db "P1" "simple_moving_average" 1
           (steady_week [99%Z])) = Returned r2 /\
    map predicted_demand (fr_predictions r1) = [of_Z 95] /\
    map predicted_demand (fr_predictions r2) = [of_Z 105].
Proof.
  eexists. eexists.
  split; [|split; [|split]]; vm_compute; reflexivity.
Qed.

(** C8 fails on the code: on a week of 100 a day, whose trailing mean is
    100, the two points forecast are 95 and 105: neither flat nor the
    mean. *)
Lemma moving_average_is_not_flat :
  trailing_mean 7 (week_of 100) == 100 /\
  fst (simpleMovingAverage runtime (week_of 100) 2 7 (steady_week [0%Z; 99%Z])) =
  Returned [mkPrediction 9%Z (of_Z 95); mkPrediction 10%Z (of_Z 105)].
Proof. split; vm_compute; reflexivity. Qed.

(** C4 on a batch of two: P2 never sold, P1 sold for a week. *)
Lemma bulk_generation_example :
  reads db (same_tables (steady_week [])) "P2" 90 (fun rows => rows = []) /\
  succeeds runtime db (same_tables (steady_week [])) "P1" "simple_moving_average" 14 /\
  exists results w',
    generateBulkForecasts runtime db ([] ++ "P2" :: ["P1"])%list
      "simple_moving_average" (steady_week []) = (Returned results, w') /\
    map entry_productId results = ([] ++ "P2" :: ["P1"])%list /\
    filter (fun e => negb (entry_success e)) results =
      [bulk_failure "P2" "Insufficient historical data for forecasting"] /\
    List.length (filter entry_success results) = (0 + 1)%nat.
Proof.
  assert (Hbad : reads db (same_tables (steady_week [])) "P2" 90
                   (fun rows => rows = [])).
  { apply InMemory_reads. reflexivity. }
  assert (Hgood : succeeds runtime db (same_tables (steady_week [])) "P1"
                    "simple_moving_average" 14).
  { apply (InMemory_succeeds (steady_week []) "P1" "simple_moving_average"
             SimpleMovingAverage 14).
    - reflexivity.
    - vm_compute. lia.
    - discriminate.
    - intros E. vm_compute in E. discriminate E.
    - right. left. reflexivity. }
  split; [exact Hbad|]. split; [exact Hgood|].
  apply (proj1 (bulk_generation_isolates_products runtime db)
           (same_tables (steady_week [])) "simple_moving_average"
           [] "P2" ["P1"] (steady_week [])).
  - split; reflexivity.
  - exact Hbad.
  - intros p [<-|[]]. exact Hgood.
Defined.

(** C5 on P1 and its seven rows. *)
Lemma history_threshold_example :
  (7 <= List.length (select_sales "P1" 90 (steady_week [])))%nat /\
  exists records w3,
    List.length records = 3%nat /\
    generateForecast runtime db "P1" "linear_trend" 3%nat (steady_week []) =
      (Returned
         (mkResult "P1" "linear_trend" records (today runtime w3)
            (List.length
               (aggregateDailySales (select_sales "P1" 90 (steady_week []))))),
       w3).
Proof.
  assert (Hlen : (7 <= List.length (select_sales "P1" 90 (steady_week [])))%nat).
  { vm_compute. lia. }
  split; [exact Hlen|].
  destruct (proj1 (proj2 (history_threshold_is_seven_rows runtime db))
              "P1" "linear_trend" LinearTrend 3%nat (steady_week [])
              (select_sales "P1" 90 (steady_week [])) (steady_week [])
              eq_refl Hlen eq_refl)
    as (predictions & w2 & E2 & _ & Hret & _).
  assert (E2' : (Returned (PredictionArray predictions), w2) =
                call_model runtime (OwnMethod LinearTrend)
                  (aggregateDailySales (select_sales "P1" 90 (steady_week [])))
                  3%nat (steady_week [])) by (symmetry; exact E2).
  vm_compute in E2'. injection E2' as -> ->.
  eexists. eexists. apply Hret. vm_compute. reflexivity.
Defined.

(** C6 on two worlds that differ in their tables only. *)
Lemma determined_by_the_draws_example :
  next_draws runtime 2%nat (steady_week [10; 20]%Z) =
    next_draws runtime 2%nat (idle_week [10; 20]%Z) /\
  exists predictions1 w1' predictions2 w2',
    call_model runtime (OwnMethod SimpleMovingAverage) (week_of 100) 2%nat
      (steady_week [10; 20]%Z) = (Returned (PredictionArray predictions1), w1') /\
    call_model runtime (OwnMethod SimpleMovingAverage) (week_of 100) 2%nat
      (idle_week [10; 20]%Z) = (Returned (PredictionArray predictions2), w2') /\
    map predicted predictions1 = map predicted predictions2 /\
    map forecast_numbers
      (calculateConfidenceIntervals runtime predictions1 (week_of 100)) =
    map forecast_numbers
      (calculateConfidenceIntervals runtime predictions2 (week_of 100)) /\
    ((forall i, In i (one_to 2%nat) ->
                date_ahead runtime (steady_week [10; 20]%Z) (Z.of_nat i) =
                date_ahead runtime (idle_week [10; 20]%Z) (Z.of_nat i)) ->
     predictions1 = predictions2).
Proof.
  split; [reflexivity|].
  apply (forecast_is_determined_by_the_draws runtime SimpleMovingAverage
           (week_of 100) 2%nat (steady_week [10; 20]%Z) (idle_week [10; 20]%Z)).
  left. reflexivity.
Defined.

(** C7 on a week without sales. *)
Lemma zero_history_example :
  constant_zero (week_of 0) /\
  Forall (fun f => confidence_score f = NaN)
    (calculateConfidenceIntervals runtime [mkPrediction 9%Z (Fin 0)] (week_of 0)).
Proof.
  split; [apply week_of_constant_zero|].
  apply (zero_history_has_no_confidence runtime [mkPrediction 9%Z (Fin 0)]
           (week_of 0) InMemory_sqrt_zero week_of_constant_zero).
Defined.

(** C8 on a week of 100 a day. *)
Lemma moving_average_example :
  week_of 100 <> [] /\
  exists predictions,
    simpleMovingAverage runtime (week_of 100) 2%nat 7%nat (steady_week [0; 99]%Z) =
      (Returned predictions, after_draws runtime 2%nat (steady_week [0; 99]%Z)) /\
    List.length predictions = 2%nat /\
    Forall2
      (fun r p =>
         exists z,
           predicted p = of_Z z /\ (0 <= z)%Z /\
           (0 <= trailing_mean 7 (week_of 100) ->
            trailing_mean 7 (week_of 100) * (1 + (r - 0.5) * 0.1) - 1 < inject_Z z /\
            inject_Z z < trailing_mean 7 (week_of 100) * (1 + (r - 0.5) * 0.1) + 1 /\
            0.95 * trailing_mean 7 (week_of 100) - (1 # 2) <= inject_Z z /\
            inject_Z z <= 1.05 * trailing_mean 7 (week_of 100) + (1 # 2)))
      (next_draws runtime 2%nat (steady_week [0; 99]%Z)) predictions /\
    Forall2
      (fun p f =>
         exists z,
           predicted p = of_Z z /\
           fc_predicted f = of_Z z /\
           num_eq (lower_bound f)
             (of_Z (Z.max 0 (z - half_width runtime (week_of 100)))) /\
           num_eq (upper_bound f) (of_Z (z + half_width runtime (week_of 100))))
      predictions (calculateConfidenceIntervals runtime predictions (week_of 100)).
Proof.
  split; [discriminate|].
  apply (moving_average_follows_the_draws runtime (week_of 100) 2%nat
           (steady_week [0; 99]%Z) InMemory_random_in_range).
  discriminate.
Defined.

(** C9 on a week without sales: the forecast of P1 is refused. *)
Lemma zero_series_is_refused_example :
  constant_zero (aggregateDailySales (select_sales "P1" 90 (idle_week []))) /\
  generateForecast runtime db "P1" "exponential_smoothing" 3%nat (idle_week []) =
    (Threw (Error "null value in column confidence_score violates not-null constraint"),
     idle_week []).
Proof.
  assert (Hzero : constant_zero
                    (aggregateDailySales (select_sales "P1" 90 (idle_week [])))).
  { change (aggregateDailySales (select_sales "P1" 90 (idle_week [])))
      with (week_of 0).
    apply week_of_constant_zero. }
  split; [exact Hzero|].
  destruct (zero_series_is_refused runtime db "P1" "exponential_smoothing"
              ExponentialSmoothing 3%nat (idle_week [])
              (select_sales "P1" 90 (idle_week [])) (idle_week [])
              InMemory_sqrt_zero eq_refl)
    as (predictions & w2 & first & others & E2 & _ & Hall & Hthrow).
  - vm_compute. lia.
  - exact Hzero.
  - reflexivity.
  - discriminate.
  - lia.
  - apply Hthrow.
    pose proof (call_model_world runtime ExponentialSmoothing
                  (aggregateDailySales (select_sales "P1" 90 (idle_week [])))
                  3%nat (idle_week [])) as Hworld.
    rewrite E2 in Hworld. cbn [snd] in Hworld. subst w2.
    inversion Hall as [|? ? (_ & _ & _ & _ & Hrefused) _]; subst.
    cbn [createForecast db]. unfold create_forecast. now rewrite Hrefused.
Defined.

(** C10 on P1 and its seven rows. *)
Lemma inherited_name_example :
  (7 <= List.length (select_sales "P1" 90 (steady_week [])))%nat /\
  select_model "toString" = Inherited "toString" /\
  generateForecast runtime db "P1" "toString" 14%nat (steady_week []) =
    (Threw (TypeError (engine_message runtime "predictions.map")), steady_week []).
Proof.
  split; [vm_compute; lia|].
  apply (inherited_name_is_not_defaulted runtime db "P1" 14%nat (steady_week [])
           (select_sales "P1" 90 (steady_week [])) (steady_week [])).
  - reflexivity.
  - vm_compute. lia.
Defined.

(** The controller on the week without sales: the quotient of two zeros
    reaches the bounds as well as the confidence, and the table refuses
    the forecast. *)
Lemma controller_zero_week :
  (let forecastData :=
     controller_forecast runtime "P1"
       (sales_average (select_sales "P1" 90 (idle_week [50%Z])))
       (sales_volatility runtime (select_sales "P1" 90 (idle_week [50%Z])))
       9%Z 1%nat (Fin 0.5) in
   predicted_demand forecastData = of_Z 0 /\
   fd_confidence_score forecastData = NaN /\
   fd_lower_bound forecastData = NaN /\
   fd_upper_bound forecastData = NaN) /\
  fst (controller_generateForecast runtime db (Some "P1") 1 (idle_week [50%Z])) =
  Returned
    (res_error 500 "Failed to generate forecast"
       (Some "null value in column confidence_score violates not-null constraint")).
Proof. split; [repeat split|]; vm_compute; reflexivity. Qed.

(** The linear trend of a series that holds a single date divides 0 by 0:
    its prediction is NaN. *)
Lemma single_date_trend_is_NaN :
  fst (linearTrend runtime [mkDaily 1 70]%Z 1 (steady_week [])) =
  Returned [mkPrediction 9%Z NaN].
Proof. vm_compute. reflexivity. Qed.

(** The rule of the dashboard is another rule than the one of C1: it
    knows no safety stock, and stock 6 under a demand of 10 is "maintain". *)
Lemma dashboard_rule_is_another :
  getRecommendation 6 10 = maintain /\ recommend 6 10 0 = Increase.
Proof. split; reflexivity. Qed.

(** ** More of the code on examples *)

(** Two rows of one day and a row of the day before, in two orders. *)
Lemma aggregation_ignores_row_order_example :
  Permutation [mkSale 2 5; mkSale 1 7; mkSale 2 3]%Z
              [mkSale 1 7; mkSale 2 5; mkSale 2 3]%Z /\
  aggregateDailySales [mkSale 2 5; mkSale 1 7; mkSale 2 3]%Z =
  aggregateDailySales [mkSale 1 7; mkSale 2 5; mkSale 2 3]%Z.
Proof.
  split; [apply perm_swap|].
  apply (aggregation_ignores_row_order
           [mkSale 2 5; mkSale 1 7; mkSale 2 3]%Z
           [mkSale 1 7; mkSale 2 5; mkSale 2 3]%Z).
  apply perm_swap.
Defined.

(** Three rows over two days, as the query orders them. *)
Lemma grouping_keeps_date_order_example :
  StronglySorted Z.le (map sale_date [mkSale 1 5; mkSale 1 7; mkSale 2 3]%Z) /\
  StronglySorted Z.lt
    (map row_date (groupSalesByDate "WID-001" [mkSale 1 5; mkSale 1 7; mkSale 2 3]%Z)).
Proof.
  assert (H : StronglySorted Z.le (map sale_date [mkSale 1 5; mkSale 1 7; mkSale 2 3]%Z)).
  { cbn [map sale_date]. repeat constructor; lia. }
  split; [exact H|].
  apply (grouping_keeps_date_order "WID-001"
           [mkSale 1 5; mkSale 1 7; mkSale 2 3]%Z H).
Defined.

(** Exponential smoothing of a week of 100 a day. *)
Lemma exponential_smoothing_example :
  (0 <= 0.3 /\ 0.3 <= 1) /\
  week_of 100 <> [] /\
  Forall (fun d => (100 <= quantity d <= 100)%Z) (week_of 100) /\
  exists z predictions,
    (Z.max 0 100 <= z <= Z.max 0 100)%Z /\
    exponentialSmoothing runtime (week_of 100) 2%nat (Fin 0.3) (steady_week []) =
      (Returned predictions, steady_week []) /\
    map predicted predictions = repeat (of_Z z) 2%nat.
Proof.
  assert (H1 : 0 <= 0.3) by lra.
  assert (H2 : 0.3 <= 1) by lra.
  assert (H3 : week_of 100 <> []) by discriminate.
  assert (H4 : Forall (fun d => (100 <= quantity d <= 100)%Z) (week_of 100)).
  { unfold week_of. cbn [map seq]. repeat constructor; simpl; lia. }
  split; [split; assumption|]. split; [exact H3|]. split; [exact H4|].
  apply (exponential_smoothing_stays_in_range runtime (week_of 100) 2%nat 0.3
           100%Z 100%Z (steady_week []) H1 H2 H3 H4).
Defined.

(** A day of 1000 before a week of 100 a day changes nothing. *)
Lemma moving_average_window_example :
  List.length (week_of 100) = 7%nat /\
  simpleMovingAverage runtime ([mkDaily 0%Z 1000%Z] ++ week_of 100)%list 2%nat 7%nat
    (steady_week [0%Z; 99%Z]) =
  simpleMovingAverage runtime (week_of 100) 2%nat 7%nat (steady_week [0%Z; 99%Z]).
Proof.
  split; [reflexivity|].
  apply (moving_average_reads_the_last_entries runtime [mkDaily 0%Z 1000%Z] (week_of 100)
           2%nat 7%nat (steady_week [0%Z; 99%Z])).
  - lia.
  - reflexivity.
Defined.

(** The line 10, 12, 14 is continued by 16 and 18. *)
Lemma linear_trend_example :
  (2 <= List.length [mkDaily 1 10; mkDaily 2 12; mkDaily 3 14]%Z)%nat /\
  exists predictions,
    linearTrend runtime [mkDaily 1 10; mkDaily 2 12; mkDaily 3 14]%Z 2%nat
      (steady_week []) = (Returned predictions, steady_week []) /\
    map predicted predictions =
      map (fun i =>
             of_Z (Z.max 0
                     (10 + 2 * Z.of_nat
                                 (List.length
                                    [mkDaily 1 10; mkDaily 2 12; mkDaily 3 14]%Z
                                  + i - 1))))
        (one_to 2%nat).
Proof.
  split; [simpl; lia|].
  apply (linear_trend_continues_a_line runtime 10%Z 2%Z
           [mkDaily 1 10; mkDaily 2 12; mkDaily 3 14]%Z 2%nat (steady_week [])).
  - simpl. lia.
  - reflexivity.
Defined.

(** Seven sales of one day. *)
Lemma one_day_history_example :
  Forall (fun s => sale_date s = 5%Z)
    [mkSale 5 1; mkSale 5 2; mkSale 5 3; mkSale 5 4; mkSale 5 5; mkSale 5 6;
     mkSale 5 7]%Z /\
  exists predictions,
    call_model runtime (OwnMethod LinearTrend)
      (aggregateDailySales
         [mkSale 5 1; mkSale 5 2; mkSale 5 3; mkSale 5 4; mkSale 5 5; mkSale 5 6;
          mkSale 5 7]%Z) 3%nat (steady_week []) =
      (Returned (PredictionArray predictions), steady_week []) /\
    List.length predictions = 3%nat /\
    Forall (fun f => fc_predicted f = NaN /\ lower_bound f = NaN /\
                     upper_bound f = NaN)
      (calculateConfidenceIntervals runtime predictions
         (aggregateDailySales
            [mkSale 5 1; mkSale 5 2; mkSale 5 3; mkSale 5 4; mkSale 5 5; mkSale 5 6;
             mkSale 5 7]%Z)).
Proof.
  assert (H : Forall (fun s => sale_date s = 5%Z)
                [mkSale 5 1; mkSale 5 2; mkSale 5 3; mkSale 5 4; mkSale 5 5;
                 mkSale 5 6; mkSale 5 7]%Z).
  { repeat constructor. }
  split; [exact H|].
  apply (one_day_history_has_no_trend runtime
           [mkSale 5 1; mkSale 5 2; mkSale 5 3; mkSale 5 4; mkSale 5 5; mkSale 5 6;
            mkSale 5 7]%Z 5%Z 3%nat (steady_week [])).
  - discriminate.
  - exact H.
Defined.

(** The three methods on a week of 100 a day. *)
Lemma forecast_intervals_example :
  ~ history_mean (week_of 100) == 0 /\
  exists predictions w',
    call_model runtime (OwnMethod LinearTrend) (week_of 100) 2%nat (steady_week []) =
      (Returned (PredictionArray predictions), w') /\
    List.length predictions = 2%nat /\
    Forall well_formed_forecast
      (calculateConfidenceIntervals runtime predictions (week_of 100)).
Proof.
  assert (H : ~ history_mean (week_of 100) == 0).
  { intros E. vm_compute in E. discriminate E. }
  split; [exact H|].
  apply (forecast_intervals_are_well_formed runtime (week_of 100) 2%nat LinearTrend
           (steady_week []) InMemory_sqrt_nonneg).
  - discriminate.
  - intros _. simpl. lia.
  - exact H.
Defined.

(** A model name that is unknown: the moving average, stored under the
    unknown name. *)
Lemma stored_under_the_requested_name_example :
  models_get "holt_winters" = Absent /\
  (models_get "holt_winters" = Absent -> SimpleMovingAverage = SimpleMovingAverage) /\
  exists predictions w2 sent,
    call_model runtime (OwnMethod SimpleMovingAverage)
      (aggregateDailySales (select_sales "P1" 90 (steady_week [50%Z]))) 1%nat
      (steady_week [50%Z]) = (Returned (PredictionArray predictions), w2) /\
    sent =
      map (forecast_row "P1" "holt_winters")
        (calculateConfidenceIntervals runtime predictions
           (aggregateDailySales (select_sales "P1" 90 (steady_week [50%Z])))) /\
    List.length sent = 1%nat /\
    Forall (fun row => fd_product_id row = "P1" /\ model_version row = "holt_winters")
      sent /\
    map forecast_date sent = map prediction_date predictions /\
    map predicted_demand sent = map predicted predictions /\
    generateForecast runtime db "P1" "holt_winters" 1%nat (steady_week [50%Z]) =
      (forecastRecords <- create_each db sent ;;
       now <- Date_now runtime ;;
       ret (mkResult "P1" "holt_winters" forecastRecords now
              (List.length
                 (aggregateDailySales (select_sales "P1" 90 (steady_week [50%Z]))))))
        w2.
Proof.
  split; [reflexivity|].
  apply (forecast_is_stored_under_the_requested_name runtime db
           "P1" "holt_winters" SimpleMovingAverage
           1%nat (steady_week [50%Z]) (select_sales "P1" 90 (steady_week [50%Z]))
           (steady_week [50%Z])).
  - reflexivity.
  - vm_compute. lia.
  - reflexivity.
Defined.

(** Two sales rows, of 10 and of 20. *)
Lemma controller_forecast_example :
  (0 < sales_total [mkSale 1 10; mkSale 2 20]%Z)%Z /\
  well_formed_row 0.5
    (controller_forecast runtime "P1" (sales_average [mkSale 1 10; mkSale 2 20]%Z)
       (sales_volatility runtime [mkSale 1 10; mkSale 2 20]%Z) 9%Z 1%nat (Fin 0.5)).
Proof.
  split; [reflexivity|].
  apply (controller_forecast_is_well_formed runtime "P1"
           [mkSale 1 10; mkSale 2 20]%Z 9%Z 1%nat 0.5 InMemory_sqrt_nonneg).
  - discriminate.
  - reflexivity.
Defined.


(** The handler on P1 and its week of 100 a day. *)
Lemma controller_serves_example :
  "P1" <> "" /\
  getProductById db "P1" (steady_week [50%Z; 50%Z]) =
    (Returned (Some P1), steady_week [50%Z; 50%Z]) /\
  (0 < sales_total (select_sales "P1" 90 (steady_week [50%Z; 50%Z])))%Z /\
  exists forecasts w',
    controller_generateForecast runtime db (Some "P1") 2%nat
      (steady_week [50%Z; 50%Z]) =
      (Returned
         (res_forecast P1 forecasts
            (mkMetadata
               (sales_average (select_sales "P1" 90 (steady_week [50%Z; 50%Z])))
               (toFixed2
                  (sales_volatility runtime
                     (select_sales "P1" 90 (steady_week [50%Z; 50%Z]))))
               (List.length (select_sales "P1" 90 (steady_week [50%Z; 50%Z])))
               2%nat)), w') /\
    same_tables (steady_week [50%Z; 50%Z]) w' /\
    List.length forecasts = 2%nat /\
    Forall (fun saved =>
              exists data w0 w0',
                createForecast db data w0 = (Returned saved, w0') /\
                fd_product_id data = "P1" /\
                model_version data = "v1.0" /\
                well_formed_row 0.5 data) forecasts.
Proof.
  assert (Hne : select_sales "P1" 90 (steady_week [50%Z; 50%Z]) <> []).
  { intros E. vm_compute in E. discriminate E. }
  assert (Hpos : (0 < sales_total (select_sales "P1" 90 (steady_week [50%Z; 50%Z])))%Z).
  { vm_compute. reflexivity. }
  split; [discriminate|]. split; [reflexivity|]. split; [exact Hpos|].
  apply (controller_serves_a_selling_product runtime db
           (same_tables (steady_week [50%Z; 50%Z])) "P1" 2%nat
           (steady_week [50%Z; 50%Z]) P1 (steady_week [50%Z; 50%Z])
           (select_sales "P1" 90 (steady_week [50%Z; 50%Z]))
           (steady_week [50%Z; 50%Z]) InMemory_sqrt_nonneg).
  - discriminate.
  - reflexivity.
  - reflexivity.
  - exact Hne.
  - exact Hpos.
  - split; reflexivity.
  - intros i w0 _ Hw0.
    apply (InMemory_accepts_the_controller (steady_week [50%Z; 50%Z]));
      [exact Hne|exact Hpos|right; left; reflexivity|].
    now apply InMemory_draw_keeps.
Defined.

(** A stocked product with a forecast of 10, and one without forecast. *)
Lemma stock_lists_example :
  getOverstockProducts
    (transformedProducts
       (Some [mkStockRow "P1" "Widget" "WID-001" 2%Z None None;
              mkStockRow "P2" "Gadget" "GAD-002" 7%Z None None])
       (Some [mkDemandRow "P1" 10%Z 0.8])) =
    filter (fun p => recommendation_eqb (recommendation p) reduce)
      (transformedProducts
         (Some [mkStockRow "P1" "Widget" "WID-001" 2%Z None None;
                mkStockRow "P2" "Gadget" "GAD-002" 7%Z None None])
         (Some [mkDemandRow "P1" 10%Z 0.8])) /\
  Forall (fun p => recommendation p = increase)
    (getLowStockProducts
       (transformedProducts
          (Some [mkStockRow "P1" "Widget" "WID-001" 2%Z None None;
                 mkStockRow "P2" "Gadget" "GAD-002" 7%Z None None])
          (Some [mkDemandRow "P1" 10%Z 0.8]))).
Proof.
  apply (stock_lists_agree_with_the_recommendation
           (Some [mkStockRow "P1" "Widget" "WID-001" 2%Z None None;
                  mkStockRow "P2" "Gadget" "GAD-002" 7%Z None None])
           (Some [mkDemandRow "P1" 10%Z 0.8])).
  intros fs f [= <-] [<-|[]]. simpl. lia.
Defined.

Lemma product_without_forecast_example :
  (0 < current_stock (mkStockRow "P2" "Gadget" "GAD-002" 7%Z None None))%Z /\
  predictedDemand
    (transformProduct (Some [mkDemandRow "P1" 10%Z 0.8])
       (mkStockRow "P2" "Gadget" "GAD-002" 7%Z None None)) = 0%Z /\
  confidence
    (transformProduct (Some [mkDemandRow "P1" 10%Z 0.8])
       (mkStockRow "P2" "Gadget" "GAD-002" 7%Z None None)) = 0 /\
  recommendation
    (transformProduct (Some [mkDemandRow "P1" 10%Z 0.8])
       (mkStockRow "P2" "Gadget" "GAD-002" 7%Z None None)) = reduce /\
  getOverstockProducts
    [transformProduct (Some [mkDemandRow "P1" 10%Z 0.8])
       (mkStockRow "P2" "Gadget" "GAD-002" 7%Z None None)] =
    [transformProduct (Some [mkDemandRow "P1" 10%Z 0.8])
       (mkStockRow "P2" "Gadget" "GAD-002" 7%Z None None)] /\
  getLowStockProducts
    [transformProduct (Some [mkDemandRow "P1" 10%Z 0.8])
       (mkStockRow "P2" "Gadget" "GAD-002" 7%Z None None)] = [].
Proof.
  split; [reflexivity|].
  apply (product_without_forecast_is_overstock (Some [mkDemandRow "P1" 10%Z 0.8])
           (mkStockRow "P2" "Gadget" "GAD-002" 7%Z None None)).
  - intros fs [= <-]. repeat constructor. discriminate.
  - reflexivity.
Defined.


(** A prediction whose forecast did not parse, before one that did: the
    first is rejected by the database and the second is never saved. *)
Lemma saving_stops_example :
  createForecast InMemoryInventory.store_db
    (TrendWiseService.forecastOf "P1"
       (date_ahead InMemoryInventory.store_runtime InMemoryInventory.one_product 7)
       (TrendWiseService.mkModelPrediction "WID-001" NaN "increase"))
    InMemoryInventory.one_product =
    (Threw (Error "null value in column predicted_demand violates not-null constraint"),
     InMemoryInventory.one_product) /\
  TrendWiseService.savePredictionsToDB InMemoryInventory.store_runtime InMemoryInventory.store_db
    InMemoryInventory.store_idb
    ([] ++ TrendWiseService.mkModelPrediction "WID-001" NaN "increase"
        :: [TrendWiseService.mkModelPrediction "WID-001" (Fin 12) "increase"])%list
    7%Z InMemoryInventory.one_product =
    (Threw (Error "null value in column predicted_demand violates not-null constraint"),
     InMemoryInventory.one_product).
Proof.
  split; [reflexivity|].
  apply (saving_stops_at_a_rejected_forecast InMemoryInventory.store_runtime
           InMemoryInventory.store_db InMemoryInventory.store_idb []
           [TrendWiseService.mkModelPrediction "WID-001" (Fin 12) "increase"]
           (TrendWiseService.mkModelPrediction "WID-001" NaN "increase") 7%Z
           InMemoryInventory.one_product InMemoryInventory.one_product
           InMemoryInventory.one_product InMemoryInventory.one_product "P1"
           (Error "null value in column predicted_demand violates not-null constraint")).
  - reflexivity.
  - reflexivity.
  - reflexivity.
Defined.
